(** * MCP server (main.py): a shallow embedding of the method handlers

    The server of [main.py] registers a fixed set of JSON-RPC method
    handlers (capabilities, model-context records, web search, sandboxed
    file tools, prompts) and drives them from a line-oriented stdio loop.
    This development embeds the handlers as functions over an explicit
    world (working directory, file store, environment, HTTP oracle, I/O
    log) and proves properties of them.

    What the handlers call but do not define is modelled as follows.
    - Values read by [json.load] and [json.loads] are [json] values;
      dictionaries keep insertion order and are association lists.
    - A [str] is given by the bytes of its generalised UTF-8 encoding
      (a lone surrogate has its three bytes); the content and the name
      of a file are bytes.  Python reads and writes text files as UTF-8
      with universal newlines ([decode_text], [utf8_valid]) and file
      names through the file system encoding, UTF-8 with surrogate
      escapes ([fsencode], [fsdecode]): the locale is a UTF-8 one.
    - A handler either returns a [Result] or raises ([res]); the file
      tools and the search adapters run in a state-and-exception monad
      [M] over the world, and each I/O call adds an event to its log.
    - The file store is that of a Linux system: directories and regular
      files, no symbolic links and no permissions, a name of at most 255
      bytes and a path of fewer than 4096.  So [Path.resolve] is the
      lexical canonicalisation [realpath]; [exists], [open], [unlink]
      and [iterdir] look a path up the way the kernel does ([walk]).
    - The interpreter's recursion limit is its default, 1000, all of it
      left to the JSON decoder; the digit limit of integer conversion is
      not modelled.
    - The text of [str(e)] for an exception of these calls, the text of
      [str(v)] for a value that is no [str], and the JSON-RPC library's
      [async_dispatch] are parameters. *)

From Stdlib Require Import ZArith Ascii String List Lia.
From stdpp Require Import base option list strings gmap pretty.

(** ** JSON values as Python sees them *)

(** A Python float read from a JSON literal.  The literal's exact decimal
    value [m * 10^e] is kept; [NaN], [Infinity] and [-Infinity] are the
    three constants [json.loads] accepts besides. *)
Inductive pyfloat : Type :=
| FDec (m e : Z)
| FInf (negative : bool)
| FNaN.

#[local] Unset Elimination Schemes.
Inductive json : Type :=
| JNull
| JBool (b : bool)
| JInt (z : Z)
| JFloat (f : pyfloat)
| JString (s : string)
| JArray (items : list json)
| JObject (members : list (string * json)).
#[local] Set Elimination Schemes.

(** A [dict] with string keys, in insertion order. *)
Abbreviation dict := (list (string * json)).

(** Exceptions the modelled code can meet.  [OSError] stands for its
    subclasses too ([FileNotFoundError] is errno 2, [NotADirectoryError]
    20, [IsADirectoryError] 21).  [JSONDecodeError], [UnicodeDecodeError]
    and [UnicodeEncodeError] are subclasses of [ValueError]; the code
    has no clause for [ValueError] itself, so they are kept apart. *)
Inductive exn : Type :=
| AttributeError
| TypeError
| ValueError
| KeyError
| JSONDecodeError
| RecursionError
| OSError (errno : Z)
| RequestException (detail : string)
| UnicodeDecodeError
| UnicodeEncodeError.

(** What a call produces: a value, or a raised exception. *)
Inductive res (A : Type) : Type :=
| Ok (a : A)
| Raised (e : exn).
Arguments Ok {A} a.
Arguments Raised {A} e.

Definition res_bind {A B} (r : res A) (k : A -> res B) : res B :=
  match r with
  | Ok a => k a
  | Raised e => Raised e
  end.

(** [class Error(Exception)] of main.py carries a code and a message; the
    handlers return such an object (they do not raise it).  [Success] is
    the result wrapper of the JSON-RPC library. *)
Inductive Result : Type :=
| Success (result : json)
| Error (code : Z) (message : string).

(** *** Dictionaries *)

Fixpoint dict_lookup (d : dict) (k : string) : option json :=
  match d with
  | [] => None
  | (k', v) :: d' => if decide (k' = k) then Some v else dict_lookup d' k
  end.

(** [d[k] = v]: a present key keeps its position. *)
Fixpoint dict_set (d : dict) (k : string) (v : json) : dict :=
  match d with
  | [] => [(k, v)]
  | (k', v') :: d' =>
      if decide (k' = k) then (k, v) :: d' else (k', v') :: dict_set d' k v
  end.

Definition dict_keys (d : dict) : list string := map fst d.

(** *** Truth value testing *)

Definition two_pow_1075 : Z := Eval vm_compute in (2 ^ 1075)%Z.

(** A decimal literal reads as the double [0.0] when its value rounds to
    zero: it is zero, or at most half the least subnormal, [2^-1075]. *)
Definition float_is_zero (f : pyfloat) : bool :=
  match f with
  | FDec m e =>
      if decide (m = 0%Z) then true
      else if decide (0 <= e)%Z then false
      else bool_decide (Z.abs m * two_pow_1075 <= 10 ^ (- e))%Z
  | FInf _ => false
  | FNaN => false
  end.

Definition truthy (v : json) : bool :=
  match v with
  | JNull => false
  | JBool b => b
  | JInt z => negb (bool_decide (z = 0%Z))
  | JFloat f => negb (float_is_zero f)
  | JString s => negb (bool_decide (s = ""))
  | JArray items => match items with [] => false | _ :: _ => true end
  | JObject members => match members with [] => false | _ :: _ => true end
  end.

(** *** Dynamic operations of the handlers *)

(** [obj.get(key, dflt)]: the attribute exists on a [dict] only; a
    [list] or [dict] key is unhashable; a key that is no [str] equals no
    key of a dictionary read from JSON. *)
Definition py_get (obj key dflt : json) : res json :=
  match obj with
  | JObject d =>
      match key with
      | JString k => Ok (default dflt (dict_lookup d k))
      | JArray _ | JObject _ => Raised TypeError
      | _ => Ok dflt
      end
  | _ => Raised AttributeError
  end.

(** [x or y] *)
Definition py_or (x y : json) : json := if truthy x then x else y.

(** [v == s] for a [str] literal [s] *)
Definition py_eq_str (v : json) (s : string) : bool :=
  match v with
  | JString t => bool_decide (t = s)
  | _ => false
  end.

(** An [Optional[str]] argument as a value. *)
Definition of_optional_str (o : option string) : json :=
  match o with
  | Some s => JString s
  | None => JNull
  end.

(** ** [json.loads]

    The decoder of the standard library, as its scanner reads a [str]: a
    value between optional white space, nothing after it.  A [str] is
    modelled by the bytes of its UTF-8 encoding, so a [\uXXXX] escape
    decodes to the bytes of its code point.  The scanner enters a
    recursive call for every object and array it opens, and the
    interpreter refuses the call with [RecursionError] once [depth] of
    them are open.  The digit limit of integer conversion is not part
    of the model.  The recursion of the definition itself is bounded by
    [fuel]; twice the length of the input is enough for it never to run
    out ([fuel_is_enough] below). *)
Module Decoder.

Definition chr (n : nat) : ascii := ascii_of_nat n.
Definition ord (c : ascii) : nat := nat_of_ascii c.
Definition is_char (c : ascii) (n : nat) : bool := Nat.eqb (ord c) n.

Definition quote : nat := 34.
Definition backslash : nat := 92.

Definition is_ws (c : ascii) : bool :=
  is_char c 32 || is_char c 9 || is_char c 10 || is_char c 13.

Fixpoint skip_ws (s : string) : string :=
  match s with
  | String c s' => if is_ws c then skip_ws s' else s
  | EmptyString => s
  end.

Definition is_digit (c : ascii) : bool :=
  Nat.leb 48 (ord c) && Nat.leb (ord c) 57.

Definition digit_val (c : ascii) : Z := Z.of_nat (ord c - 48).

(** The longest run of digits at the head of [s], and what follows. *)
Fixpoint span_digits (s : string) : list ascii * string :=
  match s with
  | String c s' =>
      if is_digit c
      then let '(ds, r) := span_digits s' in (c :: ds, r)
      else ([], s)
  | EmptyString => ([], s)
  end.

Definition digits_val (ds : list ascii) : Z :=
  fold_left (fun acc c => (10 * acc + digit_val c)%Z) ds 0%Z.

Fixpoint strip_prefix (p s : string) : option string :=
  match p with
  | EmptyString => Some s
  | String a p' =>
      match s with
      | String b s' => if bool_decide (a = b) then strip_prefix p' s' else None
      | EmptyString => None
      end
  end.

(** A number literal: an optional minus sign; a zero, or a digit from one
    to nine followed by digits; optionally a dot and digits; optionally
    [e] or [E], an optional sign and digits.  It reads as an [int] when it
    has neither fraction nor exponent and as a [float] otherwise; a
    fraction or exponent that lacks its digits is left unread. *)
Definition match_number (s : string) : option (json * string) :=
  let '(neg, s1) :=
    match s with
    | String c r => if is_char c 45 then (true, r) else (false, s)
    | EmptyString => (false, s)
    end in
  match s1 with
  | EmptyString => None
  | String c r =>
      if negb (is_digit c) then None
      else
        let '(int_ds, s2) :=
          if is_char c 48 then ([c], r) else span_digits s1 in
        let '(frac_ds, s3) :=
          match s2 with
          | String dot (String d r') =>
              if is_char dot 46 && is_digit d
              then span_digits (String d r')
              else ([], s2)
          | _ => ([], s2)
          end in
        let '(exp, s4) :=
          match s3 with
          | String e r' =>
              if is_char e 101 || is_char e 69 then
                let '(sign, r'') :=
                  match r' with
                  | String sg t =>
                      if is_char sg 43 then (1%Z, t)
                      else if is_char sg 45 then ((-1)%Z, t)
                      else (1%Z, r')
                  | EmptyString => (1%Z, r')
                  end in
                let '(exp_ds, r3) := span_digits r'' in
                match exp_ds with
                | [] => (None, s3)
                | _ :: _ => (Some (sign * digits_val exp_ds)%Z, r3)
                end
              else (None, s3)
          | EmptyString => (None, s3)
          end in
        let sgn := if neg then (-1)%Z else 1%Z in
        match frac_ds, exp with
        | [], None => Some (JInt (sgn * digits_val int_ds), s4)
        | _, _ =>
            let m := (sgn * digits_val (int_ds ++ frac_ds))%Z in
            let e := (default 0%Z exp - Z.of_nat (length frac_ds))%Z in
            Some (JFloat (FDec m e), s4)
        end
  end.

Definition hex_val (c : ascii) : option N :=
  let n := ord c in
  if Nat.leb 48 n && Nat.leb n 57 then Some (N.of_nat (n - 48))
  else if Nat.leb 97 n && Nat.leb n 102 then Some (N.of_nat (n - 87))
  else if Nat.leb 65 n && Nat.leb n 70 then Some (N.of_nat (n - 55))
  else None.

Definition hex4 (a b c d : ascii) : option N :=
  x1 ← hex_val a; x2 ← hex_val b; x3 ← hex_val c; x4 ← hex_val d;
  Some (((x1 * 16 + x2) * 16 + x3) * 16 + x4)%N.

Definition byte_of (n : N) : ascii := ascii_of_N n.

(** The (generalised) UTF-8 bytes of a code point. *)
Definition utf8 (cp : N) : list ascii :=
  if (cp <? 128)%N then [byte_of cp]
  else if (cp <? 2048)%N then
    [byte_of (192 + cp / 64); byte_of (128 + cp mod 64)]
  else if (cp <? 65536)%N then
    [byte_of (224 + cp / 4096); byte_of (128 + (cp / 64) mod 64);
     byte_of (128 + cp mod 64)]
  else
    [byte_of (240 + cp / 262144); byte_of (128 + (cp / 4096) mod 64);
     byte_of (128 + (cp / 64) mod 64); byte_of (128 + cp mod 64)].

Definition is_high_surrogate (cp : N) : bool := (55296 <=? cp)%N && (cp <=? 56319)%N.
Definition is_low_surrogate (cp : N) : bool := (56320 <=? cp)%N && (cp <=? 57343)%N.
Definition join_surrogates (hi lo : N) : N :=
  (65536 + (hi - 55296) * 1024 + (lo - 56320))%N.

(** [acc], reversed, followed by the bytes [bs]. *)
Definition push (bs : list ascii) (acc : list ascii) : list ascii := rev bs ++ acc.

Definition simple_escape (c : ascii) : option ascii :=
  if is_char c quote then Some (chr quote)
  else if is_char c backslash then Some (chr backslash)
  else if is_char c 47 then Some (chr 47)
  else if is_char c 98 then Some (chr 8)
  else if is_char c 102 then Some (chr 12)
  else if is_char c 110 then Some (chr 10)
  else if is_char c 114 then Some (chr 13)
  else if is_char c 116 then Some (chr 9)
  else None.

(** The body of a string literal, after its opening quote ([strict]
    mode: a control character below 32 is refused). *)
Fixpoint scanstring (s : string) (acc : list ascii) : option (string * string) :=
  match s with
  | EmptyString => None
  | String c r =>
      if is_char c quote then Some (string_of_list_ascii (rev acc), r)
      else if is_char c backslash then
        match r with
        | EmptyString => None
        | String e r1 =>
            if is_char e 117 then
              match r1 with
              | String h1 (String h2 (String h3 (String h4 r4))) =>
                  match hex4 h1 h2 h3 h4 with
                  | None => None
                  | Some cp =>
                      match r4 with
                      | String b (String u (String l1 (String l2 (String l3 (String l4 r10))))) =>
                          if is_high_surrogate cp && is_char b backslash && is_char u 117 then
                            match hex4 l1 l2 l3 l4 with
                            | None => None
                            | Some lo =>
                                if is_low_surrogate lo
                                then scanstring r10 (push (utf8 (join_surrogates cp lo)) acc)
                                else scanstring r4 (push (utf8 cp) acc)
                            end
                          else scanstring r4 (push (utf8 cp) acc)
                      | _ => scanstring r4 (push (utf8 cp) acc)
                      end
                  end
              | _ => None
              end
            else
              match simple_escape e with
              | Some x => scanstring r1 (x :: acc)
              | None => None
              end
        end
      else if Nat.leb (ord c) 31 then None
      else scanstring r (c :: acc)
  end.

Definition parsed (A : Type) : Type := res (A * string).

Fixpoint scan_once (fuel depth : nat) (s : string) {struct fuel} : parsed json :=
  match fuel with
  | O => Raised RecursionError
  | S fuel' =>
      match s with
      | EmptyString => Raised JSONDecodeError
      | String c r =>
          if is_char c quote then
            match scanstring r [] with
            | Some (str, r') => Ok (JString str, r')
            | None => Raised JSONDecodeError
            end
          else if is_char c 123 then
            match depth with
            | O => Raised RecursionError
            | S depth' =>
                match skip_ws r with
                | String c' r' =>
                    if is_char c' 125 then Ok (JObject [], r')
                    else
                      match parse_members fuel' depth' (String c' r') [] with
                      | Ok (d, r'') => Ok (JObject d, r'')
                      | Raised e => Raised e
                      end
                | EmptyString => Raised JSONDecodeError
                end
            end
          else if is_char c 91 then
            match depth with
            | O => Raised RecursionError
            | S depth' =>
                match skip_ws r with
                | String c' r' =>
                    if is_char c' 93 then Ok (JArray [], r')
                    else
                      match parse_items fuel' depth' (String c' r') [] with
                      | Ok (l, r'') => Ok (JArray l, r'')
                      | Raised e => Raised e
                      end
                | EmptyString => Raised JSONDecodeError
                end
            end
          else
            match strip_prefix "null" s, strip_prefix "true" s,
                  strip_prefix "false" s, strip_prefix "NaN" s,
                  strip_prefix "Infinity" s, strip_prefix "-Infinity" s with
            | Some r', _, _, _, _, _ => Ok (JNull, r')
            | _, Some r', _, _, _, _ => Ok (JBool true, r')
            | _, _, Some r', _, _, _ => Ok (JBool false, r')
            | _, _, _, Some r', _, _ => Ok (JFloat FNaN, r')
            | _, _, _, _, Some r', _ => Ok (JFloat (FInf false), r')
            | _, _, _, _, _, Some r' => Ok (JFloat (FInf true), r')
            | None, None, None, None, None, None =>
                match match_number s with
                | Some (v, r') => Ok (v, r')
                | None => Raised JSONDecodeError
                end
            end
      end
  end
with parse_members (fuel depth : nat) (s : string) (acc : dict) {struct fuel}
  : parsed dict :=
  match fuel with
  | O => Raised RecursionError
  | S fuel' =>
      match s with
      | String q r =>
          if is_char q quote then
            match scanstring r [] with
            | None => Raised JSONDecodeError
            | Some (key, r1) =>
                match skip_ws r1 with
                | String colon r2 =>
                    if is_char colon 58 then
                      match scan_once fuel' depth (skip_ws r2) with
                      | Raised e => Raised e
                      | Ok (v, r3) =>
                          let acc' := dict_set acc key v in
                          match skip_ws r3 with
                          | String d r4 =>
                              if is_char d 125 then Ok (acc', r4)
                              else if is_char d 44
                              then parse_members fuel' depth (skip_ws r4) acc'
                              else Raised JSONDecodeError
                          | EmptyString => Raised JSONDecodeError
                          end
                      end
                    else Raised JSONDecodeError
                | EmptyString => Raised JSONDecodeError
                end
            end
          else Raised JSONDecodeError
      | EmptyString => Raised JSONDecodeError
      end
  end
with parse_items (fuel depth : nat) (s : string) (acc : list json) {struct fuel}
  : parsed (list json) :=
  match fuel with
  | O => Raised RecursionError
  | S fuel' =>
      match scan_once fuel' depth s with
      | Raised e => Raised e
      | Ok (v, r) =>
          let acc' := acc ++ [v] in
          match skip_ws r with
          | String d r' =>
              if is_char d 93 then Ok (acc', r')
              else if is_char d 44
              then parse_items fuel' depth (skip_ws r') acc'
              else Raised JSONDecodeError
          | EmptyString => Raised JSONDecodeError
          end
      end
  end.

(** [json.loads(s)] in an interpreter that lets the scanner open [limit]
    nested objects and arrays. *)
Definition loads (limit : nat) (s : string) : res json :=
  match scan_once (S (2 * String.length s)) limit (skip_ws s) with
  | Raised e => Raised e
  | Ok (v, r) =>
      match skip_ws r with
      | EmptyString => Ok v
      | String _ _ => Raised JSONDecodeError
      end
  end.

End Decoder.

(** [sys.getrecursionlimit()] as the interpreter starts.  The frames the
    caller has in use, a handful, come off it in a real run; they are
    not counted here. *)
Definition recursion_limit : nat := 1000.

Definition json_loads : string -> res json := Decoder.loads recursion_limit.

(** The opening brackets of a line: a bound on how deep its objects and
    arrays nest. *)
Fixpoint count_open (s : string) : nat :=
  match s with
  | EmptyString => 0
  | String c r =>
      (if Decoder.is_char c 91 || Decoder.is_char c 123 then 1 else 0) + count_open r
  end.

(** [r] is what is left of [s] once a prefix of it is read. *)
Definition is_suffix (r s : string) : Prop := exists pre, s = pre +:+ r.

(** What a scanner run on [s] with [depth] calls to spare comes to: it
    read something and left a suffix with no more brackets than [s] had,
    or found no JSON, or ran out of calls on a text with more than
    [depth] opening brackets. *)
Definition settled {A} (depth : nat) (s : string) (r : Decoder.parsed A) : Prop :=
  match r with
  | Ok (_, rest) =>
      String.length rest < String.length s /\ count_open rest <= count_open s
  | Raised e =>
      e = JSONDecodeError \/ (e = RecursionError /\ depth < count_open s)
  end.

(** ** Text and bytes *)

Definition byte_in (lo hi : nat) (c : ascii) : bool :=
  Nat.leb lo (Decoder.ord c) && Nat.leb (Decoder.ord c) hi.

(** The length of the well-formed UTF-8 sequence at the head of [s], one
    to four bytes, or 0 when no such sequence starts [s]: overlong
    forms, surrogates and code points above U+10FFFF are ill-formed. *)
Definition utf8_len (s : string) : nat :=
  match s with
  | EmptyString => 0
  | String c r =>
      if Nat.ltb (Decoder.ord c) 128 then 1
      else if byte_in 194 223 c then
        match r with
        | String b1 _ => if byte_in 128 191 b1 then 2 else 0
        | _ => 0
        end
      else if byte_in 224 239 c then
        match r with
        | String b1 (String b2 _) =>
            if byte_in (if Decoder.is_char c 224 then 160 else 128)
                       (if Decoder.is_char c 237 then 159 else 191) b1
               && byte_in 128 191 b2
            then 3 else 0
        | _ => 0
        end
      else if byte_in 240 244 c then
        match r with
        | String b1 (String b2 (String b3 _)) =>
            if byte_in (if Decoder.is_char c 240 then 144 else 128)
                       (if Decoder.is_char c 244 then 143 else 191) b1
               && byte_in 128 191 b2 && byte_in 128 191 b3
            then 4 else 0
        | _ => 0
        end
      else 0
  end.

(** [s], after [skip] bytes that a sequence begun earlier still owns, is
    a run of well-formed sequences. *)
Fixpoint utf8_go (skip : nat) (s : string) : bool :=
  match s with
  | EmptyString => Nat.eqb skip 0
  | String _ r =>
      match skip with
      | S k => utf8_go k r
      | O =>
          match utf8_len s with
          | O => false
          | S k => utf8_go k r
          end
      end
  end.

(** The bytes are UTF-8 ([errors="strict"]); for a [str], it has no lone
    surrogate and can be encoded. *)
Definition utf8_valid (s : string) : bool := utf8_go 0 s.

(** Universal newlines, as text mode reads them: [\r\n] and [\r] become
    [\n]. *)
Fixpoint universal_newlines (s : string) : string :=
  match s with
  | EmptyString => EmptyString
  | String c r =>
      if Decoder.is_char c 13 then
        String (Decoder.chr 10)
          match r with
          | String c' r' =>
              if Decoder.is_char c' 10 then universal_newlines r' else universal_newlines r
          | EmptyString => EmptyString
          end
      else String c (universal_newlines r)
  end.

(** [f.read()] of a file opened in text mode, from the bytes it holds. *)
Definition decode_text (bytes : string) : res string :=
  if utf8_valid bytes then Ok (universal_newlines bytes) else Raised UnicodeDecodeError.

(** [os.fsdecode]: UTF-8 with [surrogateescape].  A byte that belongs to
    no well-formed sequence becomes the lone surrogate U+DC00 + byte. *)
Fixpoint fsdecode_go (skip : nat) (b : string) : string :=
  match b with
  | EmptyString => EmptyString
  | String c r =>
      match skip with
      | S k => String c (fsdecode_go k r)
      | O =>
          match utf8_len b with
          | S k => String c (fsdecode_go k r)
          | O =>
              String (Decoder.chr 237)
                (String (Decoder.chr (176 + Decoder.ord c / 64))
                   (String (Decoder.chr (128 + Decoder.ord c mod 64))
                      (fsdecode_go 0 r)))
          end
      end
  end.

Definition fsdecode (b : string) : string := fsdecode_go 0 b.

(** [os.fsencode]: the surrogates U+DC80 to U+DCFF give back their
    byte; any other lone surrogate cannot be encoded. *)
Fixpoint fsencode_go (skip : nat) (s : string) : option string :=
  match s with
  | EmptyString => Some EmptyString
  | String c r =>
      match skip with
      | S k => option_map (String c) (fsencode_go k r)
      | O =>
          match utf8_len s with
          | S k => option_map (String c) (fsencode_go k r)
          | O =>
              match r with
              | String h (String l r') =>
                  if Decoder.is_char c 237 && byte_in 178 179 h && byte_in 128 191 l
                  then option_map
                         (String (Decoder.chr ((Decoder.ord h - 176) * 64
                                               + (Decoder.ord l - 128))))
                         (fsencode_go 0 r')
                  else None
              | _ => None
              end
          end
      end
  end.

Definition fsencode (s : string) : option string := fsencode_go 0 s.

Definition encodable (s : string) : bool :=
  match fsencode s with
  | Some _ => true
  | None => false
  end.

(** The bytes of a name that can be encoded. *)
Definition fs_bytes (s : string) : string := default s (fsencode s).

(** The characters of a [str], each a [str]: a lead byte and the bytes
    that continue it. *)
Definition continuation_bytes (c : ascii) : nat :=
  if Nat.ltb (Decoder.ord c) 192 then 0
  else if Nat.ltb (Decoder.ord c) 224 then 1
  else if Nat.ltb (Decoder.ord c) 240 then 2
  else 3.

Definition flush (cur : list ascii) : list string :=
  match cur with
  | [] => []
  | _ :: _ => [string_of_list_ascii (rev cur)]
  end.

Fixpoint str_chars_go (skip : nat) (cur : list ascii) (s : string) : list string :=
  match s with
  | EmptyString => flush cur
  | String c r =>
      match skip with
      | S k => str_chars_go k (c :: cur) r
      | O => flush cur ++ str_chars_go (continuation_bytes c) [c] r
      end
  end.

Definition str_chars (s : string) : list string := str_chars_go 0 [] s.

(** ** Paths ([pathlib], POSIX flavour) *)

Definition is_sep (c : ascii) : bool := Decoder.is_char c 47.

(** [s.split("/")] *)
Fixpoint split_go (s : string) (cur : list ascii) : list string :=
  match s with
  | EmptyString => [string_of_list_ascii (rev cur)]
  | String c s' =>
      if is_sep c
      then string_of_list_ascii (rev cur) :: split_go s' []
      else split_go s' (c :: cur)
  end.

Definition split_sep (s : string) : list string := split_go s [].

Fixpoint leading_seps (s : string) : nat :=
  match s with
  | String c s' => if is_sep c then S (leading_seps s') else 0
  | EmptyString => 0
  end.

(** A pure path: its root ([""] when relative, ["/"], or ["//"] for
    exactly two leading slashes) and its components.  Empty components
    and ["."] are dropped when a path is built, [".."] is kept. *)
Record PurePath : Type := mkPath { path_root : string; path_parts : list string }.

Definition parse_root (s : string) : string :=
  match leading_seps s with
  | 0 => ""
  | 2 => "//"
  | _ => "/"
  end.

Definition parse_parts (s : string) : list string :=
  filter (fun x => x <> "" /\ x <> ".") (split_sep s).

(** [pathlib.Path(s)] *)
Definition Path (s : string) : PurePath := mkPath (parse_root s) (parse_parts s).

(** [p / s]: a rooted right operand replaces the left one. *)
Definition joinpath (p : PurePath) (s : string) : PurePath :=
  let q := Path s in
  if decide (path_root q = "") then mkPath (path_root p) (path_parts p ++ path_parts q)
  else q.

Definition is_absolute (p : PurePath) : bool := negb (bool_decide (path_root p = "")).

Fixpoint has_char (n : nat) (s : string) : bool :=
  match s with
  | String c s' => Decoder.is_char c n || has_char n s'
  | EmptyString => false
  end.

(** A path with an embedded null character: the system calls refuse it
    with [ValueError]. *)
Definition has_nul (p : PurePath) : bool := existsb (has_char 0) (path_parts p).

(** What a system call raises before it reaches the kernel: the whole
    path is encoded first ([UnicodeEncodeError]), then searched for a
    null byte ([ValueError]). *)
Definition syscall_error (p : PurePath) : option exn :=
  if existsb (fun c => negb (encodable c)) (path_parts p) then Some UnicodeEncodeError
  else if has_nul p then Some ValueError
  else None.

(** [os.path.realpath] calls [lstat] on one component after the other:
    the first one that cannot be passed decides what is raised. *)
Fixpoint lstat_error (comps : list string) : option exn :=
  match comps with
  | [] => None
  | c :: rest =>
      if negb (encodable c) then Some UnicodeEncodeError
      else if has_char 0 c then Some ValueError
      else lstat_error rest
  end.

(** The limits of Linux: bytes in a name, and bytes in a path with its
    final null. *)
Definition NAME_MAX : nat := 255.
Definition PATH_MAX : nat := 4096.

(** The bytes of [str(p)]. *)
Definition path_length (p : PurePath) : nat :=
  match path_parts p with
  | [] => Nat.max 1 (String.length (path_root p))
  | c :: rest =>
      String.length (path_root p)
      + fold_left (fun n x => n + 1 + String.length (fs_bytes x)) rest
                  (String.length (fs_bytes c))
  end.

(** Canonical form of the components [comps] read from the directory
    [stack]: [".."] leaves the last directory (the root is its own
    parent). *)
Fixpoint normalize (stack comps : list string) : list string :=
  match comps with
  | [] => stack
  | c :: rest =>
      if decide (c = "..") then normalize (removelast stack) rest
      else normalize (stack ++ [c]) rest
  end.

(** [os.path.realpath] in a store without symbolic links (the store below
    has regular files and directories only): the canonical absolute
    components of [p], relative paths read from the working directory
    [cwd] as [os.getcwd()] gives it.  Components need not exist, and a
    failing [lstat] is passed over unless it is no [OSError]. *)
Definition realpath (cwd : list string) (p : PurePath) : res (list string) :=
  match lstat_error (path_parts p) with
  | Some e => Raised e
  | None => Ok (normalize (if is_absolute p then [] else cwd) (path_parts p))
  end.

(** [p.is_relative_to(r)] on two resolved paths: [r]'s components lead
    [p]'s. *)
Fixpoint is_relative_to (p r : list string) {struct r} : bool :=
  match r with
  | [] => true
  | y :: r' =>
      match p with
      | [] => false
      | x :: p' => bool_decide (x = y) && is_relative_to p' r'
      end
  end.

(** ** The world of the handlers *)

Inductive node : Type :=
| File (content : string)
| Dir.

(** [requests.get(url, headers=..., params=...)] *)
Record http_request : Type :=
  mkRequest { req_url : string; req_headers : dict; req_params : dict }.

(** What the request, [raise_for_status] and [response.json()] come to:
    a [RequestException] or the decoded body. *)
Inductive http_reply : Type :=
| HttpFails (detail : string)
| HttpJson (body : json).

(** I/O the server performs, in the order it performs it: file system
    calls, HTTP requests, and [print(json.dumps(line))] on standard
    output. *)
Inductive event : Type :=
| EvResolve (p : PurePath)
| EvExists (p : PurePath)
| EvOpen (p : PurePath) (mode : string)
| EvUnlink (p : PurePath)
| EvIterdir (p : PurePath)
| EvHttpGet (r : http_request)
| EvPrint (line : json).

(** The store maps the canonical components of a path, each the bytes
    of a name, to what is there; the root directory [[]] and the working
    directory [cwd] exist. *)
Record world : Type := mkWorld {
  cwd : list string;
  files : gmap (list string) node;
  environ : gmap string string;
  http : http_request -> http_reply;
  log : list event
}.

Definition set_files (f : gmap (list string) node) (w : world) : world :=
  mkWorld (cwd w) f (environ w) (http w) (log w).

Definition add_log (ev : event) (w : world) : world :=
  mkWorld (cwd w) (files w) (environ w) (http w) (log w ++ [ev]).

(** [os.getcwd()] *)
Definition getcwd (w : world) : list string := map fsdecode (cwd w).

(** *** State and exceptions *)

Definition M (A : Type) : Type := world -> res A * world.

Definition ret {A} (a : A) : M A := fun w => (Ok a, w).
Definition raise {A} (e : exn) : M A := fun w => (Raised e, w).

Definition bind {A B} (m : M A) (k : A -> M B) : M B :=
  fun w =>
    match m w with
    | (Ok a, w') => k a w'
    | (Raised e, w') => (Raised e, w')
    end.

(** [try: m  except Exception as e: handler e] *)
Definition try_except {A} (m : M A) (handler : exn -> M A) : M A :=
  fun w =>
    match m w with
    | (Ok a, w') => (Ok a, w')
    | (Raised e, w') => handler e w'
    end.

(** [try: m  except C as e: ...] for one exception class: [handler]
    answers [None] on an exception the clause does not name, which then
    propagates. *)
Definition try_catch {A} (m : M A) (handler : exn -> option (M A)) : M A :=
  fun w =>
    match m w with
    | (Ok a, w') => (Ok a, w')
    | (Raised e, w') =>
        match handler e with
        | Some h => h w'
        | None => (Raised e, w')
        end
    end.

Definition emit (ev : event) : M unit := fun w => (Ok tt, add_log ev w).
Definition lift {A} (r : res A) : M A := fun w => (r, w).
Definition gets {A} (f : world -> A) : M A := fun w => (Ok (f w), w).

Notation "'let*' x := m 'in' k" := (bind m (fun x => k))
  (at level 10, x name, m at level 100, k at level 200, only parsing).

(** *** File system calls *)

Inductive walked : Type :=
| WFound (at_path : list string) (n : node)
| WMissing (at_path : list string)
| WError (errno : Z).

(** Name lookup as the kernel does it, from the directory [cur]: every
    component but the last must be an existing directory (errno 2 when
    it is missing, 20 when it is a regular file), and a name of more
    than [NAME_MAX] bytes is refused where it is looked up (errno 36). *)
Fixpoint walk (fs : gmap (list string) node) (cur comps : list string) : walked :=
  match comps with
  | [] => WFound cur Dir
  | c :: rest =>
      if decide (c = "..") then walk fs (removelast cur) rest
      else if Nat.ltb NAME_MAX (String.length (fs_bytes c)) then WError 36
      else
        let p := cur ++ [fs_bytes c] in
        match fs !! p with
        | Some Dir => walk fs p rest
        | Some (File s) =>
            match rest with
            | [] => WFound p (File s)
            | _ :: _ => WError 20
            end
        | None =>
            match rest with
            | [] => WMissing p
            | _ :: _ => WError 2
            end
        end
  end.

(** The lookup of a path that could be passed to the kernel: one of
    [PATH_MAX] bytes or more is refused at once (errno 36). *)
Definition namei (w : world) (p : PurePath) : walked :=
  if Nat.leb PATH_MAX (path_length p) then WError 36
  else walk (files w) (if is_absolute p then [] else cwd w) (path_parts p).

(** [p.resolve()] *)
Definition resolve (p : PurePath) : M (list string) :=
  let* _ := emit (EvResolve p) in
  let* cur := gets getcwd in
  lift (realpath cur p).

(** The errors [Path.exists] takes for an answer: ENOENT, ENOTDIR, EBADF
    and ELOOP. *)
Definition ignored_errno (n : Z) : bool :=
  bool_decide (n = 2%Z) || bool_decide (n = 20%Z)
  || bool_decide (n = 9%Z) || bool_decide (n = 40%Z).

(** [p.exists()]: a path the system calls refuse ([ValueError]) and a
    lookup that fails with one of the errors above are [False]; any
    other error is raised. *)
Definition path_exists (p : PurePath) : M bool :=
  let* _ := emit (EvExists p) in
  let* found := gets (fun w => namei w p) in
  match syscall_error p with
  | Some _ => ret false
  | None =>
      match found with
      | WFound _ _ => ret true
      | WMissing _ => ret false
      | WError n => if ignored_errno n then ret false else raise (OSError n)
      end
  end.

(** [with open(p, "r") as f: f.read()] *)
Definition read_text (p : PurePath) : M string :=
  let* _ := emit (EvOpen p "r") in
  let* found := gets (fun w => namei w p) in
  match syscall_error p with
  | Some e => raise e
  | None =>
      match found with
      | WFound _ (File bytes) => lift (decode_text bytes)
      | WFound _ Dir => raise (OSError 21)
      | WMissing _ => raise (OSError 2)
      | WError n => raise (OSError n)
      end
  end.

(** [with open(p, mode) as f: f.write(content)] for [mode] ["w"] or
    ["a"]: [open] creates the file when absent and ["w"] truncates it;
    [write] then encodes all of [content] or raises, and what was
    encoded is written, after the old content for ["a"]. *)
Definition write_text (p : PurePath) (mode content : string) : M unit :=
  let* _ := emit (EvOpen p mode) in
  let* found := gets (fun w => namei w p) in
  match syscall_error p with
  | Some e => raise e
  | None =>
      match found with
      | WFound q (File old) =>
          let kept := if decide (mode = "a") then old else "" in
          if utf8_valid content
          then fun w => (Ok tt, set_files (<[q := File (kept +:+ content)]> (files w)) w)
          else fun w => (Raised UnicodeEncodeError,
                         set_files (<[q := File kept]> (files w)) w)
      | WMissing q =>
          if utf8_valid content
          then fun w => (Ok tt, set_files (<[q := File content]> (files w)) w)
          else fun w => (Raised UnicodeEncodeError,
                         set_files (<[q := File ""]> (files w)) w)
      | WFound _ Dir => raise (OSError 21)
      | WError n => raise (OSError n)
      end
  end.

(** [p.unlink()] *)
Definition unlink (p : PurePath) : M unit :=
  let* _ := emit (EvUnlink p) in
  let* found := gets (fun w => namei w p) in
  match syscall_error p with
  | Some e => raise e
  | None =>
      match found with
      | WFound q (File _) => fun w => (Ok tt, set_files (delete q (files w)) w)
      | WFound _ Dir => raise (OSError 21)
      | WMissing _ => raise (OSError 2)
      | WError n => raise (OSError n)
      end
  end.

(** [k] without the leading components [d], when it has them. *)
Fixpoint drop_prefix (d k : list string) : option (list string) :=
  match d with
  | [] => Some k
  | x :: d' =>
      match k with
      | [] => None
      | y :: k' => if decide (x = y) then drop_prefix d' k' else None
      end
  end.

(** The entries of directory [d]: name, as [os.listdir] decodes it, and
    node.  Their order is the store's; a directory listing promises
    none. *)
Definition children (fs : gmap (list string) node) (d : list string)
  : list (string * node) :=
  omap (fun kn : list string * node =>
          match drop_prefix d (fst kn) with
          | Some [name] => Some (fsdecode name, snd kn)
          | _ => None
          end)
       (map_to_list fs).

(** [list(p.iterdir())], each entry with what [is_file()] will see. *)
Definition iterdir (p : PurePath) : M (list (string * node)) :=
  let* _ := emit (EvIterdir p) in
  let* found := gets (fun w => namei w p) in
  match syscall_error p with
  | Some e => raise e
  | None =>
      match found with
      | WFound q Dir => gets (fun w => children (files w) q)
      | WFound _ (File _) => raise (OSError 20)
      | WMissing _ => raise (OSError 2)
      | WError n => raise (OSError n)
      end
  end.

Definition is_file (n : node) : bool :=
  match n with
  | File _ => true
  | Dir => false
  end.

(** [os.getenv(name)] *)
Definition getenv (name : string) : M (option string) :=
  gets (fun w => environ w !! name).

(** *** More dynamic operations (the search adapters) *)

(** [p] is a prefix of [s]. *)
Definition starts_with (p s : string) : bool :=
  match Decoder.strip_prefix p s with
  | Some _ => true
  | None => false
  end.

(** [needle in s] for two [str]. *)
Fixpoint is_substring (needle s : string) : bool :=
  starts_with needle s ||
  match s with
  | String _ s' => is_substring needle s'
  | EmptyString => false
  end.

(** [needle in container] for a [str] needle. *)
Definition py_contains (needle : string) (container : json) : res bool :=
  match container with
  | JObject d => Ok (bool_decide (is_Some (dict_lookup d needle)))
  | JArray l => Ok (existsb (fun v => py_eq_str v needle) l)
  | JString s => Ok (is_substring needle s)
  | _ => Raised TypeError
  end.

(** [container[key]] for a [str] key. *)
Definition py_getitem (container : json) (key : string) : res json :=
  match container with
  | JObject d =>
      match dict_lookup d key with
      | Some v => Ok v
      | None => Raised KeyError
      end
  | _ => Raised TypeError
  end.

(** The values [for x in v] goes through: the items of a [list], the
    keys of a [dict], the characters of a [str] (each a [str]); nothing
    else read from JSON can be iterated. *)
Definition py_iter (v : json) : res (list json) :=
  match v with
  | JArray l => Ok l
  | JObject d => Ok (map JString (dict_keys d))
  | JString s => Ok (map JString (str_chars s))
  | _ => Raised TypeError
  end.

(** [for x in xs: acc.append(f(x))] *)
Fixpoint res_map {A B} (f : A -> res B) (xs : list A) : res (list B) :=
  match xs with
  | [] => Ok []
  | x :: xs' =>
      res_bind (f x) (fun y =>
      res_bind (res_map f xs') (fun ys => Ok (y :: ys)))
  end.

(** ** The record store *)

(** [class ModelContextDB(SQLModel, table=True)] *)
Module ModelContextDB.
Record t : Type := mk {
  id : option Z;
  model_id : string;
  version : string;
  status : string;
  parameters : string;
  metrics : option string
}.
End ModelContextDB.

(** ** The method handlers *)

Definition sandbox : PurePath := Path "sandbox".

Definition denied : Result :=
  Error (-32003) "Operation denied: Path traversal attempt detected.".

Section Server.

(** [str(e)] of an exception of the file system calls, and [str(v)] of a
    value that is no [str]: texts of the interpreter, taken as given. *)
Variable str_exn : exn -> string.
Variable repr : json -> string.

(** The three tables [load_config] read at start-up.  The resource
    table is taken as [load_config] gives it, whatever JSON document the
    file held. *)
Variable search_config : dict.
Variable resources_config : json.
Variable prompts_config : dict.

(** What an f-string puts for [{v}]. *)
Definition format_value (v : json) : string :=
  match v with
  | JString s => s
  | _ => repr v
  end.

Definition initialize_handler (secret_key : option string) : M Result :=
  let* expected_key := getenv "SECRET_KEY" in
  if truthy (of_optional_str expected_key)
     && negb (bool_decide (secret_key = expected_key))
  then ret (Error (-32001) "Unauthorized: Invalid secret key")
  else ret (Success (JObject [("status", JString "initialized")])).

Definition capabilities_list_handler : res Result :=
  res_bind (py_iter resources_config) (fun resource_types =>
  let resources :=
    fold_left
      (fun acc resource_type =>
         acc ++ [JString ("resource://" +:+ format_value resource_type
                          +:+ "/{resource_id}")])
      resource_types
      [JString "resource://model-context/{model_id}"] in
  Ok (Success (JObject
    [("resources", JArray resources);
     ("tools", JArray [JString "tool://web-search";
                       JString "tool://file-read";
                       JString "tool://file-write";
                       JString "tool://file-list";
                       JString "tool://file-delete"]);
     ("prompts", JArray [JString "prompt://list";
                         JString "prompt://{prompt_name}"])]))).

(** [session.exec(select(...).where(model_id == ...)).first()] over the
    rows of the table in storage order. *)
Definition first_by_model_id (table : list ModelContextDB.t) (model_id : string)
  : option ModelContextDB.t :=
  List.find (fun row => bool_decide (ModelContextDB.model_id row = model_id)) table.

Definition resource_model_context_handler
    (table : list ModelContextDB.t) (model_id : string) : res Result :=
  match first_by_model_id table model_id with
  | None =>
      Ok (Error (-32004)
            ("Resource not found: Model ID '" +:+ model_id +:+ "' not found."))
  | Some model_context =>
      res_bind (json_loads (ModelContextDB.parameters model_context)) (fun parameters =>
      res_bind
        (if truthy (of_optional_str (ModelContextDB.metrics model_context))
         then json_loads (default "" (ModelContextDB.metrics model_context))
         else Ok JNull) (fun metrics =>
      Ok (Success (JObject
        [("version", JString (ModelContextDB.version model_context));
         ("status", JString (ModelContextDB.status model_context));
         ("parameters", parameters);
         ("metrics", metrics)]))))
  end.

(** [requests.get(...)], [raise_for_status()] and [response.json()] *)
Definition requests_get (r : http_request) : M json :=
  let* _ := emit (EvHttpGet r) in
  let* reply := gets (fun w => http w r) in
  match reply with
  | HttpFails detail => raise (RequestException detail)
  | HttpJson body => ret body
  end.

Definition on_request_exception (prefix : string) (e : exn) : option (M Result) :=
  match e with
  | RequestException detail => Some (ret (Error (-32002) (prefix +:+ detail)))
  | _ => None
  end.

Definition bing_search_handler (query : string) : M Result :=
  let* api_key := getenv "BING_API_KEY" in
  if negb (truthy (of_optional_str api_key))
  then ret (Error (-32001) "Bing API key not configured.")
  else
    try_catch
      (let headers := [("Ocp-Apim-Subscription-Key", of_optional_str api_key)] in
       let params := [("q", JString query); ("count", JInt 10);
                      ("offset", JInt 0); ("mkt", JString "en-US")] in
       let* search_results :=
         requests_get (mkRequest "https://api.bing.microsoft.com/v7.0/search"
                                 headers params) in
       let* has_pages := lift (py_contains "webPages" search_results) in
       let* has_value :=
         if has_pages
         then let* pages := lift (py_getitem search_results "webPages") in
              lift (py_contains "value" pages)
         else ret false in
       let* processed_results :=
         if has_value
         then
           let* pages := lift (py_getitem search_results "webPages") in
           let* value := lift (py_getitem pages "value") in
           let* results := lift (py_iter value) in
           lift (res_map
                   (fun result =>
                      res_bind (py_get result (JString "name") (JString "")) (fun title =>
                      res_bind (py_get result (JString "url") (JString "")) (fun url =>
                      res_bind (py_get result (JString "snippet") (JString "")) (fun snippet =>
                      Ok (JObject [("title", title); ("url", url); ("snippet", snippet)])))))
                   results)
         else ret [] in
       ret (Success (JObject [("results", JArray processed_results)])))
      (on_request_exception "Error making Bing search request: ").

Definition google_search_handler (query : string) : M Result :=
  let* api_key := getenv "GOOGLE_API_KEY" in
  let* cx := getenv "GOOGLE_CX" in
  if negb (truthy (of_optional_str api_key)) || negb (truthy (of_optional_str cx))
  then ret (Error (-32001) "Google API key or CX not configured.")
  else
    try_catch
      (let params := [("key", of_optional_str api_key); ("cx", of_optional_str cx);
                      ("q", JString query)] in
       let* search_results :=
         requests_get (mkRequest "https://www.googleapis.com/customsearch/v1"
                                 [] params) in
       let* has_items := lift (py_contains "items" search_results) in
       let* processed_results :=
         if has_items
         then
           let* items := lift (py_getitem search_results "items") in
           let* results := lift (py_iter items) in
           lift (res_map
                   (fun result =>
                      res_bind (py_get result (JString "title") (JString "")) (fun title =>
                      res_bind (py_get result (JString "link") (JString "")) (fun url =>
                      res_bind (py_get result (JString "snippet") (JString "")) (fun snippet =>
                      Ok (JObject [("title", title); ("url", url); ("snippet", snippet)])))))
                   results)
         else ret [] in
       ret (Success (JObject [("results", JArray processed_results)])))
      (on_request_exception "Error making Google search request: ").

Definition tool_web_search_handler (query : string) (api : option string) : M Result :=
  let api_to_use :=
    py_or (of_optional_str api)
          (default (JString "bing") (dict_lookup search_config "default")) in
  let* apis := lift (py_get (JObject search_config) (JString "apis") (JObject [])) in
  let* api_config := lift (py_get apis api_to_use (JObject [])) in
  let* enabled := lift (py_get api_config (JString "enabled") (JBool false)) in
  if negb (truthy enabled)
  then ret (Error (-32001)
              ("Configuration error: '" +:+ format_value api_to_use
               +:+ "' API not enabled or misconfigured."))
  else if py_eq_str api_to_use "bing" then bing_search_handler query
  else if py_eq_str api_to_use "google" then google_search_handler query
  else ret (Error (-32001) ("Unsupported search API: " +:+ format_value api_to_use)).

Definition tool_file_read_handler (filename : string) : M Result :=
  let file_path := joinpath sandbox filename in
  try_except
    (let* resolved := resolve file_path in
     let* root := resolve sandbox in
     if negb (is_relative_to resolved root) then ret denied
     else
       let* found := path_exists file_path in
       if negb found
       then ret (Error (-32004) ("File '" +:+ filename +:+ "' not found in sandbox."))
       else
         let* content := read_text file_path in
         ret (Success (JObject [("content", JString content)])))
    (fun e => ret (Error (-32002) ("Error reading file: " +:+ str_exn e))).

Definition tool_file_write_handler (filename content : string) (append : bool)
  : M Result :=
  let file_path := joinpath sandbox filename in
  try_except
    (let* resolved := resolve file_path in
     let* root := resolve sandbox in
     if negb (is_relative_to resolved root) then ret denied
     else
       let mode := if append then "a" else "w" in
       let* _ := write_text file_path mode content in
       ret (Success (JObject
              [("message",
                JString ("Successfully "
                         +:+ (if append then "appended to" else "wrote")
                         +:+ " '" +:+ filename +:+ "' in sandbox."))])))
    (fun e => ret (Error (-32002) ("Error writing file: " +:+ str_exn e))).

Definition tool_file_list_handler : M Result :=
  try_except
    (let* entries := iterdir sandbox in
     let files := map (fun f => JString (fst f)) (List.filter (fun f => is_file (snd f)) entries) in
     ret (Success (JObject [("files", JArray files)])))
    (fun e => ret (Error (-32002) ("Error listing files: " +:+ str_exn e))).

Definition tool_file_delete_handler (filename : string) : M Result :=
  let file_path := joinpath sandbox filename in
  try_except
    (let* resolved := resolve file_path in
     let* root := resolve sandbox in
     if negb (is_relative_to resolved root) then ret denied
     else
       let* found := path_exists file_path in
       if negb found
       then ret (Error (-32004) ("File '" +:+ filename +:+ "' not found in sandbox."))
       else
         let* _ := unlink file_path in
         ret (Success (JObject
                [("message",
                  JString ("Successfully deleted '" +:+ filename +:+ "' from sandbox."))])))
    (fun e => ret (Error (-32002) ("Error deleting file: " +:+ str_exn e))).

Definition prompt_list_handler : Result :=
  Success (JObject [("prompts", JArray (map JString (dict_keys prompts_config)))]).

Definition prompt_handler (prompt_name : string) : res Result :=
  let prompt := default JNull (dict_lookup prompts_config prompt_name) in
  if negb (truthy prompt)
  then Ok (Error (-32004) ("Prompt '" +:+ prompt_name +:+ "' not found."))
  else
    res_bind (py_get prompt (JString "template") (JString "")) (fun template =>
    res_bind (py_get prompt (JString "description") (JString "")) (fun description =>
    Ok (Success (JObject [("template", template); ("description", description)])))).

(** ** The stdio transport *)

(** [async_dispatch] of the JSON-RPC library, given the decoded request:
    it yields the response to print, or raises. *)
Variable async_dispatch : json -> M json.

Definition parse_error_response : json :=
  JObject [("jsonrpc", JString "2.0");
           ("error", JObject [("code", JInt (-32700));
                              ("message", JString "Parse error")]);
           ("id", JNull)].

Definition print (line : json) : M unit := emit (EvPrint line).

(** One turn of the loop on the line [request] just read. *)
Definition serve_line (request : string) : M unit :=
  try_catch
    (let* request_json := lift (json_loads request) in
     let* response := async_dispatch request_json in
     print response)
    (fun e =>
       match e with
       | JSONDecodeError => Some (print parse_error_response)
       | _ => None
       end).

(** [main_stdio] on the lines standard input still holds; [readline]
    answers the empty string when none is left, and the loop breaks on
    it. *)
Fixpoint main_stdio (stdin : list string) : M unit :=
  let request := default "" (head stdin) in
  if decide (request = "") then ret tt
  else
    match stdin with
    | [] => ret tt
    | _ :: rest =>
        let* _ := serve_line request in
        main_stdio rest
    end.

End Server.

(** ** Start-up *)

(** [pathlib.Path(...).mkdir(exist_ok=True)]: an existing directory is
    accepted, anything else in its place is an error (errno 17), and so
    is a missing parent.  (The log has no event for it.) *)
Definition mkdir_exist_ok (p : PurePath) : M unit :=
  let* found := gets (fun w => namei w p) in
  match syscall_error p with
  | Some e => raise e
  | None =>
      match found with
      | WMissing q => fun w => (Ok tt, set_files (<[q := Dir]> (files w)) w)
      | WFound _ Dir => ret tt
      | WFound _ (File _) => raise (OSError 17)
      | WError n => raise (OSError n)
      end
  end.

(** A path string whose last component is empty or a dot names a
    directory or nothing. *)
Definition dir_required (filename : string) : bool :=
  bool_decide (List.last (split_sep filename) "" = "")
  || bool_decide (List.last (split_sep filename) "" = ".").

(** [with open(filename, "r") as f: f.read()] for a [str]: the string
    goes to the kernel as it is, which finds nothing under the empty
    name. *)
Definition read_text_str (filename : string) : M string :=
  let* _ := emit (EvOpen (Path filename) "r") in
  let* found :=
    gets (fun w => walk (files w) (if is_absolute (Path filename) then [] else cwd w)
                        (path_parts (Path filename))) in
  if negb (encodable filename) then raise UnicodeEncodeError
  else if has_char 0 filename then raise ValueError
  else if decide (filename = "") then raise (OSError 2)
  else if Nat.leb PATH_MAX (String.length (fs_bytes filename)) then raise (OSError 36)
  else
    match found with
    | WFound _ (File bytes) =>
        if dir_required filename then raise (OSError 20) else lift (decode_text bytes)
    | WFound _ Dir => raise (OSError 21)
    | WMissing _ => raise (OSError 2)
    | WError n => raise (OSError n)
    end.

(** [load_config]: the decoded document, or the empty mapping when the
    file is not found ([FileNotFoundError], errno 2) or its text is no
    JSON; any other exception propagates, among them that of a file
    that is no UTF-8 text. *)
Definition load_config (filename : string) : M json :=
  try_catch
    (let* text := read_text_str filename in
     lift (json_loads text))
    (fun e =>
       match e with
       | OSError 2 => Some (ret (JObject []))
       | JSONDecodeError => Some (ret (JObject []))
       | _ => None
       end).

(** The module's start-up as far as the sandbox and the configuration
    go: the sandbox directory, then the three configuration tables in
    the order they are read.  (The database set-up in between belongs
    to the SQL library and is not part of the model.) *)
Definition startup : M (json * json * json) :=
  let* _ := mkdir_exist_ok sandbox in
  let* search_config := load_config "search_config.json" in
  let* resources_config := load_config "resources.json" in
  let* prompts_config := load_config "prompts.json" in
  ret (search_config, resources_config, prompts_config).

(** ** What the claims speak of *)

(** The canonical path of [sandbox / filename] does not lie under the
    canonical sandbox root. *)
Definition escapes (w : world) (filename : string) : bool :=
  match realpath (getcwd w) (joinpath sandbox filename), realpath (getcwd w) sandbox with
  | Ok p, Ok r => negb (is_relative_to p r)
  | _, _ => false
  end.

(** The world after the two canonicalisations of the containment check,
    and nothing else. *)
Definition after_check (filename : string) (w : world) : world :=
  add_log (EvResolve sandbox) (add_log (EvResolve (joinpath sandbox filename)) w).

Definition is_denied (r : res Result) : bool :=
  match r with
  | Ok (Error code _) => bool_decide (code = (-32003)%Z)
  | _ => false
  end.

Definition not_found (filename : string) : Result :=
  Error (-32004) ("File '" +:+ filename +:+ "' not found in sandbox.").

(** The filename resolves inside the sandbox and names a regular file, or
    a free name in an existing directory: what [open] can write to. *)
Definition writable (w : world) (filename : string) : bool :=
  negb (escapes w filename)
  && bool_decide (lstat_error (path_parts (joinpath sandbox filename)) = None)
  && match namei w (joinpath sandbox filename) with
     | WFound _ (File _) | WMissing _ => true
     | WFound _ Dir | WError _ => false
     end.

(** A file name proper: one component of UTF-8 text, none of the special
    ones. *)
Definition plain_name (filename : string) : bool :=
  negb (has_char 47 filename) && negb (has_char 0 filename)
  && negb (bool_decide (filename = ""))
  && negb (bool_decide (filename = "."))
  && negb (bool_decide (filename = ".."))
  && utf8_valid filename.

Definition content_result (content : string) : Result :=
  Success (JObject [("content", JString content)]).

Definition written_result (filename : string) (append : bool) : Result :=
  Success (JObject
    [("message",
      JString ("Successfully " +:+ (if append then "appended to" else "wrote")
               +:+ " '" +:+ filename +:+ "' in sandbox."))]).

Definition deleted_result (filename : string) : Result :=
  Success (JObject
    [("message", JString ("Successfully deleted '" +:+ filename +:+ "' from sandbox."))]).

Definition files_result (names : list json) : Result :=
  Success (JObject [("files", JArray names)]).

(** What a walk found at [q]: a regular file, or nothing yet. *)
Definition free_or_file (r : walked) (q : list string) : Prop :=
  r = WMissing q \/ exists c, r = WFound q (File c).

(** The content [open(p, "a")] extends. *)
Definition old_content (r : walked) : string :=
  match r with
  | WFound _ (File c) => c
  | _ => ""
  end.

(** The containment check lets [filename] through. *)
Definition inside (w : world) (filename : string) : Prop :=
  exists p, realpath (getcwd w) (joinpath sandbox filename) = Ok p /\
            is_relative_to p (getcwd w ++ ["sandbox"]) = true.

Definition tool_uris : list json :=
  [JString "tool://web-search"; JString "tool://file-read"; JString "tool://file-write";
   JString "tool://file-list"; JString "tool://file-delete"].

Definition resource_template (resource_type : string) : json :=
  JString ("resource://" +:+ resource_type +:+ "/{resource_id}").

Definition model_context_result (row : ModelContextDB.t) (parameters metrics : json)
  : Result :=
  Success (JObject
    [("version", JString (ModelContextDB.version row));
     ("status", JString (ModelContextDB.status row));
     ("parameters", parameters);
     ("metrics", metrics)]).

(** The provider a search request ends up with: the one it names, else
    the configured default, else ["bing"]. *)
Definition effective_provider (search_config : dict) (api : option string) : json :=
  py_or (of_optional_str api)
        (default (JString "bing") (dict_lookup search_config "default")).

(** The provider table of the search configuration, when its ["apis"]
    entry is a mapping or is left out. *)
Definition apis_table (search_config : dict) : option dict :=
  match dict_lookup search_config "apis" with
  | None => Some []
  | Some (JObject apis) => Some apis
  | Some _ => None
  end.

Definition is_enabled (api_config : dict) : bool :=
  truthy (default (JBool false) (dict_lookup api_config "enabled")).

(** The lines printed so far. *)
Definition printed (w : world) : list json :=
  omap (fun ev => match ev with EvPrint line => Some line | _ => None end) (log w).

(** The HTTP requests attempted so far. *)
Definition requested (w : world) : list http_request :=
  omap (fun ev => match ev with EvHttpGet r => Some r | _ => None end) (log w).

(** ** Sample data for the examples *)

(** One rendering of exception texts. *)
Definition sample_str_exn (e : exn) : string :=
  match e with
  | OSError n => "[Errno " +:+ pretty n +:+ "]"
  | ValueError => "embedded null byte"
  | RequestException detail => detail
  | _ => ""
  end.

Definition sample_repr (v : json) : string :=
  match v with
  | JNull => "None"
  | JBool true => "True"
  | JBool false => "False"
  | JInt z => pretty z
  | _ => "..."
  end.

(** A server started in [/srv/app] with an empty sandbox, no environment
    variable set and no network. *)
Definition empty_sandbox : world :=
  mkWorld ["srv"; "app"]
          (<[ ["srv"; "app"; "sandbox"] := Dir ]>
             (<[ ["srv"; "app"] := Dir ]> (<[ ["srv"] := Dir ]> ∅)))
          ∅
          (fun _ => HttpFails "no network")
          [].

(** The same with a file [a.txt] holding ["hi"]. *)
Definition sandbox_with_a : world :=
  set_files (<[ ["srv"; "app"; "sandbox"; "a.txt"] := File "hi" ]> (files empty_sandbox))
            empty_sandbox.


(** The record of the specification's example, and one whose parameters
    are no JSON. *)
Definition ready_row : ModelContextDB.t :=
  ModelContextDB.mk (Some 1%Z) "m1" "1" "ready" "{}" None.

Definition broken_row : ModelContextDB.t :=
  ModelContextDB.mk (Some 1%Z) "m1" "1" "ready" "{" None.

(** A search configuration: [bing] switched off, [brave] switched on
    (and not a supported backend), [google] switched on. *)
Definition sample_search_config : dict :=
  [("default", JString "bing");
   ("apis", JObject [("bing", JObject [("enabled", JBool false)]);
                     ("brave", JObject [("enabled", JBool true)]);
                     ("google", JObject [("enabled", JBool true)])])].

Definition sample_prompts_config : dict :=
  [("empty", JObject []);
   ("partial", JObject [("template", JString "Hello")]);
   ("text", JString "not a mapping")].

(** A dispatcher for the examples: every request is answered by the
    same envelope. *)
Definition sample_dispatch (request : json) : M json :=
  ret (JObject [("jsonrpc", JString "2.0"); ("result", JNull); ("id", JNull)]).

(** The server of [empty_sandbox] with Google credentials configured and
    a network that answers two results, one of them without a title. *)
Definition with_google : world :=
  mkWorld ["srv"; "app"] (files empty_sandbox)
          (<[ "GOOGLE_API_KEY" := "key" ]> (<[ "GOOGLE_CX" := "cx" ]> ∅))
          (fun _ => HttpJson (JObject
             [("items", JArray [JObject [("title", JString "T"); ("link", JString "U");
                                         ("snippet", JString "S")];
                                JObject [("link", JString "V")]])]))
          [].

(** ** What the further properties speak of *)

Definition sandbox_root (w : world) : list string := cwd w ++ ["sandbox"].

Definition error_code (r : Result) : option Z :=
  match r with
  | Success _ => None
  | Error code _ => Some code
  end.

(** The call returned a result, a success or an error whose code is one
    of [codes]; it did not raise. *)
Definition answers_with (r : res Result) (codes : list Z) : Prop :=
  exists result,
    r = Ok result /\
    match error_code result with
    | None => True
    | Some code => In code codes
    end.

(** One search result as the adapters normalise it, from a provider's
    entry [m] whose title and address are under [title_key] and
    [url_key]. *)
Definition normalized (title_key url_key : string) (m : dict) : json :=
  JObject [("title", default (JString "") (dict_lookup m title_key));
           ("url", default (JString "") (dict_lookup m url_key));
           ("snippet", default (JString "") (dict_lookup m "snippet"))].

Definition results_of (title_key url_key : string) (entries : list dict) : Result :=
  Success (JObject [("results", JArray (map (normalized title_key url_key) entries))]).

Definition bing_request (api_key query : string) : http_request :=
  mkRequest "https://api.bing.microsoft.com/v7.0/search"
            [("Ocp-Apim-Subscription-Key", JString api_key)]
            [("q", JString query); ("count", JInt 10);
             ("offset", JInt 0); ("mkt", JString "en-US")].

Definition google_request (api_key cx query : string) : http_request :=
  mkRequest "https://www.googleapis.com/customsearch/v1" []
            [("key", JString api_key); ("cx", JString cx); ("q", JString query)].

(** A value that is neither a mapping, a list nor a string. *)
Definition is_scalar (v : json) : bool :=
  match v with
  | JNull | JBool _ | JInt _ | JFloat _ => true
  | JString _ | JArray _ | JObject _ => false
  end.

(** An environment variable that is set to a non-empty value. *)
Definition env_set (w : world) (name value : string) : Prop :=
  environ w !! name = Some value /\ value <> "".

Definition env_unset (w : world) (name : string) : Prop :=
  environ w !! name = None \/ environ w !! name = Some "".

Definition is_decode_error (e : exn) : bool :=
  match e with
  | JSONDecodeError => true
  | _ => false
  end.

Definition initialized : Result := Success (JObject [("status", JString "initialized")]).

(** A dispatcher that answers every request and prints nothing itself. *)
Definition quiet_dispatcher (dispatch : json -> M json) : Prop :=
  forall request w, exists response w',
    dispatch request w = (Ok response, w') /\ printed w' = printed w.

(** More sample data: a server in [/srv/app] with the environment [env]
    whose network answers every request with [answer]; one with Bing
    credentials whose network is down, one whose network answers a bare
    number, and a store with a configuration file, a broken one and a
    directory in place of one. *)
Definition server_with (env : gmap string string) (answer : http_reply) : world :=
  mkWorld ["srv"; "app"] (files empty_sandbox) env (fun _ => answer) [].

Definition bing_env : gmap string string := <[ "BING_API_KEY" := "key" ]> ∅.

Definition google_env : gmap string string :=
  <[ "GOOGLE_API_KEY" := "key" ]> (<[ "GOOGLE_CX" := "cx" ]> ∅).

Definition bing_down : world :=
  mkWorld ["srv"; "app"] (files empty_sandbox)
          (<[ "BING_API_KEY" := "key" ]> ∅)
          (fun _ => HttpFails "timed out")
          [].

Definition number_body : world :=
  mkWorld ["srv"; "app"] (files empty_sandbox)
          (<[ "BING_API_KEY" := "key" ]>
             (<[ "GOOGLE_API_KEY" := "key" ]> (<[ "GOOGLE_CX" := "cx" ]> ∅)))
          (fun _ => HttpJson (JInt 5))
          [].

Definition with_configs : world :=
  set_files
    (<[ ["srv"; "app"; "prompts.json"] := File "{" ]>
       (<[ ["srv"; "app"; "resources.json"] := File "[1]" ]>
          (<[ ["srv"; "app"; "search_config.json"] := Dir ]> (files empty_sandbox))))
    empty_sandbox.

(** A line of two thousand opening brackets; a carriage return and a
    line feed; a name of 256 bytes; a store whose resource table is the
    document [null], and one whose resource table is no UTF-8 text. *)
Definition deep_line : string := string_of_list_ascii (repeat "["%char 2000).

Definition carriage_return : string := String (Decoder.chr 13) "".
Definition line_feed : string := String (Decoder.chr 10) "".

Definition long_name : string := string_of_list_ascii (repeat "a"%char 256).

Definition null_resources : world :=
  set_files (<[ ["srv"; "app"; "resources.json"] := File "null" ]> (files empty_sandbox))
            empty_sandbox.

Definition undecodable_resources : world :=
  set_files (<[ ["srv"; "app"; "resources.json"] := File (String (Decoder.chr 255) "") ]>
               (files empty_sandbox))
            empty_sandbox.

(** A fresh working directory: nothing in it yet. *)
Definition fresh_directory : world :=
  mkWorld ["srv"; "app"]
          (<[ ["srv"; "app"] := Dir ]> (<[ ["srv"] := Dir ]> ∅))
          ∅ (fun _ => HttpFails "no network") [].

(** * Properties *)

(** ** The decoder *)

Module DecoderFacts.
Import Decoder.

Lemma skip_ws_length s : String.length (skip_ws s) <= String.length s.
Proof.
  induction s as [|c s IH]; simpl; [lia|]. destruct (is_ws c); simpl; lia.
Qed.

Lemma span_digits_length s ds r :
  span_digits s = (ds, r) -> String.length r <= String.length s.
Proof.
  revert ds r. induction s as [|c s IH]; simpl; intros ds r.
  - intros [= <- <-]. simpl. lia.
  - destruct (is_digit c).
    + destruct (span_digits s) as [ds' r'] eqn:E. intros [= <- <-].
      specialize (IH _ _ eq_refl). lia.
    + intros [= <- <-]. simpl. lia.
Qed.

Lemma strip_prefix_length p s r :
  strip_prefix p s = Some r -> String.length s = String.length p + String.length r.
Proof.
  revert s. induction p as [|a p IH]; simpl; intros s.
  - by intros [= ->].
  - destruct s as [|b s]; [discriminate|]. destruct (bool_decide (a = b)); [|discriminate].
    intros H%IH. simpl. lia.
Qed.

Lemma scanstring_length n : forall s acc x r,
  String.length s <= n -> scanstring s acc = Some (x, r) ->
  String.length r < String.length s.
Proof.
  induction n as [|n IH]; intros s acc x r Hn.
  - destruct s; [discriminate|simpl in Hn; lia].
  - destruct s as [|c s1]; [discriminate|]. simpl in Hn.
    cbn [scanstring].
    destruct (is_char c quote); [intros [= _ <-]; simpl; lia|].
    destruct (is_char c backslash).
    + destruct s1 as [|e r1]; [discriminate|]. simpl in Hn.
      destruct (is_char e 117).
      * destruct r1 as [|h1 [|h2 [|h3 [|h4 r4]]]]; try discriminate. simpl in Hn.
        destruct (hex4 h1 h2 h3 h4) as [cp|]; [|discriminate].
        assert (Hr4 : forall acc', scanstring r4 acc' = Some (x, r) ->
                  String.length r < String.length (String c (String e (String h1 (String h2 (String h3 (String h4 r4))))))).
        { intros acc' H. apply IH in H; [simpl; lia|lia]. }
        destruct r4 as [|b [|u [|l1 [|l2 [|l3 [|l4 r10]]]]]]; try apply Hr4.
        destruct (is_high_surrogate cp && is_char b backslash && is_char u 117); [|apply Hr4].
        destruct (hex4 l1 l2 l3 l4) as [lo|]; [|discriminate].
        destruct (is_low_surrogate lo); [|apply Hr4].
        intros H. apply IH in H; [simpl; lia|simpl in Hn; lia].
      * destruct (simple_escape e); [|discriminate].
        intros H. apply IH in H; [simpl; lia|lia].
    + destruct (Nat.leb (ord c) 31); [discriminate|].
      intros H. apply IH in H; [simpl; lia|lia].
Qed.

Lemma scanstring_shorter s acc x r :
  scanstring s acc = Some (x, r) -> String.length r < String.length s.
Proof. by apply (scanstring_length (String.length s)). Qed.

(** What the scanners leave is a suffix of what they were given. *)
Lemma suffix_refl s : is_suffix s s.
Proof. by exists "". Qed.

Lemma suffix_cons c r s : is_suffix r s -> is_suffix r (String c s).
Proof. intros [pre ->]. exists (String c pre). reflexivity. Qed.

Lemma suffix_trans r s t : is_suffix r s -> is_suffix s t -> is_suffix r t.
Proof.
  intros [p1 ->] [p2 ->]. exists (p2 +:+ p1).
  induction p2 as [|c p2 IH]; [reflexivity|].
  change (String c (p2 +:+ (p1 +:+ r)) = String c ((p2 +:+ p1) +:+ r)). by rewrite IH.
Qed.

Create HintDb suffix.
#[local] Hint Resolve suffix_refl suffix_cons : suffix.

Lemma skip_ws_suffix s : is_suffix (skip_ws s) s.
Proof.
  induction s as [|c s IH]; simpl; [apply suffix_refl|].
  destruct (is_ws c); auto with suffix.
Qed.

Lemma span_digits_suffix s ds r : span_digits s = (ds, r) -> is_suffix r s.
Proof.
  revert ds r. induction s as [|c s IH]; simpl; intros ds r.
  - intros [= <- <-]. apply suffix_refl.
  - destruct (is_digit c).
    + destruct (span_digits s) as [ds' r'] eqn:E. intros [= <- <-].
      eauto with suffix.
    + intros [= <- <-]. apply suffix_refl.
Qed.

Lemma strip_prefix_suffix p s r : strip_prefix p s = Some r -> is_suffix r s.
Proof.
  revert s. induction p as [|a p IH]; simpl; intros s.
  - intros [= ->]. apply suffix_refl.
  - destruct s as [|b s]; [discriminate|]. destruct (bool_decide (a = b)); [|discriminate].
    eauto with suffix.
Qed.

Lemma scanstring_suffix_n n : forall s acc x r,
  String.length s <= n -> scanstring s acc = Some (x, r) -> is_suffix r s.
Proof.
  induction n as [|n IH]; intros s acc x r Hn.
  - destruct s; [discriminate|simpl in Hn; lia].
  - destruct s as [|c s1]; [discriminate|]. simpl in Hn.
    cbn [scanstring].
    destruct (is_char c quote); [intros [= _ <-]; auto with suffix|].
    destruct (is_char c backslash).
    + destruct s1 as [|e r1]; [discriminate|]. simpl in Hn.
      destruct (is_char e 117).
      * destruct r1 as [|h1 [|h2 [|h3 [|h4 r4]]]]; try discriminate. simpl in Hn.
        destruct (hex4 h1 h2 h3 h4) as [cp|]; [|discriminate].
        assert (Hr4 : forall acc', scanstring r4 acc' = Some (x, r) ->
                  is_suffix r (String c (String e (String h1 (String h2 (String h3 (String h4 r4))))))).
        { intros acc' H. apply IH in H; [auto 8 with suffix|lia]. }
        destruct r4 as [|b [|u [|l1 [|l2 [|l3 [|l4 r10]]]]]]; try apply Hr4.
        destruct (is_high_surrogate cp && is_char b backslash && is_char u 117); [|apply Hr4].
        destruct (hex4 l1 l2 l3 l4) as [lo|]; [|discriminate].
        destruct (is_low_surrogate lo); [|apply Hr4].
        intros H. apply IH in H; [auto 14 with suffix|simpl in Hn; lia].
      * destruct (simple_escape e); [|discriminate].
        intros H. apply IH in H; [auto with suffix|lia].
    + destruct (Nat.leb (ord c) 31); [discriminate|].
      intros H. apply IH in H; [auto with suffix|lia].
Qed.

Lemma scanstring_suffix s acc x r : scanstring s acc = Some (x, r) -> is_suffix r s.
Proof. by apply (scanstring_suffix_n (String.length s)). Qed.

Lemma match_number_suffix s v r : match_number s = Some (v, r) -> is_suffix r s.
Proof.
  unfold match_number.
  destruct (match s with
            | String c r0 => if is_char c 45 then (true, r0) else (false, s)
            | EmptyString => (false, s)
            end) as [neg s1] eqn:E1.
  assert (Hs1 : is_suffix s1 s).
  { destruct s as [|c r0]; [injection E1 as <- <-; apply suffix_refl|].
    destruct (is_char c 45); injection E1 as <- <-; auto with suffix. }
  destruct s1 as [|c r0]; [discriminate|].
  destruct (is_digit c) eqn:Hd; [|discriminate]. cbn [negb].
  destruct (if is_char c 48 then ([c], r0) else span_digits (String c r0))
    as [int_ds s2] eqn:E2.
  assert (Hs2 : is_suffix s2 (String c r0)).
  { destruct (is_char c 48); [injection E2 as <- <-; auto with suffix|].
    by apply span_digits_suffix in E2. }
  assert (Hs3 : is_suffix
            (snd (match s2 with
                  | String dot (String d r') =>
                      if is_char dot 46 && is_digit d
                      then span_digits (String d r')
                      else ([], s2)
                  | _ => ([], s2)
                  end)) s2).
  { destruct s2 as [|dot [|d r']]; try apply suffix_refl.
    destruct (is_char dot 46 && is_digit d); [|apply suffix_refl].
    destruct (span_digits (String d r')) as [ds r''] eqn:E.
    apply span_digits_suffix in E. cbn [snd]. auto with suffix. }
  destruct (match s2 with
            | String dot (String d r') =>
                if is_char dot 46 && is_digit d
                then span_digits (String d r')
                else ([], s2)
            | _ => ([], s2)
            end) as [frac_ds s3]. simpl in Hs3.
  assert (Hs4 : is_suffix
            (snd (match s3 with
                  | String e r' =>
                      if is_char e 101 || is_char e 69 then
                        let '(sign, r'') :=
                          match r' with
                          | String sg t =>
                              if is_char sg 43 then (1%Z, t)
                              else if is_char sg 45 then ((-1)%Z, t)
                              else (1%Z, r')
                          | EmptyString => (1%Z, r')
                          end in
                        let '(exp_ds, r3) := span_digits r'' in
                        match exp_ds with
                        | [] => (None, s3)
                        | _ :: _ => (Some (sign * digits_val exp_ds)%Z, r3)
                        end
                      else (None, s3)
                  | EmptyString => (None, s3)
                  end)) s3).
  { destruct s3 as [|e r']; [apply suffix_refl|].
    destruct (is_char e 101 || is_char e 69); [|apply suffix_refl].
    assert (H : forall (sign : Z) r'', is_suffix r'' r' ->
              is_suffix
                (snd (let '(exp_ds, r3) := span_digits r'' in
                      match exp_ds with
                      | [] => (@None Z, String e r')
                      | _ :: _ => (Some (sign * digits_val exp_ds)%Z, r3)
                      end)) (String e r')).
    { intros sign r'' Hr. destruct (span_digits r'') as [ds r3] eqn:E.
      apply span_digits_suffix in E. destruct ds; simpl; [apply suffix_refl|].
      apply suffix_cons. by apply (suffix_trans _ r''). }
    destruct r' as [|sg t].
    - apply (H 1%Z). apply suffix_refl.
    - destruct (is_char sg 43); [apply (H 1%Z); auto with suffix|].
      destruct (is_char sg 45); [apply (H (-1)%Z); auto with suffix|].
      apply (H 1%Z). apply suffix_refl. }
  match goal with
  | |- context [let '(_, _) := ?X in _] => destruct X as [exp s4]
  end.
  simpl in Hs4.
  assert (Hall : is_suffix s4 s).
  { apply (suffix_trans _ s3); [exact Hs4|].
    apply (suffix_trans _ s2); [exact Hs3|].
    by apply (suffix_trans _ (String c r0)). }
  destruct frac_ds, exp; intros [= _ <-]; exact Hall.
Qed.

Lemma frac_stage s2 :
  String.length
    (snd (match s2 with
          | String dot (String d r') =>
              if is_char dot 46 && is_digit d
              then span_digits (String d r')
              else ([], s2)
          | _ => ([], s2)
          end)) <= String.length s2.
Proof.
  destruct s2 as [|dot [|d r']]; simpl; try lia.
  destruct (is_char dot 46 && is_digit d); simpl; [|lia].
  destruct (is_digit d); simpl; [|lia].
  destruct (span_digits r') as [ds r] eqn:E. simpl. apply span_digits_length in E. lia.
Qed.

Lemma exp_stage s3 :
  String.length
    (snd (match s3 with
          | String e r' =>
              if is_char e 101 || is_char e 69 then
                let '(sign, r'') :=
                  match r' with
                  | String sg t =>
                      if is_char sg 43 then (1%Z, t)
                      else if is_char sg 45 then ((-1)%Z, t)
                      else (1%Z, r')
                  | EmptyString => (1%Z, r')
                  end in
                let '(exp_ds, r3) := span_digits r'' in
                match exp_ds with
                | [] => (None, s3)
                | _ :: _ => (Some (sign * digits_val exp_ds)%Z, r3)
                end
              else (None, s3)
          | EmptyString => (None, s3)
          end)) <= String.length s3.
Proof.
  destruct s3 as [|e r']; simpl; [lia|].
  destruct (is_char e 101 || is_char e 69); simpl; [|lia].
  assert (H : forall (sign : Z) r'', String.length r'' <= String.length r' ->
            String.length
              (snd (let '(exp_ds, r3) := span_digits r'' in
                    match exp_ds with
                    | [] => (@None Z, String e r')
                    | _ :: _ => (Some (sign * digits_val exp_ds)%Z, r3)
                    end)) <= S (String.length r')).
  { intros sign r'' Hr. destruct (span_digits r'') as [ds r3] eqn:E.
    apply span_digits_length in E. destruct ds; simpl; lia. }
  destruct r' as [|sg t].
  - apply (H 1%Z). simpl. lia.
  - destruct (is_char sg 43); [apply (H 1%Z); simpl; lia|].
    destruct (is_char sg 45); [apply (H (-1)%Z); simpl; lia|].
    apply (H 1%Z). simpl. lia.
Qed.

Lemma match_number_shorter s v r :
  match_number s = Some (v, r) -> String.length r < String.length s.
Proof.
  unfold match_number.
  destruct (match s with
            | String c r0 => if is_char c 45 then (true, r0) else (false, s)
            | EmptyString => (false, s)
            end) as [neg s1] eqn:E1.
  assert (Hs1 : String.length s1 <= String.length s).
  { destruct s as [|c r0]; [by injection E1 as <- <-|].
    destruct (is_char c 45); injection E1 as <- <-; simpl; lia. }
  destruct s1 as [|c r0]; [discriminate|]. simpl in Hs1.
  destruct (is_digit c) eqn:Hd; [|discriminate]. cbn [negb].
  destruct (if is_char c 48 then ([c], r0) else span_digits (String c r0))
    as [int_ds s2] eqn:E2.
  assert (Hs2 : String.length s2 <= String.length r0).
  { destruct (is_char c 48); [by injection E2 as <- <-|].
    simpl in E2. rewrite Hd in E2.
    destruct (span_digits r0) as [ds r'] eqn:E. injection E2 as <- <-.
    by apply span_digits_length in E. }
  pose proof (frac_stage s2) as Hs3.
  destruct (match s2 with
            | String dot (String d r') =>
                if is_char dot 46 && is_digit d
                then span_digits (String d r')
                else ([], s2)
            | _ => ([], s2)
            end) as [frac_ds s3]. simpl in Hs3.
  pose proof (exp_stage s3) as Hs4.
  match goal with
  | |- context [let '(_, _) := ?X in _] => destruct X as [exp s4]
  end.
  simpl in Hs4.
  destruct frac_ds, exp; intros [= _ <-]; lia.
Qed.


Lemma suffix_length r s : is_suffix r s -> String.length r <= String.length s.
Proof.
  intros [pre ->]. induction pre as [|c pre IH]; [done|].
  change (String c pre +:+ r) with (String c (pre +:+ r)). simpl. lia.
Qed.

Lemma suffix_count r s : is_suffix r s -> count_open r <= count_open s.
Proof.
  intros [pre ->]. induction pre as [|c pre IH]; [done|].
  change (String c pre +:+ r) with (String c (pre +:+ r)). simpl. lia.
Qed.

Lemma count_open_bracket c r :
  is_char c 91 || is_char c 123 = true -> count_open (String c r) = S (count_open r).
Proof. simpl. by intros ->. Qed.

Lemma settled_weaken {A} d s s' (r : parsed A) :
  settled d s' r -> is_suffix s' s -> settled d s r.
Proof.
  intros H Hs. pose proof (suffix_length _ _ Hs). pose proof (suffix_count _ _ Hs).
  destruct r as [[a rest]|e]; simpl in *; [lia|].
  destruct H as [H|[H ?]]; [by left|right]. split; [done|lia].
Qed.

(** With fuel for two steps a character, a run of the scanner is
    [settled]: the fuel does not run out. *)
Lemma fuel_settles f :
  (forall d s, 2 * String.length s + 1 <= f -> settled d s (scan_once f d s)) /\
  (forall d s acc, 2 * String.length s + 2 <= f -> settled d s (parse_members f d s acc)) /\
  (forall d s acc, 2 * String.length s + 2 <= f -> settled d s (parse_items f d s acc)).
Proof.
  induction f as [|f (IHscan & IHmembers & IHitems)].
  - repeat split; intros; lia.
  - split; [|split].
    + intros d s Hf. destruct s as [|c r]; [by left|].
      pose proof (suffix_cons c _ _ (suffix_refl r)) as Hr.
      simpl String.length in Hf. cbn [scan_once].
      destruct (is_char c quote).
      { destruct (scanstring r []) as [[str r']|] eqn:E; [|by left].
        pose proof (scanstring_shorter _ _ _ _ E).
        pose proof (suffix_count _ _ (scanstring_suffix _ _ _ _ E)).
        pose proof (suffix_count _ _ Hr). unfold settled. simpl String.length. split; lia. }
      destruct (is_char c 123) eqn:Hobj.
      { assert (Hc : count_open (String c r) = S (count_open r))
          by (apply count_open_bracket; by rewrite Hobj, orb_true_r).
        destruct d as [|d]; [right; split; [done|lia]|].
        pose proof (skip_ws_suffix r) as Hws.
        destruct (skip_ws r) as [|c' r'] eqn:E; [by left|].
        pose proof (suffix_length _ _ Hws) as Hl. pose proof (suffix_count _ _ Hws) as Hn.
        pose proof (suffix_count _ _ (suffix_cons c' _ _ (suffix_refl r'))) as Hn'.
        simpl String.length in *.
        destruct (is_char c' 125); [unfold settled; simpl String.length; split; lia|].
        specialize (IHmembers d (String c' r') []).
        destruct (parse_members f d (String c' r') []) as [[dct r'']|e];
          unfold settled in IHmembers |- *; simpl String.length in *.
        - destruct IHmembers; lia.
        - destruct IHmembers as [?|[? ?]]; [lia|by left|right]. split; [done|lia]. }
      destruct (is_char c 91) eqn:Harr.
      { assert (Hc : count_open (String c r) = S (count_open r))
          by (apply count_open_bracket; by rewrite Harr).
        destruct d as [|d]; [right; split; [done|lia]|].
        pose proof (skip_ws_suffix r) as Hws.
        destruct (skip_ws r) as [|c' r'] eqn:E; [by left|].
        pose proof (suffix_length _ _ Hws) as Hl. pose proof (suffix_count _ _ Hws) as Hn.
        pose proof (suffix_count _ _ (suffix_cons c' _ _ (suffix_refl r'))) as Hn'.
        simpl String.length in *.
        destruct (is_char c' 93); [unfold settled; simpl String.length; split; lia|].
        specialize (IHitems d (String c' r') []).
        destruct (parse_items f d (String c' r') []) as [[l r'']|e];
          unfold settled in IHitems |- *; simpl String.length in *.
        - destruct IHitems; lia.
        - destruct IHitems as [?|[? ?]]; [lia|by left|right]. split; [done|lia]. }
      assert (Hlit : forall p r', p <> "" -> strip_prefix p (String c r) = Some r' ->
                String.length r' < String.length (String c r) /\
                count_open r' <= count_open (String c r)).
      { intros p r' Hp E. pose proof (strip_prefix_length _ _ _ E).
        pose proof (suffix_count _ _ (strip_prefix_suffix _ _ _ E)).
        destruct p; [done|]. simpl String.length in *. lia. }
      destruct (strip_prefix "null" (String c r)) as [r'|] eqn:E1; [by apply (Hlit "null")|].
      destruct (strip_prefix "true" (String c r)) as [r'|] eqn:E2; [by apply (Hlit "true")|].
      destruct (strip_prefix "false" (String c r)) as [r'|] eqn:E3; [by apply (Hlit "false")|].
      destruct (strip_prefix "NaN" (String c r)) as [r'|] eqn:E4; [by apply (Hlit "NaN")|].
      destruct (strip_prefix "Infinity" (String c r)) as [r'|] eqn:E5;
        [by apply (Hlit "Infinity")|].
      destruct (strip_prefix "-Infinity" (String c r)) as [r'|] eqn:E6;
        [by apply (Hlit "-Infinity")|].
      destruct (match_number (String c r)) as [[v r']|] eqn:E7; [|by left].
      split; [by apply match_number_shorter in E7|].
      by apply suffix_count, (match_number_suffix _ v).
    + intros d s acc Hf. cbn [parse_members].
      destruct s as [|q r]; [by left|]. simpl String.length in Hf.
      destruct (is_char q quote); [|by left].
      destruct (scanstring r []) as [[key r1]|] eqn:E; [|by left].
      pose proof (scanstring_shorter _ _ _ _ E) as Hl1.
      pose proof (scanstring_suffix _ _ _ _ E) as Hs1.
      pose proof (skip_ws_suffix r1) as Hws1.
      destruct (skip_ws r1) as [|colon r2]; [by left|].
      destruct (is_char colon 58); [|by left].
      assert (Hs2 : is_suffix (skip_ws r2) (String q r)).
      { apply suffix_cons. apply (suffix_trans _ r1); [|exact Hs1].
        apply (suffix_trans _ (String colon r2)); [|exact Hws1].
        apply suffix_cons, skip_ws_suffix. }
      pose proof (suffix_length _ _ Hws1) as Hl2. pose proof (skip_ws_length r2) as Hl3.
      simpl String.length in Hl2.
      specialize (IHscan d (skip_ws r2)).
      destruct (scan_once f d (skip_ws r2)) as [[v r3]|e].
      2:{ apply (settled_weaken d _ (skip_ws r2)); [|exact Hs2]. apply IHscan. lia. }
      assert (Hr3 : String.length r3 < String.length (skip_ws r2) /\
                    count_open r3 <= count_open (skip_ws r2)) by (apply IHscan; lia).
      pose proof (suffix_count _ _ Hs2) as Hn2.
      pose proof (skip_ws_suffix r3) as Hws3.
      destruct (skip_ws r3) as [|dd r4]; [by left|].
      pose proof (suffix_length _ _ Hws3) as Hl4. pose proof (suffix_count _ _ Hws3) as Hn4.
      pose proof (suffix_count _ _ (suffix_cons dd _ _ (suffix_refl r4))) as Hn5.
      simpl String.length in Hl4.
      destruct (is_char dd 125); [unfold settled; simpl String.length; lia|].
      destruct (is_char dd 44); [|by left].
      pose proof (skip_ws_length r4) as Hl5.
      pose proof (suffix_count _ _ (skip_ws_suffix r4)) as Hn6.
      specialize (IHmembers d (skip_ws r4) (dict_set acc key v)).
      destruct (parse_members f d (skip_ws r4) (dict_set acc key v)) as [[dct r5]|e];
        unfold settled in IHmembers |- *; simpl String.length in *.
      * destruct IHmembers; lia.
      * destruct IHmembers as [?|[? ?]]; [lia|by left|right]. split; [done|lia].
    + intros d s acc Hf. cbn [parse_items].
      specialize (IHscan d s).
      destruct (scan_once f d s) as [[v r]|e]; [|apply IHscan; lia].
      assert (Hr : String.length r < String.length s /\ count_open r <= count_open s)
        by (apply IHscan; lia).
      pose proof (skip_ws_suffix r) as Hws.
      destruct (skip_ws r) as [|dd r']; [by left|].
      pose proof (suffix_length _ _ Hws) as Hl. pose proof (suffix_count _ _ Hws) as Hn.
      pose proof (suffix_count _ _ (suffix_cons dd _ _ (suffix_refl r'))) as Hn'.
      simpl String.length in Hl.
      destruct (is_char dd 93); [unfold settled; simpl String.length; lia|].
      destruct (is_char dd 44); [|by left].
      pose proof (skip_ws_length r') as Hl'.
      pose proof (suffix_count _ _ (skip_ws_suffix r')) as Hn''.
      specialize (IHitems d (skip_ws r') (acc ++ [v])).
      destruct (parse_items f d (skip_ws r') (acc ++ [v])) as [[l r'']|e];
        unfold settled in IHitems |- *; simpl String.length in *.
      * destruct IHitems; lia.
      * destruct IHitems as [?|[? ?]]; [lia|by left|right]. split; [done|lia].
Qed.

(** More fuel than that changes nothing. *)
Lemma fuel_stable f1 : forall f2,
  (forall d s, 2 * String.length s + 1 <= f1 -> 2 * String.length s + 1 <= f2 ->
     scan_once f1 d s = scan_once f2 d s) /\
  (forall d s acc, 2 * String.length s + 2 <= f1 -> 2 * String.length s + 2 <= f2 ->
     parse_members f1 d s acc = parse_members f2 d s acc) /\
  (forall d s acc, 2 * String.length s + 2 <= f1 -> 2 * String.length s + 2 <= f2 ->
     parse_items f1 d s acc = parse_items f2 d s acc).
Proof.
  induction f1 as [|f1 IH]; intros f2.
  - repeat split; intros; lia.
  - destruct f2 as [|f2]; [repeat split; intros; lia|].
    destruct (IH f2) as (IHscan & IHmembers & IHitems).
    split; [|split].
    + intros d s H1 H2. destruct s as [|c r]; [reflexivity|].
      simpl String.length in H1, H2. cbn [scan_once].
      destruct (is_char c quote); [reflexivity|].
      destruct (is_char c 123).
      { destruct d as [|d]; [reflexivity|].
        pose proof (skip_ws_length r) as Hl.
        destruct (skip_ws r) as [|c' r']; [reflexivity|]. simpl String.length in Hl.
        destruct (is_char c' 125); [reflexivity|].
        rewrite (IHmembers d (String c' r') []); [reflexivity| |]; simpl String.length; lia. }
      destruct (is_char c 91); [|reflexivity].
      destruct d as [|d]; [reflexivity|].
      pose proof (skip_ws_length r) as Hl.
      destruct (skip_ws r) as [|c' r']; [reflexivity|]. simpl String.length in Hl.
      destruct (is_char c' 93); [reflexivity|].
      rewrite (IHitems d (String c' r') []); [reflexivity| |]; simpl String.length; lia.
    + intros d s acc H1 H2. cbn [parse_members].
      destruct s as [|q r]; [reflexivity|]. simpl String.length in H1, H2.
      destruct (is_char q quote); [|reflexivity].
      destruct (scanstring r []) as [[key r1]|] eqn:E; [|reflexivity].
      pose proof (scanstring_shorter _ _ _ _ E) as Hl1.
      pose proof (skip_ws_length r1) as Hl2.
      destruct (skip_ws r1) as [|colon r2]; [reflexivity|]. simpl String.length in Hl2.
      destruct (is_char colon 58); [|reflexivity].
      pose proof (skip_ws_length r2) as Hl3.
      rewrite (IHscan d (skip_ws r2)) by lia.
      pose proof (proj1 (fuel_settles f2) d (skip_ws r2) ltac:(lia)) as Hset.
      destruct (scan_once f2 d (skip_ws r2)) as [[v r3]|e]; [|reflexivity].
      destruct Hset as [Hl4 _]. cbv zeta.
      pose proof (skip_ws_length r3) as Hl5.
      destruct (skip_ws r3) as [|d0 r4]; [reflexivity|]. simpl String.length in Hl5.
      destruct (is_char d0 125); [reflexivity|].
      destruct (is_char d0 44); [|reflexivity].
      pose proof (skip_ws_length r4) as Hl6.
      apply IHmembers; lia.
    + intros d s acc H1 H2. cbn [parse_items].
      rewrite (IHscan d s) by lia.
      pose proof (proj1 (fuel_settles f2) d s ltac:(lia)) as Hset.
      destruct (scan_once f2 d s) as [[v r]|e]; [|reflexivity].
      destruct Hset as [Hl _]. cbv zeta.
      pose proof (skip_ws_length r) as Hl'.
      destruct (skip_ws r) as [|d0 r']; [reflexivity|]. simpl String.length in Hl'.
      destruct (is_char d0 93); [reflexivity|].
      destruct (is_char d0 44); [|reflexivity].
      pose proof (skip_ws_length r') as Hl''.
      apply IHitems; lia.
Qed.

End DecoderFacts.

(** The bound of [Decoder.loads] is never what stops the decoder: any
    more fuel gives the same result. *)
Lemma fuel_is_enough (limit : nat) (s : string) (fuel : nat) :
  2 * String.length s + 1 <= fuel ->
  Decoder.scan_once fuel limit (Decoder.skip_ws s)
    = Decoder.scan_once (S (2 * String.length s)) limit (Decoder.skip_ws s).
Proof.
  intros Hf. pose proof (DecoderFacts.skip_ws_length s).
  apply DecoderFacts.fuel_stable; lia.
Qed.

(** The decoder raises [JSONDecodeError], or [RecursionError] on a text
    with more opening brackets than the interpreter lets it nest. *)
Lemma loads_raises (limit : nat) (s : string) (e : exn) :
  Decoder.loads limit s = Raised e ->
  e = JSONDecodeError \/ (e = RecursionError /\ limit < count_open s).
Proof.
  unfold Decoder.loads.
  pose proof (DecoderFacts.skip_ws_length s) as Hl.
  pose proof (DecoderFacts.suffix_count _ _ (DecoderFacts.skip_ws_suffix s)) as Hn.
  pose proof (proj1 (DecoderFacts.fuel_settles (S (2 * String.length s))) limit
                (Decoder.skip_ws s) ltac:(lia)) as H.
  destruct (Decoder.scan_once _ limit (Decoder.skip_ws s)) as [[v r]|e'].
  - destruct (Decoder.skip_ws r); [discriminate|]. intros [= <-]. by left.
  - intros [= <-]. destruct H as [H|[H ?]]; [by left|right]. split; [done|lia].
Qed.

(** ** Text and bytes *)

Lemma ord_chr n : n < 256 -> Decoder.ord (Decoder.chr n) = n.
Proof. apply nat_ascii_embedding. Qed.

Lemma chr_ord c : Decoder.chr (Decoder.ord c) = c.
Proof. apply ascii_nat_embedding. Qed.

Lemma ord_bound c : Decoder.ord c < 256.
Proof. apply nat_ascii_bounded. Qed.

(** Decides the byte tests of a goal, closing the cases that
    contradict what is known of the bytes. *)
Ltac byte_tests :=
  unfold byte_in, Decoder.is_char in *;
  repeat match goal with
         | |- context [Nat.eqb ?a ?b] => destruct (Nat.eqb_spec a b); try lia
         | |- context [Nat.ltb ?a ?b] => destruct (Nat.ltb_spec a b); try lia
         | |- context [Nat.leb ?a ?b] => destruct (Nat.leb_spec a b); try lia
         end.

Lemma utf8_len_ascii c r : utf8_len (String c r) = 0 -> 128 <= Decoder.ord c.
Proof.
  unfold utf8_len. destruct (Nat.ltb_spec (Decoder.ord c) 128); [discriminate|lia].
Qed.

(** A sequence is recognised by its own bytes: what follows them does
    not matter. *)
Lemma utf8_len_copy c r n :
  utf8_len (String c r) = S n -> utf8_len (String c (fsdecode_go n r)) = S n.
Proof.
  unfold utf8_len.
  destruct (Nat.ltb (Decoder.ord c) 128); [by intros [= <-]|].
  destruct (byte_in 194 223 c).
  { destruct r as [|b1 r]; [discriminate|].
    destruct (byte_in 128 191 b1) eqn:E1; [|discriminate].
    intros [= <-]. cbn [fsdecode_go]. by rewrite E1. }
  destruct (byte_in 224 239 c).
  { destruct r as [|b1 [|b2 r]]; try discriminate.
    destruct (byte_in _ _ b1 && byte_in 128 191 b2) eqn:E; [|discriminate].
    intros [= <-]. cbn [fsdecode_go]. by rewrite E. }
  destruct (byte_in 240 244 c); [|discriminate].
  destruct r as [|b1 [|b2 [|b3 r]]]; try discriminate.
  destruct (byte_in _ _ b1 && byte_in 128 191 b2 && byte_in 128 191 b3) eqn:E; [|discriminate].
  intros [= <-]. cbn [fsdecode_go]. by rewrite E.
Qed.

Lemma utf8_len_app c r n b :
  utf8_len (String c r) = S n -> utf8_len (String c (r +:+ b)) = S n.
Proof.
  unfold utf8_len.
  destruct (Nat.ltb (Decoder.ord c) 128); [done|].
  destruct (byte_in 194 223 c).
  { destruct r as [|b1 r]; [discriminate|]. done. }
  destruct (byte_in 224 239 c).
  { destruct r as [|b1 [|b2 r]]; try discriminate. done. }
  destruct (byte_in 240 244 c); [|discriminate].
  destruct r as [|b1 [|b2 [|b3 r]]]; try discriminate. done.
Qed.

(** The three bytes of an escaped byte are no UTF-8: their second byte
    is that of a surrogate. *)
Lemma utf8_len_escape c h l r :
  Decoder.ord c = 237 -> 160 <= Decoder.ord h ->
  utf8_len (String c (String h (String l r))) = 0.
Proof.
  intros Hc Hh. unfold utf8_len, byte_in, Decoder.is_char. rewrite !Hc.
  byte_tests; reflexivity.
Qed.

Lemma fsencode_fsdecode_go b : forall k, fsencode_go k (fsdecode_go k b) = Some b.
Proof.
  induction b as [|c r IH]; intros k; [by destruct k|].
  destruct k as [|k].
  - cbn [fsdecode_go]. destruct (utf8_len (String c r)) as [|n] eqn:E.
    + pose proof (utf8_len_ascii _ _ E) as Hc. pose proof (ord_bound c) as Hb.
      pose proof (Nat.div_mod_eq (Decoder.ord c) 64) as Hdm.
      pose proof (Nat.mod_upper_bound (Decoder.ord c) 64 ltac:(lia)) as Hm.
      assert (Hq : 2 <= Decoder.ord c / 64 <= 3).
      { split.
        - apply Nat.div_le_lower_bound; lia.
        - apply Nat.lt_succ_r, Nat.Div0.div_lt_upper_bound; lia. }
      set (q := Decoder.ord c / 64) in *. set (m := Decoder.ord c mod 64) in *.
      cbn [fsencode_go].
      rewrite utf8_len_escape by (rewrite ?ord_chr; lia).
      unfold byte_in, Decoder.is_char. rewrite !ord_chr by lia.
      replace (237 =? 237) with true by reflexivity.
      replace (178 <=? 176 + q) with true by (symmetry; apply Nat.leb_le; lia).
      replace (176 + q <=? 179) with true by (symmetry; apply Nat.leb_le; lia).
      replace (128 <=? 128 + m) with true by (symmetry; apply Nat.leb_le; lia).
      replace (128 + m <=? 191) with true by (symmetry; apply Nat.leb_le; lia).
      cbn [andb]. rewrite IH. cbn [option_map].
      replace ((176 + q - 176) * 64 + (128 + m - 128)) with (Decoder.ord c) by lia.
      by rewrite chr_ord.
    + cbn [fsencode_go]. rewrite (utf8_len_copy _ _ _ E), IH. reflexivity.
  - cbn [fsdecode_go fsencode_go]. by rewrite IH.
Qed.

(** Whatever bytes a name has, [os.fsencode] gives them back from what
    [os.fsdecode] made of them. *)
Lemma fsencode_fsdecode b : fsencode (fsdecode b) = Some b.
Proof. apply fsencode_fsdecode_go. Qed.

Lemma fs_bytes_fsdecode b : fs_bytes (fsdecode b) = b.
Proof. unfold fs_bytes. by rewrite fsencode_fsdecode. Qed.

Lemma utf8_go_codec s : forall k,
  utf8_go k s = true -> fsdecode_go k s = s /\ fsencode_go k s = Some s.
Proof.
  induction s as [|c r IH]; intros k; [by destruct k|].
  destruct k as [|k]; cbn [utf8_go fsdecode_go fsencode_go].
  - destruct (utf8_len (String c r)) as [|n]; [discriminate|].
    intros [-> ->]%IH. done.
  - intros [-> ->]%IH. done.
Qed.

(** UTF-8 text is its own file system encoding. *)
Lemma utf8_valid_fsdecode s : utf8_valid s = true -> fsdecode s = s.
Proof. intros H. by apply utf8_go_codec. Qed.

Lemma utf8_valid_fsencode s : utf8_valid s = true -> fsencode s = Some s.
Proof. intros H. by apply utf8_go_codec. Qed.

Lemma utf8_valid_fs_bytes s : utf8_valid s = true -> fs_bytes s = s.
Proof. intros H. unfold fs_bytes. by rewrite utf8_valid_fsencode. Qed.

Lemma utf8_valid_encodable s : utf8_valid s = true -> encodable s = true.
Proof. intros H. unfold encodable. by rewrite utf8_valid_fsencode. Qed.

(** A name that reads as UTF-8 text is the name itself. *)
Lemma fsdecode_utf8 b : utf8_valid (fsdecode b) = true -> fsdecode b = b.
Proof.
  intros H. pose proof (fsencode_fsdecode b) as Hb.
  rewrite (utf8_valid_fsencode _ H) in Hb. by injection Hb.
Qed.

Lemma utf8_go_app a b : forall k,
  utf8_go k a = true -> utf8_go k (a +:+ b) = utf8_go 0 b.
Proof.
  induction a as [|c r IH]; intros k.
  - destruct k; [done|discriminate].
  - destruct k as [|k]; cbn [utf8_go]; change (String c r +:+ b) with (String c (r +:+ b));
      cbn [utf8_go].
    + destruct (utf8_len (String c r)) as [|n] eqn:E; [discriminate|].
      rewrite (utf8_len_app _ _ _ b E). apply IH.
    + apply IH.
Qed.

(** Text after text is text. *)
Lemma utf8_valid_app a b :
  utf8_valid a = true -> utf8_valid b = true -> utf8_valid (a +:+ b) = true.
Proof. intros Ha Hb. unfold utf8_valid. by rewrite (utf8_go_app _ _ _ Ha). Qed.

Lemma has_char_app n a b : has_char n (a +:+ b) = has_char n a || has_char n b.
Proof.
  induction a as [|c a IH]; [reflexivity|].
  change (String c a +:+ b) with (String c (a +:+ b)). simpl. by rewrite IH, orb_assoc.
Qed.

(** Text without a carriage return reads as it is. *)
Lemma universal_newlines_plain s : has_char 13 s = false -> universal_newlines s = s.
Proof.
  induction s as [|c s IH]; [reflexivity|]. simpl.
  intros [Hc Hs]%orb_false_iff. rewrite Hc. by rewrite IH.
Qed.

Lemma decode_text_valid bytes :
  utf8_valid bytes = true -> decode_text bytes = Ok (universal_newlines bytes).
Proof. unfold decode_text. by intros ->. Qed.

(** ** Paths and walks *)

Lemma resolve_run (p : PurePath) (w : world) :
  resolve p w = (realpath (getcwd w) p, add_log (EvResolve p) w).
Proof. reflexivity. Qed.

Lemma fs_bytes_sandbox : fs_bytes "sandbox" = "sandbox".
Proof. vm_compute. reflexivity. Qed.

Lemma realpath_sandbox (c : list string) : realpath c sandbox = Ok (c ++ ["sandbox"]).
Proof.
  unfold realpath. change (lstat_error (path_parts sandbox)) with (@None exn).
  reflexivity.
Qed.

Lemma syscall_sandbox : syscall_error sandbox = None.
Proof. vm_compute. reflexivity. Qed.

(** What [realpath] lets through, the system calls take. *)
Lemma lstat_syscall p : lstat_error (path_parts p) = None -> syscall_error p = None.
Proof.
  unfold syscall_error, has_nul. induction (path_parts p) as [|c rest IH]; [done|].
  simpl. destruct (encodable c); simpl; [|discriminate].
  destruct (has_char 0 c); simpl; [discriminate|]. intros H. specialize (IH H).
  destruct (existsb _ rest); [discriminate|]. by destruct (existsb (has_char 0) rest).
Qed.

Lemma realpath_ok c p q : realpath c p = Ok q -> lstat_error (path_parts p) = None.
Proof. unfold realpath. by destruct (lstat_error (path_parts p)). Qed.

Lemma realpath_ok_syscall c p q : realpath c p = Ok q -> syscall_error p = None.
Proof. intros H. by apply lstat_syscall, (realpath_ok c _ q). Qed.

Lemma namei_add_log ev w p : namei (add_log ev w) p = namei w p.
Proof. reflexivity. Qed.

Lemma escapes_true w fn :
  escapes w fn = true ->
  exists p, realpath (getcwd w) (joinpath sandbox fn) = Ok p /\
            is_relative_to p (getcwd w ++ ["sandbox"]) = false.
Proof.
  unfold escapes. rewrite realpath_sandbox.
  destruct (realpath _ _) as [p|e]; [|discriminate].
  intros H. exists p. split; [reflexivity|]. by apply negb_true_iff.
Qed.

Lemma escapes_false w fn :
  escapes w fn = false ->
  (exists p, realpath (getcwd w) (joinpath sandbox fn) = Ok p /\
             is_relative_to p (getcwd w ++ ["sandbox"]) = true)
  \/ exists e, realpath (getcwd w) (joinpath sandbox fn) = Raised e.
Proof.
  unfold escapes. rewrite realpath_sandbox.
  destruct (realpath _ _) as [p|e]; [|right; by exists e].
  intros H. left. exists p. split; [reflexivity|]. by apply negb_false_iff.
Qed.

Lemma is_relative_to_spec p r : is_relative_to p r = true <-> exists k, p = r ++ k.
Proof.
  revert p. induction r as [|y r IH]; intros p; simpl.
  - split; [intros _; by exists p|reflexivity].
  - destruct p as [|x p].
    + split; [discriminate|]. intros [k Hk]. discriminate Hk.
    + rewrite andb_true_iff, bool_decide_eq_true, IH. split.
      * intros [-> [k ->]]. by exists k.
      * intros [k Hk]. injection Hk as -> ->. split; [reflexivity|by exists k].
Qed.

Lemma is_relative_to_app r k : is_relative_to (r ++ k) r = true.
Proof. apply is_relative_to_spec. by exists k. Qed.

Lemma passwd_path :
  joinpath sandbox "../../etc/passwd" = mkPath "" ["sandbox"; ".."; ".."; "etc"; "passwd"].
Proof. reflexivity. Qed.

Lemma passwd_escapes w : escapes w "../../etc/passwd" = true.
Proof.
  unfold escapes. rewrite realpath_sandbox, passwd_path.
  unfold realpath.
  change (lstat_error (path_parts _)) with (@None exn).
  change (is_absolute _) with false. cbn [path_parts normalize].
  repeat (destruct (decide _) as [?|?]; try done).
  simpl. rewrite removelast_last.
  apply negb_true_iff, not_true_is_false. intros [k Hk]%is_relative_to_spec.
  destruct (getcwd w) as [|c0 c'] using rev_ind.
  - simpl in Hk. by injection Hk.
  - rewrite removelast_last in Hk.
    assert (Hlen : length ((c' ++ ["etc"]) ++ ["passwd"]) = length (((c' ++ [c0]) ++ ["sandbox"]) ++ k))
      by (by rewrite Hk).
    rewrite !length_app in Hlen. simpl in Hlen.
    destruct k; [|simpl in Hlen; lia].
    rewrite app_nil_r in Hk. by apply app_inj_tail in Hk as [_ ?].
Qed.

Lemma after_check_log fn w :
  log (after_check fn w) = log w ++ [EvResolve (joinpath sandbox fn); EvResolve sandbox].
Proof. unfold after_check. simpl. by rewrite <- app_assoc. Qed.

(** One step of the walk. *)
Lemma walk_cons fs cur c rest :
  c <> ".." ->
  walk fs cur (c :: rest) =
    if Nat.ltb NAME_MAX (String.length (fs_bytes c)) then WError 36
    else
      match fs !! (cur ++ [fs_bytes c]) with
      | Some Dir => walk fs (cur ++ [fs_bytes c]) rest
      | Some (File s) =>
          match rest with
          | [] => WFound (cur ++ [fs_bytes c]) (File s)
          | _ :: _ => WError 20
          end
      | None =>
          match rest with
          | [] => WMissing (cur ++ [fs_bytes c])
          | _ :: _ => WError 2
          end
      end.
Proof. intros Hc. cbn [walk]. by destruct (decide (c = "..")). Qed.

Lemma walk_dotdot fs cur rest : walk fs cur (".." :: rest) = walk fs (removelast cur) rest.
Proof. cbn [walk]. by destruct (decide (".." = "..")). Qed.

Lemma walk_found_file fs cur comps q c :
  walk fs cur comps = WFound q (File c) -> fs !! q = Some (File c).
Proof.
  revert cur. induction comps as [|x rest IH]; intros cur; [discriminate|].
  destruct (decide (x = "..")) as [->|Hx]; [rewrite walk_dotdot; apply IH|].
  rewrite (walk_cons _ _ _ _ Hx).
  destruct (Nat.ltb _ _); [discriminate|].
  destruct (fs !! (cur ++ [fs_bytes x])) as [[s|]|] eqn:E.
  - destruct rest; [|discriminate]. by intros [= <- <-].
  - apply IH.
  - destruct rest; discriminate.
Qed.

Lemma walk_missing fs cur comps q :
  walk fs cur comps = WMissing q -> fs !! q = None.
Proof.
  revert cur. induction comps as [|x rest IH]; intros cur; [discriminate|].
  destruct (decide (x = "..")) as [->|Hx]; [rewrite walk_dotdot; apply IH|].
  rewrite (walk_cons _ _ _ _ Hx).
  destruct (Nat.ltb _ _); [discriminate|].
  destruct (fs !! (cur ++ [fs_bytes x])) as [[s|]|] eqn:E.
  - destruct rest; discriminate.
  - apply IH.
  - destruct rest; [|discriminate]. by intros [= <-].
Qed.

Lemma free_or_file_lookup fs cur comps q :
  free_or_file (walk fs cur comps) q -> fs !! q <> Some Dir.
Proof.
  intros [H|[c H]].
  - apply walk_missing in H. by rewrite H.
  - apply walk_found_file in H. by rewrite H.
Qed.

(** A write at [q] leaves a file there, whatever it holds: the walk to
    [q] finds it. *)
Lemma walk_after_write fs cur comps q c :
  free_or_file (walk fs cur comps) q ->
  walk (<[q := File c]> fs) cur comps = WFound q (File c).
Proof.
  revert cur. induction comps as [|x rest IH]; intros cur Hw.
  - by destruct Hw as [Hw|[? Hw]].
  - pose proof (free_or_file_lookup _ _ _ _ Hw) as Hq. revert Hw.
    destruct (decide (x = "..")) as [->|Hx];
      [rewrite !walk_dotdot; by apply IH|].
    rewrite !(walk_cons _ _ _ _ Hx).
    destruct (Nat.ltb _ _); [by intros [Hw|[? Hw]]|].
    destruct (decide (q = cur ++ [fs_bytes x])) as [->|Hne].
    + rewrite lookup_insert_eq.
      destruct (fs !! (cur ++ [fs_bytes x])) as [[s|]|] eqn:E; [| done |].
      * destruct rest; [done|]. by intros [Hw|[? Hw]].
      * destruct rest; [done|]. by intros [Hw|[? Hw]].
    + rewrite lookup_insert_ne by done.
      destruct (fs !! (cur ++ [fs_bytes x])) as [[s|]|] eqn:E.
      * destruct rest; intros [Hw|[? Hw]]; try done.
        by injection Hw as ? ?.
      * by apply IH.
      * destruct rest; intros [Hw|[? Hw]]; try done.
        by injection Hw as ?.
Qed.

Lemma walk_after_unlink fs cur comps q c :
  walk fs cur comps = WFound q (File c) ->
  walk (delete q fs) cur comps = WMissing q.
Proof.
  revert cur. induction comps as [|x rest IH]; intros cur Hw; [discriminate|].
  pose proof (walk_found_file _ _ _ _ _ Hw) as Hq. revert Hw.
  destruct (decide (x = "..")) as [->|Hx];
    [rewrite !walk_dotdot; by apply IH|].
  rewrite !(walk_cons _ _ _ _ Hx).
  destruct (Nat.ltb _ _); [discriminate|].
  destruct (decide (q = cur ++ [fs_bytes x])) as [->|Hne].
  - rewrite lookup_delete_eq. rewrite Hq.
    destruct rest; [done|discriminate].
  - rewrite lookup_delete_ne by done.
    destruct (fs !! (cur ++ [fs_bytes x])) as [[s|]|] eqn:E.
    + destruct rest; [|discriminate]. intros Hw. by injection Hw as ? ?.
    + by apply IH.
    + destruct rest; discriminate.
Qed.

Lemma removelast_fmap {A B} (f : A -> B) (l : list A) :
  removelast (map f l) = map f (removelast l).
Proof.
  induction l as [|x [|y l] IH]; [reflexivity|reflexivity|].
  change (f x :: removelast (map f (y :: l)) = f x :: map f (removelast (y :: l))).
  by rewrite IH.
Qed.

(** Where a walk ends is the canonical path, name by name in bytes. *)
Lemma walk_location fs comps : forall cur stack q,
  map fs_bytes stack = cur ->
  (walk fs cur comps = WMissing q \/ exists n, walk fs cur comps = WFound q n) ->
  q = map fs_bytes (normalize stack comps).
Proof.
  induction comps as [|x rest IH]; intros cur stack q Hcur.
  - intros [H|[n H]]; [discriminate|]. injection H as <- _. cbn [normalize]. by rewrite Hcur.
  - cbn [normalize]. destruct (decide (x = "..")) as [->|Hx].
    + rewrite walk_dotdot. apply IH. by rewrite <- Hcur, removelast_fmap.
    + rewrite (walk_cons _ _ _ _ Hx).
      destruct (Nat.ltb _ _); [by intros [H|[n H]]|].
      assert (Hpush : map fs_bytes (stack ++ [x]) = cur ++ [fs_bytes x])
        by (by rewrite map_app, Hcur).
      destruct (fs !! (cur ++ [fs_bytes x])) as [[s|]|] eqn:E.
      * destruct rest; intros [H|[n' H]]; try discriminate.
        injection H as <- _. cbn [normalize]. by rewrite <- Hpush.
      * by apply IH.
      * destruct rest; intros [H|[n' H]]; try discriminate.
        injection H as <-. cbn [normalize]. by rewrite <- Hpush.
Qed.

Lemma fs_bytes_getcwd w : map fs_bytes (getcwd w) = cwd w.
Proof.
  unfold getcwd. rewrite map_map. induction (cwd w) as [|b l IH]; [reflexivity|].
  simpl. by rewrite fs_bytes_fsdecode, IH.
Qed.

Lemma namei_walk w p r :
  namei w p = r -> r <> WError 36 ->
  walk (files w) (if is_absolute p then [] else cwd w) (path_parts p) = r.
Proof. unfold namei. destruct (Nat.leb _ _); [by intros <- ?|done]. Qed.

Lemma namei_realpath w p q :
  lstat_error (path_parts p) = None ->
  (namei w p = WMissing q \/ exists n, namei w p = WFound q n) ->
  exists pstr, realpath (getcwd w) p = Ok pstr /\ q = map fs_bytes pstr.
Proof.
  intros Hok H. unfold realpath. rewrite Hok. eexists. split; [reflexivity|].
  apply (walk_location (files w) _ (if is_absolute p then [] else cwd w)).
  - destruct (is_absolute p); [reflexivity|apply fs_bytes_getcwd].
  - destruct H as [H|[n H]]; [left|right; exists n]; by apply namei_walk.
Qed.

Lemma free_or_file_location w p q :
  lstat_error (path_parts p) = None -> free_or_file (namei w p) q ->
  exists pstr, realpath (getcwd w) p = Ok pstr /\ q = map fs_bytes pstr.
Proof.
  intros Hok [H|[c H]]; apply namei_realpath; try done; [by left|right; by exists (File c)].
Qed.

(** A path under the sandbox root as Python sees it lies under the
    sandbox root of the store. *)
Lemma inside_store w pstr :
  is_relative_to pstr (getcwd w ++ ["sandbox"]) = true ->
  is_relative_to (map fs_bytes pstr) (cwd w ++ ["sandbox"]) = true.
Proof.
  intros [k ->]%is_relative_to_spec. apply is_relative_to_spec. exists (map fs_bytes k).
  by rewrite !map_app, fs_bytes_getcwd.
Qed.

Lemma realpath_raises c p e :
  realpath c p = Raised e -> e = UnicodeEncodeError \/ e = ValueError.
Proof.
  unfold realpath. destruct (lstat_error (path_parts p)) as [e'|] eqn:E; [|discriminate].
  intros [= <-]. induction (path_parts p) as [|x rest IH]; [discriminate|].
  simpl in E. destruct (encodable x); simpl in E; [|injection E as <-; by left].
  destruct (has_char 0 x); [injection E as <-; by right|by apply IH].
Qed.

Lemma drop_prefix_Some d k r : drop_prefix d k = Some r <-> k = d ++ r.
Proof.
  revert k. induction d as [|x d IH]; intros k; simpl.
  - split; [by intros [= ->]|by intros ->].
  - destruct k as [|y k]; [split; discriminate|].
    destruct (decide (x = y)) as [->|Hne].
    + rewrite IH. split; [by intros ->|by intros [= ->]].
    + split; [discriminate|]. intros [= -> ?]. done.
Qed.

Lemma elem_of_children fs d name n :
  (name, n) ∈ children fs d <->
  exists b, fsdecode b = name /\ fs !! (d ++ [b]) = Some n.
Proof.
  unfold children. rewrite list_elem_of_omap. split.
  - intros ([k n'] & Hin & Hf). simpl in Hf.
    destruct (drop_prefix d k) as [[|x [|? ?]]|] eqn:E; try discriminate.
    injection Hf as <- ->. apply drop_prefix_Some in E as ->.
    exists x. split; [reflexivity|]. by apply elem_of_map_to_list in Hin.
  - intros (b & <- & H). exists (d ++ [b], n). split; [by apply elem_of_map_to_list|].
    simpl. by rewrite (proj2 (drop_prefix_Some d (d ++ [b]) [b]) eq_refl).
Qed.

Lemma split_go_nosep s cur :
  has_char 47 s = false ->
  split_go s cur = [string_of_list_ascii (rev cur ++ list_ascii_of_string s)].
Proof.
  revert cur. induction s as [|c s IH]; intros cur; simpl.
  - by rewrite app_nil_r.
  - intros [Hc Hs]%orb_false_iff. unfold is_sep. rewrite Hc, (IH _ Hs). simpl.
    by rewrite <- app_assoc.
Qed.

Lemma plain_name_parts fn :
  plain_name fn = true ->
  fn <> "" /\ fn <> "." /\ fn <> ".." /\
  has_char 47 fn = false /\ has_char 0 fn = false /\ utf8_valid fn = true.
Proof.
  unfold plain_name. rewrite !andb_true_iff, !negb_true_iff, !bool_decide_eq_false. tauto.
Qed.

Lemma plain_path fn : plain_name fn = true -> Path fn = mkPath "" [fn].
Proof.
  intros (Hne & Hdot & _ & Hsep & _)%plain_name_parts.
  unfold Path, parse_root, parse_parts, split_sep.
  rewrite (split_go_nosep _ _ Hsep). simpl. rewrite string_of_list_ascii_of_string.
  f_equal.
  - destruct fn as [|c s]; [done|]. simpl in *.
    apply orb_false_iff in Hsep as [Hc _]. unfold is_sep. by rewrite Hc.
  - by rewrite filter_cons_True, filter_nil.
Qed.

Lemma plain_joinpath fn :
  plain_name fn = true -> joinpath sandbox fn = mkPath "" ["sandbox"; fn].
Proof. intros H. unfold joinpath. by rewrite (plain_path _ H). Qed.

Lemma plain_not_dotdot fn : plain_name fn = true -> fn <> "..".
Proof. intros H. by apply plain_name_parts in H as (_ & _ & H & _). Qed.

Lemma plain_lstat fn :
  plain_name fn = true -> lstat_error (path_parts (joinpath sandbox fn)) = None.
Proof.
  intros H. rewrite (plain_joinpath _ H).
  apply plain_name_parts in H as (_ & _ & _ & _ & Hnul & Hu).
  cbn [path_parts lstat_error].
  change (encodable "sandbox") with true. change (has_char 0 "sandbox") with false.
  cbn [negb]. by rewrite (utf8_valid_encodable _ Hu), Hnul.
Qed.

Lemma namei_ext w1 w2 p :
  cwd w1 = cwd w2 -> files w1 = files w2 -> namei w1 p = namei w2 p.
Proof. unfold namei. by intros -> ->. Qed.

(** The walk to [sandbox / fn] for a plain name, once the sandbox
    directory is there. *)
Lemma plain_walk w fn :
  plain_name fn = true ->
  files w !! (cwd w ++ ["sandbox"]) = Some Dir ->
  walk (files w) (cwd w) ["sandbox"; fn] =
    if Nat.ltb NAME_MAX (String.length fn) then WError 36
    else
      match files w !! ((cwd w ++ ["sandbox"]) ++ [fn]) with
      | Some n => WFound ((cwd w ++ ["sandbox"]) ++ [fn]) n
      | None => WMissing ((cwd w ++ ["sandbox"]) ++ [fn])
      end.
Proof.
  intros Hplain Hdir.
  pose proof (plain_name_parts _ Hplain) as (_ & _ & Hdd & _ & _ & Hu).
  rewrite walk_cons by done. rewrite fs_bytes_sandbox.
  change (Nat.ltb NAME_MAX (String.length "sandbox")) with false. cbv iota.
  rewrite Hdir, (walk_cons _ _ _ _ Hdd), (utf8_valid_fs_bytes _ Hu).
  destruct (Nat.ltb _ _); [reflexivity|].
  by destruct (files w !! ((cwd w ++ ["sandbox"]) ++ [fn])) as [[c|]|].
Qed.

Lemma plain_location w fn q :
  plain_name fn = true ->
  files w !! (cwd w ++ ["sandbox"]) = Some Dir ->
  free_or_file (namei w (joinpath sandbox fn)) q ->
  q = (cwd w ++ ["sandbox"]) ++ [fn].
Proof.
  intros Hplain Hdir Hq.
  assert (Hw : free_or_file (walk (files w) (cwd w) ["sandbox"; fn]) q).
  { rewrite (plain_joinpath _ Hplain) in Hq.
    destruct Hq as [Hq|[c Hq]]; [left|right; exists c];
      by apply (namei_walk w (mkPath "" ["sandbox"; fn])). }
  rewrite (plain_walk _ _ Hplain Hdir) in Hw.
  destruct (Nat.ltb _ _); [by destruct Hw as [Hw|[c Hw]]|].
  destruct (files w !! ((cwd w ++ ["sandbox"]) ++ [fn])) as [[c|]|];
    destruct Hw as [Hw|[c' Hw]]; try done; by injection Hw.
Qed.

Lemma writable_inv w fn :
  writable w fn = true ->
  exists p q,
    realpath (getcwd w) (joinpath sandbox fn) = Ok p /\
    is_relative_to p (getcwd w ++ ["sandbox"]) = true /\
    free_or_file (namei w (joinpath sandbox fn)) q.
Proof.
  unfold writable. rewrite !andb_true_iff, !negb_true_iff, bool_decide_eq_true.
  intros [[He Hok] Hw].
  apply escapes_false in He as [(p & Hp & Hrel)|[e Hp]];
    [|unfold realpath in Hp; by rewrite Hok in Hp].
  destruct (namei w (joinpath sandbox fn)) as [q [c|]|q|n] eqn:E; try done.
  - exists p, q. repeat split; try done. right. by exists c.
  - exists p, q. repeat split; try done. by left.
Qed.

(** ** The file tools *)

Lemma getcwd_add_log ev w : getcwd (add_log ev w) = getcwd w.
Proof. reflexivity. Qed.

Lemma namei_after_write w w1 p q c :
  free_or_file (namei w p) q ->
  cwd w1 = cwd w -> files w1 = <[q := File c]> (files w) ->
  namei w1 p = WFound q (File c).
Proof.
  unfold namei. intros Hq -> ->.
  destruct (Nat.leb PATH_MAX (path_length p)); [by destruct Hq as [Hq|[? Hq]]|].
  by apply walk_after_write.
Qed.

Lemma namei_after_unlink w w1 p q c :
  namei w p = WFound q (File c) ->
  cwd w1 = cwd w -> files w1 = delete q (files w) ->
  namei w1 p = WMissing q.
Proof.
  unfold namei. intros Hq -> ->.
  destruct (Nat.leb PATH_MAX (path_length p)); [discriminate|].
  by apply (walk_after_unlink _ _ _ _ c).
Qed.

Lemma namei_sandbox w :
  files w !! (cwd w ++ ["sandbox"]) = Some Dir ->
  namei w sandbox = WFound (cwd w ++ ["sandbox"]) Dir.
Proof.
  intros Hdir. unfold namei.
  change (Nat.leb PATH_MAX (path_length sandbox)) with false.
  change (is_absolute sandbox) with false.
  change (path_parts sandbox) with ["sandbox"]. cbv iota.
  rewrite walk_cons by done. rewrite fs_bytes_sandbox.
  change (Nat.ltb NAME_MAX (String.length "sandbox")) with false. cbv iota.
  by rewrite Hdir.
Qed.

Section FileTools.

Variable str_exn : exn -> string.

Ltac start_handler Hp Hrel :=
  unfold try_except, bind, after_check;
  rewrite resolve_run, Hp, resolve_run, getcwd_add_log, realpath_sandbox, Hrel.

Lemma read_denied w fn :
  escapes w fn = true ->
  tool_file_read_handler str_exn fn w = (Ok denied, after_check fn w).
Proof.
  intros (p & Hp & Hrel)%escapes_true.
  unfold tool_file_read_handler. start_handler Hp Hrel. reflexivity.
Qed.

Lemma write_denied w fn content append :
  escapes w fn = true ->
  tool_file_write_handler str_exn fn content append w = (Ok denied, after_check fn w).
Proof.
  intros (p & Hp & Hrel)%escapes_true.
  unfold tool_file_write_handler. start_handler Hp Hrel. reflexivity.
Qed.

Lemma delete_denied w fn :
  escapes w fn = true ->
  tool_file_delete_handler str_exn fn w = (Ok denied, after_check fn w).
Proof.
  intros (p & Hp & Hrel)%escapes_true.
  unfold tool_file_delete_handler. start_handler Hp Hrel. reflexivity.
Qed.

Lemma read_run_inside w fn p :
  realpath (getcwd w) (joinpath sandbox fn) = Ok p ->
  is_relative_to p (getcwd w ++ ["sandbox"]) = true ->
  tool_file_read_handler str_exn fn w =
    let w1 := add_log (EvExists (joinpath sandbox fn)) (after_check fn w) in
    let w2 := add_log (EvOpen (joinpath sandbox fn) "r") w1 in
    match namei w (joinpath sandbox fn) with
    | WFound _ (File bytes) =>
        (Ok (match decode_text bytes with
             | Ok content => content_result content
             | Raised e => Error (-32002) ("Error reading file: " +:+ str_exn e)
             end), w2)
    | WFound _ Dir =>
        (Ok (Error (-32002) ("Error reading file: " +:+ str_exn (OSError 21))), w2)
    | WMissing _ => (Ok (not_found fn), w1)
    | WError n =>
        (Ok (if ignored_errno n then not_found fn
             else Error (-32002) ("Error reading file: " +:+ str_exn (OSError n))), w1)
    end.
Proof.
  intros Hp Hrel. pose proof (realpath_ok_syscall _ _ _ Hp) as Hsys.
  unfold tool_file_read_handler, after_check.
  remember (joinpath sandbox fn) as fp eqn:Hfp.
  start_handler Hp Hrel.
  unfold path_exists, read_text, bind, emit, gets, ret, raise, lift. rewrite Hsys.
  cbn -[namei decode_text ignored_errno]. rewrite !namei_add_log.
  destruct (namei w fp) as [q [c|]|q|n] eqn:E; cbn -[namei decode_text ignored_errno];
    rewrite ?namei_add_log, ?E; try reflexivity.
  - by destruct (decode_text c).
  - by destruct (ignored_errno n).
Qed.

Lemma delete_run_inside w fn p :
  realpath (getcwd w) (joinpath sandbox fn) = Ok p ->
  is_relative_to p (getcwd w ++ ["sandbox"]) = true ->
  tool_file_delete_handler str_exn fn w =
    let w1 := add_log (EvExists (joinpath sandbox fn)) (after_check fn w) in
    let w2 := add_log (EvUnlink (joinpath sandbox fn)) w1 in
    match namei w (joinpath sandbox fn) with
    | WFound q (File c) => (Ok (deleted_result fn), set_files (delete q (files w)) w2)
    | WFound _ Dir =>
        (Ok (Error (-32002) ("Error deleting file: " +:+ str_exn (OSError 21))), w2)
    | WMissing _ => (Ok (not_found fn), w1)
    | WError n =>
        (Ok (if ignored_errno n then not_found fn
             else Error (-32002) ("Error deleting file: " +:+ str_exn (OSError n))), w1)
    end.
Proof.
  intros Hp Hrel. pose proof (realpath_ok_syscall _ _ _ Hp) as Hsys.
  unfold tool_file_delete_handler, after_check.
  remember (joinpath sandbox fn) as fp eqn:Hfp.
  start_handler Hp Hrel.
  unfold path_exists, unlink, bind, emit, gets, ret, raise. rewrite Hsys.
  cbn -[namei ignored_errno]. rewrite !namei_add_log.
  destruct (namei w fp) as [q [c|]|q|n] eqn:E; cbn -[namei ignored_errno];
    rewrite ?namei_add_log, ?E; try reflexivity.
  by destruct (ignored_errno n).
Qed.

Lemma write_run_inside w fn content append p :
  realpath (getcwd w) (joinpath sandbox fn) = Ok p ->
  is_relative_to p (getcwd w ++ ["sandbox"]) = true ->
  tool_file_write_handler str_exn fn content append w =
    let w1 := add_log (EvOpen (joinpath sandbox fn) (if append then "a" else "w"))
                      (after_check fn w) in
    let failed e := Ok (Error (-32002) ("Error writing file: " +:+ str_exn e)) in
    match namei w (joinpath sandbox fn) with
    | WFound q (File old) =>
        let kept := if append then old else "" in
        if utf8_valid content
        then (Ok (written_result fn append),
              set_files (<[q := File (kept +:+ content)]> (files w)) w1)
        else (failed UnicodeEncodeError, set_files (<[q := File kept]> (files w)) w1)
    | WMissing q =>
        if utf8_valid content
        then (Ok (written_result fn append),
              set_files (<[q := File content]> (files w)) w1)
        else (failed UnicodeEncodeError, set_files (<[q := File ""]> (files w)) w1)
    | WFound _ Dir => (failed (OSError 21), w1)
    | WError n => (failed (OSError n), w1)
    end.
Proof.
  intros Hp Hrel. pose proof (realpath_ok_syscall _ _ _ Hp) as Hsys.
  unfold tool_file_write_handler, after_check.
  remember (joinpath sandbox fn) as fp eqn:Hfp.
  start_handler Hp Hrel.
  unfold write_text, bind, emit, gets, ret, raise. rewrite Hsys.
  cbn -[namei utf8_valid]. rewrite !namei_add_log.
  destruct (namei w fp) as [q [c|]|q|n] eqn:E; destruct append;
    cbn -[utf8_valid]; try reflexivity; by destruct (utf8_valid content).
Qed.

Lemma list_run w :
  tool_file_list_handler str_exn w =
    let w1 := add_log (EvIterdir sandbox) w in
    match namei w sandbox with
    | WFound q Dir =>
        (Ok (files_result
               (map (fun f => JString (fst f))
                    (List.filter (fun f => is_file (snd f)) (children (files w) q)))),
         w1)
    | WFound _ (File _) =>
        (Ok (Error (-32002) ("Error listing files: " +:+ str_exn (OSError 20))), w1)
    | WMissing _ =>
        (Ok (Error (-32002) ("Error listing files: " +:+ str_exn (OSError 2))), w1)
    | WError n =>
        (Ok (Error (-32002) ("Error listing files: " +:+ str_exn (OSError n))), w1)
    end.
Proof.
  unfold tool_file_list_handler, try_except, bind, iterdir, bind, emit, gets, ret, raise.
  rewrite syscall_sandbox. cbn -[namei children sandbox].
  rewrite !namei_add_log.
  destruct (namei w sandbox) as [q [c|]|q|n] eqn:E; reflexivity.
Qed.

Lemma read_run_refused w fn e :
  realpath (getcwd w) (joinpath sandbox fn) = Raised e ->
  tool_file_read_handler str_exn fn w
    = (Ok (Error (-32002) ("Error reading file: " +:+ str_exn e)),
       add_log (EvResolve (joinpath sandbox fn)) w).
Proof.
  intros Hp. unfold tool_file_read_handler, try_except, bind. by rewrite resolve_run, Hp.
Qed.

Lemma write_run_refused w fn content append e :
  realpath (getcwd w) (joinpath sandbox fn) = Raised e ->
  tool_file_write_handler str_exn fn content append w
    = (Ok (Error (-32002) ("Error writing file: " +:+ str_exn e)),
       add_log (EvResolve (joinpath sandbox fn)) w).
Proof.
  intros Hp. unfold tool_file_write_handler, try_except, bind. by rewrite resolve_run, Hp.
Qed.

Lemma delete_run_refused w fn e :
  realpath (getcwd w) (joinpath sandbox fn) = Raised e ->
  tool_file_delete_handler str_exn fn w
    = (Ok (Error (-32002) ("Error deleting file: " +:+ str_exn e)),
       add_log (EvResolve (joinpath sandbox fn)) w).
Proof.
  intros Hp. unfold tool_file_delete_handler, try_except, bind. by rewrite resolve_run, Hp.
Qed.

Lemma read_not_denied w fn :
  escapes w fn = false -> is_denied (fst (tool_file_read_handler str_exn fn w)) = false.
Proof.
  intros [(p & Hp & Hrel)|[e Hp]]%escapes_false.
  - rewrite (read_run_inside w fn p Hp Hrel). cbv zeta.
    destruct (namei w (joinpath sandbox fn)) as [q [c|]|q|n]; try done.
    + simpl. by destruct (decode_text c).
    + simpl. by destruct (ignored_errno n).
  - by rewrite (read_run_refused _ _ _ Hp).
Qed.

Lemma delete_not_denied w fn :
  escapes w fn = false -> is_denied (fst (tool_file_delete_handler str_exn fn w)) = false.
Proof.
  intros [(p & Hp & Hrel)|[e Hp]]%escapes_false.
  - rewrite (delete_run_inside w fn p Hp Hrel). cbv zeta.
    destruct (namei w (joinpath sandbox fn)) as [q [c|]|q|n]; try done.
    simpl. by destruct (ignored_errno n).
  - by rewrite (delete_run_refused _ _ _ Hp).
Qed.

Lemma inside_ext w1 w2 fn : cwd w1 = cwd w2 -> inside w1 fn -> inside w2 fn.
Proof. unfold inside, getcwd. by intros ->. Qed.

Lemma write_inside w fn content append q :
  inside w fn ->
  free_or_file (namei w (joinpath sandbox fn)) q ->
  utf8_valid content = true ->
  exists w1,
    tool_file_write_handler str_exn fn content append w
      = (Ok (written_result fn append), w1) /\
    cwd w1 = cwd w /\
    files w1 = <[q := File (if append
                            then old_content (namei w (joinpath sandbox fn)) +:+ content
                            else content)]> (files w) /\
    namei w1 (joinpath sandbox fn)
      = WFound q (File (if append
                        then old_content (namei w (joinpath sandbox fn)) +:+ content
                        else content)).
Proof.
  intros (p & Hp & Hrel) Hq Hu.
  rewrite (write_run_inside w fn content append p Hp Hrel). cbv zeta. rewrite Hu.
  assert (Hgo : forall c w1,
            cwd w1 = cwd w -> files w1 = <[q := File c]> (files w) ->
            namei w1 (joinpath sandbox fn) = WFound q (File c))
    by (intros c w1; by apply namei_after_write).
  destruct Hq as [Hq|[old Hq]]; rewrite Hq; simpl old_content.
  - eexists. split; [reflexivity|]. split; [reflexivity|].
    assert ((if append then "" +:+ content else content) = content) as -> by (by destruct append).
    split; [reflexivity|]. by apply Hgo.
  - eexists. split; [reflexivity|]. split; [reflexivity|].
    assert ((if append then old else "") +:+ content
            = (if append then old +:+ content else content)) as -> by (by destruct append).
    split; [reflexivity|]. by apply Hgo.
Qed.

Lemma read_inside w fn q bytes :
  inside w fn ->
  namei w (joinpath sandbox fn) = WFound q (File bytes) ->
  utf8_valid bytes = true ->
  exists w1,
    tool_file_read_handler str_exn fn w
      = (Ok (content_result (universal_newlines bytes)), w1) /\
    cwd w1 = cwd w /\ files w1 = files w.
Proof.
  intros (p & Hp & Hrel) Hq Hu.
  rewrite (read_run_inside w fn p Hp Hrel), Hq. cbv zeta.
  rewrite (decode_text_valid _ Hu). by eexists.
Qed.

Lemma delete_inside w fn q c :
  inside w fn ->
  namei w (joinpath sandbox fn) = WFound q (File c) ->
  exists w1,
    tool_file_delete_handler str_exn fn w = (Ok (deleted_result fn), w1) /\
    cwd w1 = cwd w /\ files w1 = delete q (files w).
Proof.
  intros (p & Hp & Hrel) Hq.
  rewrite (delete_run_inside w fn p Hp Hrel), Hq. by eexists.
Qed.

Lemma list_sandbox w :
  files w !! (cwd w ++ ["sandbox"]) = Some Dir ->
  tool_file_list_handler str_exn w =
    (Ok (files_result
           (map (fun f => JString (fst f))
                (List.filter (fun f => is_file (snd f))
                             (children (files w) (cwd w ++ ["sandbox"]))))),
     add_log (EvIterdir sandbox) w).
Proof.
  intros Hdir. rewrite list_run. cbv zeta. by rewrite (namei_sandbox _ Hdir).
Qed.

(** A plain name is listed exactly when the store has a regular file
    under it in the sandbox directory. *)
Lemma elem_of_listed fs d name :
  JString name ∈ map (fun f : string * node => JString (fst f))
                     (List.filter (fun f => is_file (snd f)) (children fs d))
  <-> exists b c, fsdecode b = name /\ fs !! (d ++ [b]) = Some (File c).
Proof.
  split.
  - intros ([name' n] & Hname & Hmem)%list_elem_of_fmap.
    simpl in Hname. injection Hname as <-.
    apply list_elem_of_In, filter_In in Hmem as [Hmem Hfile].
    apply list_elem_of_In, elem_of_children in Hmem as (b & Hb & Hmem).
    destruct n as [c|]; [|discriminate]. by exists b, c.
  - intros (b & c & Hb & H). apply list_elem_of_fmap. exists (name, File c).
    split; [reflexivity|]. apply list_elem_of_In, filter_In. split; [|reflexivity].
    apply list_elem_of_In, elem_of_children. by exists b.
Qed.

Lemma elem_of_listed_plain fs d name :
  utf8_valid name = true ->
  JString name ∈ map (fun f : string * node => JString (fst f))
                     (List.filter (fun f => is_file (snd f)) (children fs d))
  <-> exists c, fs !! (d ++ [name]) = Some (File c).
Proof.
  intros Hu. rewrite elem_of_listed. split.
  - intros (b & c & Hb & H). exists c.
    assert (b = name) as <-; [|exact H].
    rewrite <- Hb in Hu. rewrite <- Hb. symmetry. by apply fsdecode_utf8.
  - intros (c & H). exists name, c. split; [by apply utf8_valid_fsdecode|exact H].
Qed.

(** C1 (as amended): a filename whose canonical path lies outside the
    canonical sandbox root, as that of ["../../etc/passwd"] does in every
    working directory, is refused by tool/file-read, tool/file-write and
    tool/file-delete with the denied error (-32003); the store is left as
    it was and the only calls made are the two canonicalisations of the
    containment check: no existence check, no open, no unlink. *)
Theorem escaping_filename_denied (w : world) (filename content : string) (append : bool) :
  filename = "../../etc/passwd" \/ escapes w filename = true ->
  tool_file_read_handler str_exn filename w = (Ok denied, after_check filename w) /\
  tool_file_write_handler str_exn filename content append w
    = (Ok denied, after_check filename w) /\
  tool_file_delete_handler str_exn filename w = (Ok denied, after_check filename w) /\
  files (after_check filename w) = files w /\
  log (after_check filename w)
    = log w ++ [EvResolve (joinpath sandbox filename); EvResolve sandbox].
Proof.
  intros H.
  assert (He : escapes w filename = true) by (destruct H as [->|H]; [apply passwd_escapes|exact H]).
  split; [by apply read_denied|].
  split; [by apply write_denied|].
  split; [by apply delete_denied|].
  split; [reflexivity|apply after_check_log].
Qed.

(** C2: when the resolved path of [sandbox / filename] falls outside the
    resolved sandbox root, tool/file-read and tool/file-delete answer
    the denied error (-32003) after the two canonicalisations and before
    any existence check or I/O, whatever the store holds at that path
    (so never not-found, -32004); and the decision follows the resolved
    path: a filename that does not escape is never answered with the
    denied code. *)
Theorem denied_on_resolved_path (w : world) (filename : string) :
  (escapes w filename = true ->
     tool_file_read_handler str_exn filename w = (Ok denied, after_check filename w) /\
     tool_file_delete_handler str_exn filename w = (Ok denied, after_check filename w) /\
     log (after_check filename w)
       = log w ++ [EvResolve (joinpath sandbox filename); EvResolve sandbox]) /\
  (escapes w filename = false ->
     is_denied (fst (tool_file_read_handler str_exn filename w)) = false /\
     is_denied (fst (tool_file_delete_handler str_exn filename w)) = false).
Proof.
  split.
  - intros He. split; [by apply read_denied|]. split; [by apply delete_denied|].
    apply after_check_log.
  - intros He. split; [by apply read_not_denied|by apply delete_not_denied].
Qed.

(** C4 (as amended): in a server whose sandbox directory exists, for a
    filename the sandbox can hold (it resolves inside the sandbox and
    names a regular file or a free name of an existing directory;
    ["a.txt"] is one) and a content that is encodable text,
    tool/file-write of [content] succeeds; tool/file-read then returns
    [content] with every carriage return and every carriage return plus
    line feed turned into one line feed, which is [content] itself when
    it has no carriage return (["hi"] has none); tool/file-delete then
    succeeds, and tool/file-list then succeeds with a list of names that
    does not contain a plain [filename]. *)
Theorem file_roundtrip (w : world) (filename content : string) :
  files w !! (cwd w ++ ["sandbox"]) = Some Dir ->
  writable w filename = true ->
  utf8_valid content = true ->
  exists w1 w2 w3 w4 names,
    tool_file_write_handler str_exn filename content false w
      = (Ok (written_result filename false), w1) /\
    tool_file_read_handler str_exn filename w1
      = (Ok (content_result (universal_newlines content)), w2) /\
    (has_char 13 content = false ->
       tool_file_read_handler str_exn filename w1 = (Ok (content_result content), w2)) /\
    tool_file_delete_handler str_exn filename w2 = (Ok (deleted_result filename), w3) /\
    tool_file_list_handler str_exn w3 = (Ok (files_result names), w4) /\
    (plain_name filename = true -> JString filename ∉ names).
Proof.
  intros Hdir (p & q & Hp & Hrel & Hq)%writable_inv Hu.
  assert (Hin : inside w filename) by (by exists p).
  destruct (write_inside w filename content false q Hin Hq Hu)
    as (w1 & Hwrite & Hcwd1 & Hfiles1 & Hnamei1).
  assert (Hin1 : inside w1 filename) by (by apply (inside_ext w)).
  destruct (read_inside w1 filename q content Hin1 Hnamei1 Hu)
    as (w2 & Hread & Hcwd2 & Hfiles2).
  assert (Hin2 : inside w2 filename) by (by apply (inside_ext w1)).
  assert (Hnamei2 : namei w2 (joinpath sandbox filename) = WFound q (File content))
    by (by rewrite (namei_ext w2 w1)).
  destruct (delete_inside w2 filename q content Hin2 Hnamei2)
    as (w3 & Hdelete & Hcwd3 & Hfiles3).
  assert (Hne : q <> cwd w ++ ["sandbox"]).
  { intros ->. destruct Hq as [Hq|[c Hq]].
    - apply namei_walk, walk_missing in Hq; [|done]. by rewrite Hdir in Hq.
    - apply namei_walk, walk_found_file in Hq; [|done]. by rewrite Hdir in Hq. }
  assert (Hdir3 : files w3 !! (cwd w3 ++ ["sandbox"]) = Some Dir).
  { rewrite Hfiles3, Hfiles2, Hfiles1, Hcwd3, Hcwd2, Hcwd1.
    rewrite lookup_delete_ne, lookup_insert_ne by done. exact Hdir. }
  exists w1, w2, w3. eexists. eexists.
  split; [exact Hwrite|]. split; [exact Hread|].
  split; [intros Hcr; by rewrite Hread, (universal_newlines_plain _ Hcr)|].
  split; [exact Hdelete|].
  split; [by apply list_sandbox|].
  intros Hplain Hmem.
  pose proof (plain_location w filename q Hplain Hdir Hq) as ->.
  apply plain_name_parts in Hplain as (_ & _ & _ & _ & _ & Hvalid).
  apply (elem_of_listed_plain _ _ _ Hvalid) in Hmem as [c Hmem].
  rewrite Hfiles3, Hcwd3, Hcwd2, Hcwd1, lookup_delete_eq in Hmem. discriminate.
Qed.

(** C5 (as amended): for a filename the sandbox can hold and encodable
    texts [a] and [b], writing [a] and then writing [b] with
    [append = true], followed by a read, yields [a ++ b] with the line
    ends of text mode (every carriage return, alone or before a line
    feed, read as one line feed), so [a ++ b] itself when it has no
    carriage return; when the second write has [append = false], the
    read yields [b] in the same way; every write succeeds, and the
    message of an appending write differs from that of an overwriting
    one. *)
Theorem append_semantics (w : world) (filename a b : string) :
  writable w filename = true ->
  utf8_valid a = true -> utf8_valid b = true ->
  exists w1,
    tool_file_write_handler str_exn filename a false w
      = (Ok (written_result filename false), w1) /\
    (exists w2 w3,
       tool_file_write_handler str_exn filename b true w1
         = (Ok (written_result filename true), w2) /\
       tool_file_read_handler str_exn filename w2
         = (Ok (content_result (universal_newlines (a +:+ b))), w3) /\
       (has_char 13 a = false -> has_char 13 b = false ->
          tool_file_read_handler str_exn filename w2
            = (Ok (content_result (a +:+ b)), w3))) /\
    (exists w2 w3,
       tool_file_write_handler str_exn filename b false w1
         = (Ok (written_result filename false), w2) /\
       tool_file_read_handler str_exn filename w2
         = (Ok (content_result (universal_newlines b)), w3) /\
       (has_char 13 b = false ->
          tool_file_read_handler str_exn filename w2 = (Ok (content_result b), w3))) /\
    written_result filename true <> written_result filename false.
Proof.
  intros (p & q & Hp & Hrel & Hq)%writable_inv Ha Hb.
  assert (Hin : inside w filename) by (by exists p).
  destruct (write_inside w filename a false q Hin Hq Ha)
    as (w1 & Hwrite & Hcwd1 & Hfiles1 & Hnamei1).
  assert (Hin1 : inside w1 filename) by (by apply (inside_ext w)).
  assert (Hq1 : free_or_file (namei w1 (joinpath sandbox filename)) q)
    by (right; by exists a).
  exists w1. split; [exact Hwrite|]. split; [|split].
  - destruct (write_inside w1 filename b true q Hin1 Hq1 Hb)
      as (w2 & Hwrite2 & Hcwd2 & Hfiles2 & Hnamei2).
    rewrite Hnamei1 in Hnamei2. simpl in Hnamei2.
    assert (Hin2 : inside w2 filename) by (by apply (inside_ext w1)).
    destruct (read_inside w2 filename q _ Hin2 Hnamei2 (utf8_valid_app _ _ Ha Hb))
      as (w3 & Hread & _).
    exists w2, w3. split; [exact Hwrite2|]. split; [exact Hread|].
    intros Hca Hcb. rewrite Hread. rewrite universal_newlines_plain; [reflexivity|].
    by rewrite has_char_app, Hca, Hcb.
  - destruct (write_inside w1 filename b false q Hin1 Hq1 Hb)
      as (w2 & Hwrite2 & Hcwd2 & Hfiles2 & Hnamei2).
    assert (Hin2 : inside w2 filename) by (by apply (inside_ext w1)).
    destruct (read_inside w2 filename q _ Hin2 Hnamei2 Hb) as (w3 & Hread & _).
    exists w2, w3. split; [exact Hwrite2|]. split; [exact Hread|].
    intros Hcb. by rewrite Hread, universal_newlines_plain.
  - unfold written_result. intros H. cbv in H. discriminate H.
Qed.
End FileTools.

(** C1 (as stated) fails: a filename with a ["../"] sequence, and an
    absolute one, that resolve inside the sandbox are served, not
    denied. *)
Lemma dotdot_and_absolute_not_denied :
  is_substring "../" "../sandbox/a.txt" = true /\
  tool_file_read_handler sample_str_exn "../sandbox/a.txt" sandbox_with_a
    <> (Ok denied, after_check "../sandbox/a.txt" sandbox_with_a) /\
  fst (tool_file_read_handler sample_str_exn "../sandbox/a.txt" sandbox_with_a)
    = Ok (content_result "hi") /\
  is_absolute (Path "/srv/app/sandbox/a.txt") = true /\
  fst (tool_file_read_handler sample_str_exn "/srv/app/sandbox/a.txt" sandbox_with_a)
    = Ok (content_result "hi").
Proof.
  split; [reflexivity|]. split; [|repeat split; vm_compute; reflexivity].
  intros H. apply (f_equal fst) in H. vm_compute in H. discriminate H.
Qed.

Lemma escaping_filename_denied_witness :
  escapes empty_sandbox "../outside.txt" = true /\
  tool_file_read_handler sample_str_exn "../outside.txt" empty_sandbox
    = (Ok denied, after_check "../outside.txt" empty_sandbox) /\
  tool_file_read_handler sample_str_exn "../../etc/passwd" sandbox_with_a
    = (Ok denied, after_check "../../etc/passwd" sandbox_with_a).
Proof.
  split; [vm_compute; reflexivity|]. split.
  - apply (escaping_filename_denied sample_str_exn empty_sandbox "../outside.txt" "" false).
    right. vm_compute. reflexivity.
  - apply (escaping_filename_denied sample_str_exn sandbox_with_a "../../etc/passwd" "" false).
    left. reflexivity.
Defined.

Lemma denied_on_resolved_path_witness :
  escapes empty_sandbox "/etc/passwd" = true /\
  tool_file_delete_handler sample_str_exn "/etc/passwd" empty_sandbox
    = (Ok denied, after_check "/etc/passwd" empty_sandbox) /\
  escapes empty_sandbox "sub/../a.txt" = false /\
  is_denied (fst (tool_file_read_handler sample_str_exn "sub/../a.txt" empty_sandbox)) = false.
Proof.
  assert (H1 : escapes empty_sandbox "/etc/passwd" = true) by (vm_compute; reflexivity).
  assert (H2 : escapes empty_sandbox "sub/../a.txt" = false) by (vm_compute; reflexivity).
  split; [exact H1|]. split.
  - apply (proj1 (denied_on_resolved_path sample_str_exn empty_sandbox "/etc/passwd") H1).
  - split; [exact H2|].
    apply (proj2 (denied_on_resolved_path sample_str_exn empty_sandbox "sub/../a.txt") H2).
Defined.

Lemma file_roundtrip_witness :
  files empty_sandbox !! (cwd empty_sandbox ++ ["sandbox"]) = Some Dir /\
  writable empty_sandbox "a.txt" = true /\
  utf8_valid "hi" = true /\
  has_char 13 "hi" = false /\
  plain_name "a.txt" = true /\
  exists w1 w2 w3 w4 names,
    tool_file_write_handler sample_str_exn "a.txt" "hi" false empty_sandbox
      = (Ok (written_result "a.txt" false), w1) /\
    tool_file_read_handler sample_str_exn "a.txt" w1
      = (Ok (content_result (universal_newlines "hi")), w2) /\
    (has_char 13 "hi" = false ->
       tool_file_read_handler sample_str_exn "a.txt" w1 = (Ok (content_result "hi"), w2)) /\
    tool_file_delete_handler sample_str_exn "a.txt" w2 = (Ok (deleted_result "a.txt"), w3) /\
    tool_file_list_handler sample_str_exn w3 = (Ok (files_result names), w4) /\
    (plain_name "a.txt" = true -> JString "a.txt" ∉ names).
Proof.
  assert (H1 : files empty_sandbox !! (cwd empty_sandbox ++ ["sandbox"]) = Some Dir)
    by (vm_compute; reflexivity).
  assert (H2 : writable empty_sandbox "a.txt" = true) by (vm_compute; reflexivity).
  assert (H3 : utf8_valid "hi" = true) by (vm_compute; reflexivity).
  split; [exact H1|]. split; [exact H2|]. split; [exact H3|].
  split; [vm_compute; reflexivity|]. split; [vm_compute; reflexivity|].
  exact (file_roundtrip sample_str_exn empty_sandbox "a.txt" "hi" H1 H2 H3).
Defined.

(** C4 (as stated) fails: ["sub/a.txt"] and a name of 256 bytes lie
    inside the sandbox, yet the write is answered with the I/O error
    (no directory [sub]; name too long); and a content with a carriage
    return is read back with a line feed in its place. *)
Lemma roundtrip_not_for_every_name :
  inside empty_sandbox "sub/a.txt" /\
  fst (tool_file_write_handler sample_str_exn "sub/a.txt" "hi" false empty_sandbox)
    = Ok (Error (-32002) "Error writing file: [Errno 2]") /\
  inside empty_sandbox long_name /\
  fst (tool_file_write_handler sample_str_exn long_name "hi" false empty_sandbox)
    = Ok (Error (-32002) "Error writing file: [Errno 36]") /\
  (let w1 := snd (tool_file_write_handler sample_str_exn "a.txt"
                    ("a" +:+ carriage_return +:+ "b") false empty_sandbox) in
   fst (tool_file_read_handler sample_str_exn "a.txt" w1)
     = Ok (content_result ("a" +:+ line_feed +:+ "b"))) /\
  "a" +:+ line_feed +:+ "b" <> "a" +:+ carriage_return +:+ "b".
Proof.
  split; [eexists; split; vm_compute; reflexivity|].
  split; [vm_compute; reflexivity|].
  split; [eexists; split; vm_compute; reflexivity|].
  split; [vm_compute; reflexivity|].
  split; [vm_compute; reflexivity|].
  intros H. vm_compute in H. discriminate H.
Qed.

Lemma append_semantics_witness :
  writable empty_sandbox "a.txt" = true /\
  utf8_valid "a" = true /\ utf8_valid "b" = true /\
  has_char 13 "a" = false /\ has_char 13 "b" = false /\
  exists w1,
    tool_file_write_handler sample_str_exn "a.txt" "a" false empty_sandbox
      = (Ok (written_result "a.txt" false), w1) /\
    (exists w2 w3,
       tool_file_write_handler sample_str_exn "a.txt" "b" true w1
         = (Ok (written_result "a.txt" true), w2) /\
       tool_file_read_handler sample_str_exn "a.txt" w2
         = (Ok (content_result (universal_newlines ("a" +:+ "b"))), w3) /\
       (has_char 13 "a" = false -> has_char 13 "b" = false ->
          tool_file_read_handler sample_str_exn "a.txt" w2
            = (Ok (content_result ("a" +:+ "b")), w3))) /\
    (exists w2 w3,
       tool_file_write_handler sample_str_exn "a.txt" "b" false w1
         = (Ok (written_result "a.txt" false), w2) /\
       tool_file_read_handler sample_str_exn "a.txt" w2
         = (Ok (content_result (universal_newlines "b")), w3) /\
       (has_char 13 "b" = false ->
          tool_file_read_handler sample_str_exn "a.txt" w2
            = (Ok (content_result "b"), w3))) /\
    written_result "a.txt" true <> written_result "a.txt" false.
Proof.
  assert (H : writable empty_sandbox "a.txt" = true) by (vm_compute; reflexivity).
  assert (Ha : utf8_valid "a" = true) by (vm_compute; reflexivity).
  assert (Hb : utf8_valid "b" = true) by (vm_compute; reflexivity).
  split; [exact H|]. split; [exact Ha|]. split; [exact Hb|].
  split; [vm_compute; reflexivity|]. split; [vm_compute; reflexivity|].
  exact (append_semantics sample_str_exn empty_sandbox "a.txt" "a" "b" H Ha Hb).
Defined.

(** C5 (as stated) fails: for the in-sandbox filename ["sub/a.txt"] the
    first write is answered with the I/O error; and a carriage return
    followed by an appended line feed is read back as one line feed. *)
Lemma append_not_for_every_name :
  inside empty_sandbox "sub/a.txt" /\
  fst (tool_file_write_handler sample_str_exn "sub/a.txt" "a" false empty_sandbox)
    = Ok (Error (-32002) "Error writing file: [Errno 2]") /\
  (let w1 := snd (tool_file_write_handler sample_str_exn "a.txt"
                    carriage_return false empty_sandbox) in
   let w2 := snd (tool_file_write_handler sample_str_exn "a.txt" line_feed true w1) in
   fst (tool_file_read_handler sample_str_exn "a.txt" w2) = Ok (content_result line_feed)) /\
  line_feed <> carriage_return +:+ line_feed.
Proof.
  split; [eexists; split; vm_compute; reflexivity|].
  split; [vm_compute; reflexivity|].
  split; [vm_compute; reflexivity|].
  intros H. vm_compute in H. discriminate H.
Qed.

(** The listing does show a file that is there: the round trip is not
    vacuous. *)
Example list_shows_a :
  fst (tool_file_list_handler sample_str_exn sandbox_with_a)
    = Ok (files_result [JString "a.txt"]).
Proof. vm_compute. reflexivity. Qed.

(** A directory in place of the file, a missing parent and a null byte
    end in the I/O error of the handler's [except] clause. *)
Example write_to_directory_fails :
  fst (tool_file_write_handler sample_str_exn "" "x" false empty_sandbox)
    = Ok (Error (-32002) "Error writing file: [Errno 21]") /\
  fst (tool_file_write_handler sample_str_exn "sub/a.txt" "x" false empty_sandbox)
    = Ok (Error (-32002) "Error writing file: [Errno 2]") /\
  fst (tool_file_read_handler sample_str_exn (String (Decoder.chr 0) "") empty_sandbox)
    = Ok (Error (-32002) "Error reading file: embedded null byte").
Proof. repeat split; vm_compute; reflexivity. Qed.

(** ** capabilities/list *)

Lemma fold_left_snoc {A B} (f : B -> A) (l : list B) (init : list A) :
  fold_left (fun acc x => acc ++ [f x]) l init = init ++ map f l.
Proof.
  revert init. induction l as [|x l IH]; intros init; simpl.
  - by rewrite app_nil_r.
  - by rewrite IH, <- app_assoc.
Qed.

Section Capabilities.

Variable repr : json -> string.

Lemma capabilities_run (resources_config : json) (resource_types : list json) :
  py_iter resources_config = Ok resource_types ->
  capabilities_list_handler repr resources_config =
    Ok (Success (JObject
      [("resources",
        JArray (JString "resource://model-context/{model_id}"
                :: map (fun t => resource_template (format_value repr t)) resource_types));
       ("tools", JArray tool_uris);
       ("prompts", JArray [JString "prompt://list"; JString "prompt://{prompt_name}"])])).
Proof.
  intros H. unfold capabilities_list_handler. rewrite H. simpl res_bind.
  by rewrite (fold_left_snoc (fun t => resource_template (format_value repr t))).
Qed.

(** C6 (as amended): when the resource table is a mapping (as it is when
    [resources.json] holds a JSON object, is missing or is no JSON),
    capabilities/list succeeds; its tools are exactly the five fixed
    tool URIs, and its resources are the model-context template followed
    by one template per configured resource type, in configuration
    order.  When the table is a list or a string the same holds with one
    template per item or character; when it is [null], a number or a
    boolean, the handler raises [TypeError] and answers nothing. *)
Theorem capabilities_fixed_tools (resources_config : json) :
  (forall types, resources_config = JObject types ->
     capabilities_list_handler repr resources_config =
       Ok (Success (JObject
         [("resources",
           JArray (JString "resource://model-context/{model_id}"
                   :: map resource_template (dict_keys types)));
          ("tools", JArray tool_uris);
          ("prompts", JArray [JString "prompt://list"; JString "prompt://{prompt_name}"])]))) /\
  (forall resource_types, py_iter resources_config = Ok resource_types ->
     capabilities_list_handler repr resources_config =
       Ok (Success (JObject
         [("resources",
           JArray (JString "resource://model-context/{model_id}"
                   :: map (fun t => resource_template (format_value repr t)) resource_types));
          ("tools", JArray tool_uris);
          ("prompts", JArray [JString "prompt://list"; JString "prompt://{prompt_name}"])]))) /\
  (is_scalar resources_config = true ->
     capabilities_list_handler repr resources_config = Raised TypeError).
Proof.
  split; [|split].
  - intros types ->.
    rewrite (capabilities_run (JObject types) (map JString (dict_keys types)) eq_refl).
    by rewrite map_map.
  - apply capabilities_run.
  - intros H. by destruct resources_config.
Qed.

End Capabilities.

Lemma capabilities_fixed_tools_witness :
  capabilities_list_handler sample_repr (JObject [("dataset", JObject []); ("report", JNull)]) =
    Ok (Success (JObject
      [("resources", JArray [JString "resource://model-context/{model_id}";
                             JString "resource://dataset/{resource_id}";
                             JString "resource://report/{resource_id}"]);
       ("tools", JArray tool_uris);
       ("prompts", JArray [JString "prompt://list"; JString "prompt://{prompt_name}"])])) /\
  capabilities_list_handler sample_repr (JArray [JString "dataset"; JInt 7]) =
    Ok (Success (JObject
      [("resources", JArray [JString "resource://model-context/{model_id}";
                             JString "resource://dataset/{resource_id}";
                             JString "resource://7/{resource_id}"]);
       ("tools", JArray tool_uris);
       ("prompts", JArray [JString "prompt://list"; JString "prompt://{prompt_name}"])])) /\
  capabilities_list_handler sample_repr (JInt 5) = Raised TypeError.
Proof.
  split; [|split].
  - exact (proj1 (capabilities_fixed_tools sample_repr
                    (JObject [("dataset", JObject []); ("report", JNull)]))
             [("dataset", JObject []); ("report", JNull)] eq_refl).
  - exact (proj1 (proj2 (capabilities_fixed_tools sample_repr
                           (JArray [JString "dataset"; JInt 7])))
             [JString "dataset"; JInt 7] eq_refl).
  - exact (proj2 (proj2 (capabilities_fixed_tools sample_repr (JInt 5))) eq_refl).
Defined.

(** C6 (as stated) fails: a [resources.json] that holds [null] is a
    configuration state; start-up reads it as the resource table, and
    capabilities/list then raises instead of succeeding. *)
Lemma capabilities_null_config_raises :
  fst (load_config "resources.json" null_resources) = Ok JNull /\
  capabilities_list_handler sample_repr JNull = Raised TypeError.
Proof. split; vm_compute; reflexivity. Qed.

(** ** resource/model-context *)

Lemma first_by_model_id_none table mid :
  Forall (fun row => ModelContextDB.model_id row <> mid) table ->
  first_by_model_id table mid = None.
Proof.
  unfold first_by_model_id. induction 1 as [|row table Hrow _ IH]; simpl; [done|].
  by rewrite bool_decide_eq_false_2.
Qed.

Lemma first_by_model_id_first pre row post mid :
  Forall (fun r => ModelContextDB.model_id r <> mid) pre ->
  ModelContextDB.model_id row = mid ->
  first_by_model_id (pre ++ row :: post) mid = Some row.
Proof.
  unfold first_by_model_id. intros Hpre Hrow.
  induction Hpre as [|r pre Hr _ IH]; simpl.
  - by rewrite bool_decide_eq_true_2.
  - by rewrite bool_decide_eq_false_2.
Qed.

(** C8: when no record has the requested model id the handler answers
    not-found (-32004); otherwise it answers from the first record that
    has it: with parameters that decode, absent (or empty) metrics give a
    success whose metrics field is null, and present metrics give their
    decoded value. *)
Theorem model_context_first_match (table : list ModelContextDB.t) (model_id : string) :
  (Forall (fun row => ModelContextDB.model_id row <> model_id) table ->
     resource_model_context_handler table model_id
       = Ok (Error (-32004)
               ("Resource not found: Model ID '" +:+ model_id +:+ "' not found."))) /\
  (forall pre row post parameters,
     table = pre ++ row :: post ->
     Forall (fun r => ModelContextDB.model_id r <> model_id) pre ->
     ModelContextDB.model_id row = model_id ->
     json_loads (ModelContextDB.parameters row) = Ok parameters ->
     (ModelContextDB.metrics row = None \/ ModelContextDB.metrics row = Some "" ->
        resource_model_context_handler table model_id
          = Ok (model_context_result row parameters JNull)) /\
     (forall text metrics,
        ModelContextDB.metrics row = Some text -> text <> "" ->
        json_loads text = Ok metrics ->
        resource_model_context_handler table model_id
          = Ok (model_context_result row parameters metrics))).
Proof.
  split.
  - intros H. unfold resource_model_context_handler.
    by rewrite first_by_model_id_none.
  - intros pre row post parameters -> Hpre Hrow Hparams.
    unfold resource_model_context_handler.
    rewrite (first_by_model_id_first _ _ _ _ Hpre Hrow), Hparams. simpl.
    split.
    + by intros [->| ->].
    + intros text metrics -> Hne Hm. simpl.
      rewrite bool_decide_eq_false_2 by done. simpl. by rewrite Hm.
Qed.

Lemma model_context_first_match_witness :
  resource_model_context_handler [] "missing"
    = Ok (Error (-32004) "Resource not found: Model ID 'missing' not found.") /\
  resource_model_context_handler [ready_row] "m1"
    = Ok (Success (JObject [("version", JString "1"); ("status", JString "ready");
                            ("parameters", JObject []); ("metrics", JNull)])).
Proof.
  split.
  - apply (proj1 (model_context_first_match [] "missing")). constructor.
  - apply (proj2 (model_context_first_match [ready_row] "m1") [] ready_row [] (JObject []));
      [reflexivity | constructor | reflexivity | vm_compute; reflexivity | by left].
Defined.

(** C3, at its failing input: on a record whose parameters are no JSON
    the handler raises [JSONDecodeError]; it returns neither a success
    nor an error object. *)
Lemma model_context_invalid_parameters_raises :
  resource_model_context_handler [broken_row] "m1" = Raised JSONDecodeError.
Proof. vm_compute. reflexivity. Qed.

(** ** prompt/{name} *)

(** C10 (as amended): a prompt name whose configured value is falsy (an
    empty object, say) is answered not-found (-32004); a prompt whose
    value is a non-empty mapping is returned, a missing template or
    description standing as the empty string; and a prompt whose value
    is truthy and no mapping (a number, a string, a list) makes the
    handler raise [AttributeError]. *)
Theorem prompt_falsy_or_partial (prompts_config : dict) (prompt_name : string) :
  (forall v, dict_lookup prompts_config prompt_name = Some v -> truthy v = false ->
     prompt_handler prompts_config prompt_name
       = Ok (Error (-32004) ("Prompt '" +:+ prompt_name +:+ "' not found."))) /\
  (forall members, dict_lookup prompts_config prompt_name = Some (JObject members) ->
     members <> [] ->
     prompt_handler prompts_config prompt_name
       = Ok (Success (JObject
           [("template", default (JString "") (dict_lookup members "template"));
            ("description", default (JString "") (dict_lookup members "description"))]))) /\
  (forall v, dict_lookup prompts_config prompt_name = Some v -> truthy v = true ->
     (forall members, v <> JObject members) ->
     prompt_handler prompts_config prompt_name = Raised AttributeError).
Proof.
  split; [|split].
  - intros v Hv Hf. unfold prompt_handler. rewrite Hv. simpl. by rewrite Hf.
  - intros members Hm Hne. unfold prompt_handler. rewrite Hm. simpl.
    by destruct members.
  - intros v Hv Ht Hno. unfold prompt_handler. rewrite Hv. simpl. rewrite Ht. simpl.
    destruct v; try reflexivity. by destruct (Hno members).
Qed.

Lemma prompt_falsy_or_partial_witness :
  prompt_handler sample_prompts_config "empty"
    = Ok (Error (-32004) "Prompt 'empty' not found.") /\
  prompt_handler sample_prompts_config "partial"
    = Ok (Success (JObject [("template", JString "Hello"); ("description", JString "")])) /\
  prompt_handler sample_prompts_config "text" = Raised AttributeError.
Proof.
  split; [|split].
  - apply (proj1 (prompt_falsy_or_partial sample_prompts_config "empty") (JObject []));
      reflexivity.
  - apply (proj1 (proj2 (prompt_falsy_or_partial sample_prompts_config "partial"))
             [("template", JString "Hello")]); [reflexivity|discriminate].
  - apply (proj2 (proj2 (prompt_falsy_or_partial sample_prompts_config "text"))
             (JString "not a mapping")); [reflexivity|reflexivity|discriminate].
Defined.

(** A truthy entry that is no mapping has no [get]: the handler raises. *)
Example prompt_text_entry_raises :
  prompt_handler sample_prompts_config "text" = Raised AttributeError.
Proof. reflexivity. Qed.

(** C10 (as stated) fails: the entries [5], ["text"] and [[1]] are
    present and truthy, and the handler fails on each of them instead of
    returning empty strings for the fields they lack. *)
Lemma truthy_non_mapping_prompt_raises :
  truthy (JInt 5) = true /\ truthy (JString "text") = true /\
  truthy (JArray [JInt 1]) = true /\
  prompt_handler [("n", JInt 5)] "n" = Raised AttributeError /\
  prompt_handler [("n", JString "text")] "n" = Raised AttributeError /\
  prompt_handler [("n", JArray [JInt 1])] "n" = Raised AttributeError.
Proof. repeat split; reflexivity. Qed.

(** ** tool/web-search *)

Section WebSearch.

Variable repr : json -> string.

Lemma apis_table_get search_config apis :
  apis_table search_config = Some apis ->
  py_get (JObject search_config) (JString "apis") (JObject []) = Ok (JObject apis).
Proof.
  unfold apis_table, py_get.
  destruct (dict_lookup search_config "apis") as [[]|]; simpl; try done; by intros [= ->].
Qed.

(** C7: let [name] be the provider a request ends up with (the one it
    names, else the configured default).  When the provider table has no
    entry for [name], or has one whose [enabled] flag is false or
    missing, tool/web-search answers the configuration error (-32001)
    and leaves the world as it was: no HTTP request is attempted.  When
    the entry is enabled and [name] is neither ["bing"] nor ["google"],
    the answer is a configuration error (-32001) too, again without any
    request. *)
Theorem web_search_not_enabled
    (search_config : dict) (query : string) (api : option string) (w : world)
    (name : string) (apis : dict) :
  effective_provider search_config api = JString name ->
  apis_table search_config = Some apis ->
  (dict_lookup apis name = None \/
   (exists api_config, dict_lookup apis name = Some (JObject api_config) /\
                       is_enabled api_config = false) ->
   tool_web_search_handler repr search_config query api w =
     (Ok (Error (-32001)
            ("Configuration error: '" +:+ name +:+ "' API not enabled or misconfigured.")),
      w)) /\
  ((exists api_config, dict_lookup apis name = Some (JObject api_config) /\
                       is_enabled api_config = true) ->
   name <> "bing" -> name <> "google" ->
   tool_web_search_handler repr search_config query api w =
     (Ok (Error (-32001) ("Unsupported search API: " +:+ name)), w)).
Proof.
  intros Hname Hapis. unfold effective_provider in Hname.
  split.
  - intros Hentry. unfold tool_web_search_handler, bind, lift.
    rewrite Hname, (apis_table_get _ _ Hapis). simpl.
    destruct Hentry as [->|(api_config & -> & Hen)]; simpl; [reflexivity|].
    unfold is_enabled in Hen. by rewrite Hen.
  - intros (api_config & Hcfg & Hen) Hb Hg.
    unfold tool_web_search_handler, bind, lift.
    rewrite Hname, (apis_table_get _ _ Hapis). simpl. rewrite Hcfg. simpl.
    unfold is_enabled in Hen. rewrite Hen. simpl.
    by rewrite !bool_decide_eq_false_2.
Qed.

End WebSearch.

Lemma web_search_not_enabled_witness :
  tool_web_search_handler sample_repr sample_search_config "rocq" None with_google
    = (Ok (Error (-32001) "Configuration error: 'bing' API not enabled or misconfigured."),
       with_google) /\
  tool_web_search_handler sample_repr sample_search_config "rocq" (Some "yahoo") with_google
    = (Ok (Error (-32001) "Configuration error: 'yahoo' API not enabled or misconfigured."),
       with_google) /\
  tool_web_search_handler sample_repr sample_search_config "rocq" (Some "brave") with_google
    = (Ok (Error (-32001) "Unsupported search API: brave"), with_google).
Proof.
  pose (apis := [("bing", JObject [("enabled", JBool false)]);
                 ("brave", JObject [("enabled", JBool true)]);
                 ("google", JObject [("enabled", JBool true)])]).
  split; [|split].
  - apply (proj1 (web_search_not_enabled sample_repr sample_search_config "rocq" None
                    with_google "bing" apis eq_refl eq_refl)).
    right. exists [("enabled", JBool false)]. split; reflexivity.
  - apply (proj1 (web_search_not_enabled sample_repr sample_search_config "rocq"
                    (Some "yahoo") with_google "yahoo" apis eq_refl eq_refl)).
    left. reflexivity.
  - apply (proj2 (web_search_not_enabled sample_repr sample_search_config "rocq"
                    (Some "brave") with_google "brave" apis eq_refl eq_refl)).
    + exists [("enabled", JBool true)]. split; reflexivity.
    + discriminate.
    + discriminate.
Defined.

(** An enabled, supported provider does go to the network, and its
    results are normalised with empty strings for missing fields. *)
Example enabled_provider_requests :
  requested (snd (tool_web_search_handler sample_repr sample_search_config "rocq"
                    (Some "google") with_google))
    = [mkRequest "https://www.googleapis.com/customsearch/v1" []
                 [("key", JString "key"); ("cx", JString "cx"); ("q", JString "rocq")]] /\
  fst (tool_web_search_handler sample_repr sample_search_config "rocq"
         (Some "google") with_google)
    = Ok (Success (JObject
        [("results",
          JArray [JObject [("title", JString "T"); ("url", JString "U");
                           ("snippet", JString "S")];
                  JObject [("title", JString ""); ("url", JString "V");
                           ("snippet", JString "")]])])).
Proof. split; vm_compute; reflexivity. Qed.

(** ** The stdio loop *)

Section Stdio.

Variable async_dispatch : json -> M json.

Lemma serve_line_invalid request w :
  json_loads request = Raised JSONDecodeError ->
  serve_line async_dispatch request w = (Ok tt, add_log (EvPrint parse_error_response) w).
Proof.
  intros H. unfold serve_line, try_catch, bind, lift. by rewrite H.
Qed.

Lemma serve_line_undecoded request w e :
  json_loads request = Raised e -> is_decode_error e = false ->
  serve_line async_dispatch request w = (Raised e, w).
Proof.
  intros H He. unfold serve_line, try_catch, bind, lift. rewrite H. by destruct e.
Qed.

(** C9 (as amended): a line on which the decoder raises
    [JSONDecodeError] makes the loop print exactly one line, the
    Parse-error response (code -32700, id null), and go on with the
    lines that follow; the loop ends, normally, when the input has no
    line left; so a stream of such lines is read to its end, one
    Parse-error line printed for each.  A line on which the decoder
    raises anything else (as it does with [RecursionError] on a line
    nested too deep to decode) ends the loop with that exception:
    nothing is printed for it and the lines after it are not read. *)
Theorem stdio_parse_error_continues :
  (forall request rest w,
     request <> "" -> json_loads request = Raised JSONDecodeError ->
     main_stdio async_dispatch (request :: rest) w
       = main_stdio async_dispatch rest (add_log (EvPrint parse_error_response) w)) /\
  (forall w, main_stdio async_dispatch [] w = (Ok tt, w)) /\
  (forall lines w,
     Forall (fun l => l <> "" /\ json_loads l = Raised JSONDecodeError) lines ->
     main_stdio async_dispatch lines w
       = (Ok tt, fold_left (fun w' _ => add_log (EvPrint parse_error_response) w') lines w)) /\
  (forall request rest w e,
     request <> "" -> json_loads request = Raised e -> is_decode_error e = false ->
     main_stdio async_dispatch (request :: rest) w = (Raised e, w)).
Proof.
  assert (Hstep : forall request rest w,
     request <> "" -> json_loads request = Raised JSONDecodeError ->
     main_stdio async_dispatch (request :: rest) w
       = main_stdio async_dispatch rest (add_log (EvPrint parse_error_response) w)).
  { intros request rest w Hne Hbad. simpl.
    destruct (decide (request = "")) as [?|_]; [done|].
    unfold bind. by rewrite (serve_line_invalid _ _ Hbad). }
  split; [exact Hstep|]. split; [reflexivity|]. split.
  - intros lines w Hall. revert w.
    induction Hall as [|l lines [Hne Hbad] _ IH]; intros w; [reflexivity|].
    rewrite (Hstep _ _ _ Hne Hbad). apply IH.
  - intros request rest w e Hne Hbad He. simpl.
    destruct (decide (request = "")) as [?|_]; [done|].
    unfold bind. by rewrite (serve_line_undecoded _ _ _ Hbad He).
Qed.

End Stdio.

Lemma stdio_parse_error_continues_witness :
  json_loads "{bad" = Raised JSONDecodeError /\
  json_loads "[[[" = Raised JSONDecodeError /\
  main_stdio sample_dispatch ["{bad"; "{}"] empty_sandbox
    = main_stdio sample_dispatch ["{}"] (add_log (EvPrint parse_error_response) empty_sandbox) /\
  main_stdio sample_dispatch ["[[["; "{}"] empty_sandbox
    = main_stdio sample_dispatch ["{}"] (add_log (EvPrint parse_error_response) empty_sandbox) /\
  printed (snd (main_stdio sample_dispatch ["{bad"; "{}"; "nor this"] empty_sandbox))
    = [parse_error_response;
       JObject [("jsonrpc", JString "2.0"); ("result", JNull); ("id", JNull)];
       parse_error_response].
Proof.
  assert (H : json_loads "{bad" = Raised JSONDecodeError) by (vm_compute; reflexivity).
  assert (H' : json_loads "[[[" = Raised JSONDecodeError) by (vm_compute; reflexivity).
  split; [exact H|]. split; [exact H'|]. split; [|split].
  - apply (proj1 (stdio_parse_error_continues sample_dispatch) "{bad" ["{}"] empty_sandbox);
      [discriminate|exact H].
  - apply (proj1 (stdio_parse_error_continues sample_dispatch) "[[[" ["{}"] empty_sandbox);
      [discriminate|exact H'].
  - vm_compute. reflexivity.
Defined.

(** C9 (as stated) fails: a line of two thousand opening brackets is not
    valid JSON (with room enough to nest, the decoder says so); the
    decoder of the server raises [RecursionError] on it, for which the
    loop has no clause: no Parse-error line is printed and the line
    that follows is never read. *)
Lemma deep_line_ends_loop :
  Decoder.loads 2000 deep_line = Raised JSONDecodeError /\
  json_loads deep_line = Raised RecursionError /\
  main_stdio sample_dispatch [deep_line; "{}"] empty_sandbox
    = (Raised RecursionError, empty_sandbox) /\
  printed (snd (main_stdio sample_dispatch [deep_line; "{}"] empty_sandbox)) = [].
Proof. repeat split; vm_compute; reflexivity. Qed.

(** The decoder on a few inputs. *)
Example json_loads_examples :
  json_loads "{}" = Ok (JObject []) /\
  json_loads " [1, -2.5e3, true, null] " =
    Ok (JArray [JInt 1; JFloat (FDec (-25) 2); JBool true; JNull]) /\
  json_loads "[1,]" = Raised JSONDecodeError /\
  json_loads "01" = Raised JSONDecodeError /\
  json_loads "" = Raised JSONDecodeError /\
  json_loads "[[[" = Raised JSONDecodeError /\
  json_loads "{{" = Raised JSONDecodeError.
Proof. repeat split; vm_compute; reflexivity. Qed.

(** * Further properties *)

(** ** The file tools: answers, confinement, edge cases *)

(** What the containment check let through is found, by a system call,
    under the sandbox root of the store. *)
Lemma checked_location w fn p q :
  realpath (getcwd w) (joinpath sandbox fn) = Ok p ->
  is_relative_to p (getcwd w ++ ["sandbox"]) = true ->
  free_or_file (namei w (joinpath sandbox fn)) q ->
  is_relative_to q (sandbox_root w) = true.
Proof.
  intros Hp Hrel Hq.
  destruct (free_or_file_location _ _ _ (realpath_ok _ _ _ Hp) Hq) as (p' & Hp' & ->).
  rewrite Hp in Hp'. injection Hp' as <-. by apply inside_store.
Qed.

Lemma free_or_file_not_dir w p q :
  free_or_file (namei w p) q -> files w !! q <> Some Dir.
Proof.
  intros [H|[c H]].
  - apply namei_walk, walk_missing in H; [|done]. by rewrite H.
  - apply namei_walk, walk_found_file in H; [|done]. by rewrite H.
Qed.

(** The lookup of a plain name in the sandbox, spelled out. *)
Lemma plain_namei w fn :
  plain_name fn = true ->
  namei w (joinpath sandbox fn) =
    if Nat.leb PATH_MAX (path_length (joinpath sandbox fn)) then WError 36
    else
      match files w !! (cwd w ++ ["sandbox"]) with
      | Some Dir =>
          if Nat.ltb NAME_MAX (String.length fn) then WError 36
          else
            match files w !! ((cwd w ++ ["sandbox"]) ++ [fn]) with
            | Some n => WFound ((cwd w ++ ["sandbox"]) ++ [fn]) n
            | None => WMissing ((cwd w ++ ["sandbox"]) ++ [fn])
            end
      | Some (File _) => WError 20
      | None => WError 2
      end.
Proof.
  intros Hplain. unfold namei. destruct (Nat.leb _ _); [reflexivity|].
  rewrite (plain_joinpath _ Hplain).
  change (is_absolute _) with false. cbn [path_parts]. cbv iota.
  destruct (files w !! (cwd w ++ ["sandbox"])) as [[c|]|] eqn:Hdir.
  - rewrite walk_cons by done. rewrite fs_bytes_sandbox.
    change (Nat.ltb NAME_MAX (String.length "sandbox")) with false. cbv iota.
    by rewrite Hdir.
  - by apply plain_walk.
  - rewrite walk_cons by done. rewrite fs_bytes_sandbox.
    change (Nat.ltb NAME_MAX (String.length "sandbox")) with false. cbv iota.
    by rewrite Hdir.
Qed.

Lemma plain_free_or_file w fn q :
  plain_name fn = true ->
  free_or_file (namei w (joinpath sandbox fn)) q ->
  files w !! (cwd w ++ ["sandbox"]) = Some Dir /\ q = (cwd w ++ ["sandbox"]) ++ [fn].
Proof.
  intros Hplain Hq. rewrite (plain_namei _ _ Hplain) in Hq.
  destruct (Nat.leb _ _); [by destruct Hq as [Hq|[c Hq]]|].
  destruct (files w !! (cwd w ++ ["sandbox"])) as [[c|]|];
    try (by destruct Hq as [Hq|[c' Hq]]).
  split; [reflexivity|].
  destruct (Nat.ltb _ _); [by destruct Hq as [Hq|[c' Hq]]|].
  destruct (files w !! ((cwd w ++ ["sandbox"]) ++ [fn])) as [n|];
    destruct Hq as [Hq|[c' Hq]]; try done; by injection Hq.
Qed.

Lemma plain_namei_ext w w1 fn :
  plain_name fn = true ->
  cwd w1 = cwd w ->
  files w1 !! (cwd w ++ ["sandbox"]) = files w !! (cwd w ++ ["sandbox"]) ->
  files w1 !! ((cwd w ++ ["sandbox"]) ++ [fn]) = files w !! ((cwd w ++ ["sandbox"]) ++ [fn]) ->
  namei w1 (joinpath sandbox fn) = namei w (joinpath sandbox fn).
Proof.
  intros Hplain Hcwd H1 H2. rewrite !(plain_namei _ _ Hplain), Hcwd. by rewrite H1, H2.
Qed.

Section FileToolsAnswer.
Variable str_exn : exn -> string.

(** The three ways the containment check can go. *)
Lemma check_cases w fn :
  escapes w fn = true
  \/ (exists p, realpath (getcwd w) (joinpath sandbox fn) = Ok p /\
                is_relative_to p (getcwd w ++ ["sandbox"]) = true)
  \/ exists e, realpath (getcwd w) (joinpath sandbox fn) = Raised e.
Proof.
  destruct (escapes w fn) eqn:He; [by left|right]. by apply escapes_false.
Qed.

Ltac answered := eexists; (split; [reflexivity|simpl; tauto]).

(** X1: for every filename, content and append flag, and in every state
    of the store, the four file tools return a result and never raise:
    a success, or an error whose code is -32003, -32004 or -32002 for
    tool/file-read and tool/file-delete, -32003 or -32002 for
    tool/file-write, and -32002 for tool/file-list. *)
Theorem file_tools_never_raise (w : world) (filename content : string) (append : bool) :
  answers_with (fst (tool_file_read_handler str_exn filename w))
               [-32003; -32004; -32002]%Z /\
  answers_with (fst (tool_file_write_handler str_exn filename content append w))
               [-32003; -32002]%Z /\
  answers_with (fst (tool_file_delete_handler str_exn filename w))
               [-32003; -32004; -32002]%Z /\
  answers_with (fst (tool_file_list_handler str_exn w)) [-32002]%Z.
Proof.
  unfold answers_with.
  assert (Hlist : exists r, fst (tool_file_list_handler str_exn w) = Ok r /\
                    match error_code r with Some c => In c [-32002]%Z | None => True end).
  { rewrite list_run. cbv zeta.
    destruct (namei w sandbox) as [q [c|]|q|n]; answered. }
  destruct (check_cases w filename) as [He|[(p & Hp & Hrel)|[e Hp]]].
  - rewrite (read_denied str_exn _ _ He), (write_denied str_exn _ _ content append He),
      (delete_denied str_exn _ _ He).
    repeat split; try exact Hlist; answered.
  - rewrite (read_run_inside str_exn _ _ _ Hp Hrel),
      (write_run_inside str_exn _ _ content append _ Hp Hrel),
      (delete_run_inside str_exn _ _ _ Hp Hrel). cbv zeta.
    split; [|split; [|split; [|exact Hlist]]].
    + destruct (namei w (joinpath sandbox filename)) as [q [c|]|q|n];
        [destruct (decode_text c)| | |destruct (ignored_errno n)]; answered.
    + destruct (namei w (joinpath sandbox filename)) as [q [c|]|q|n];
        try destruct (utf8_valid content); answered.
    + destruct (namei w (joinpath sandbox filename)) as [q [c|]|q|n];
        try destruct (ignored_errno n); answered.
  - rewrite (read_run_refused str_exn _ _ _ Hp),
      (write_run_refused str_exn _ _ content append _ Hp),
      (delete_run_refused str_exn _ _ _ Hp).
    repeat split; try exact Hlist; answered.
Qed.
End FileToolsAnswer.

Section FileToolsConfined.
Variable str_exn : exn -> string.

(** X2: tool/file-read and tool/file-list are read-only: whatever they
    answer, the store and the working directory are as before. *)
Theorem read_and_list_keep_store (w : world) (filename : string) :
  files (snd (tool_file_read_handler str_exn filename w)) = files w /\
  cwd (snd (tool_file_read_handler str_exn filename w)) = cwd w /\
  files (snd (tool_file_list_handler str_exn w)) = files w /\
  cwd (snd (tool_file_list_handler str_exn w)) = cwd w.
Proof.
  rewrite list_run. cbv zeta.
  destruct (check_cases w filename) as [He|[(p & Hp & Hrel)|[e Hp]]].
  - rewrite (read_denied str_exn _ _ He).
    repeat split; try reflexivity; by destruct (namei w sandbox) as [q [c|]|q|n].
  - rewrite (read_run_inside str_exn _ _ _ Hp Hrel). cbv zeta.
    repeat split; try (by destruct (namei w (joinpath sandbox filename)) as [q [c|]|q|n]);
      by destruct (namei w sandbox) as [q [c|]|q|n].
  - rewrite (read_run_refused str_exn _ _ _ Hp).
    repeat split; try reflexivity; by destruct (namei w sandbox) as [q [c|]|q|n].
Qed.

(** X3: tool/file-write is confined to the sandbox: whatever filename it
    is given and whatever it answers, a path that does not lie under the
    sandbox root holds after the call what it held before, and so does
    every directory. *)
Theorem write_stays_in_sandbox
    (w : world) (filename content : string) (append : bool) (k : list string) :
  is_relative_to k (sandbox_root w) = false \/ files w !! k = Some Dir ->
  files (snd (tool_file_write_handler str_exn filename content append w)) !! k
    = files w !! k.
Proof.
  intros Hk.
  destruct (check_cases w filename) as [He|[(p & Hp & Hrel)|[e Hp]]].
  - by rewrite (write_denied str_exn _ _ content append He).
  - rewrite (write_run_inside str_exn _ _ content append _ Hp Hrel). cbv zeta.
    assert (Hgo : forall q, free_or_file (namei w (joinpath sandbox filename)) q -> k <> q).
    { intros q Hq <-. destruct Hk as [Hk|Hk].
      - by rewrite (checked_location _ _ _ _ Hp Hrel Hq) in Hk.
      - by apply free_or_file_not_dir in Hq. }
    destruct (namei w (joinpath sandbox filename)) as [q [c|]|q|n] eqn:E; try reflexivity.
    + assert (Hq : k <> q) by (apply Hgo; right; by exists c).
      destruct (utf8_valid content); simpl; by rewrite lookup_insert_ne.
    + assert (Hq : k <> q) by (apply Hgo; by left).
      destruct (utf8_valid content); simpl; by rewrite lookup_insert_ne.
  - by rewrite (write_run_refused str_exn _ _ content append _ Hp).
Qed.

(** X4: tool/file-delete is confined to the sandbox: a path that does
    not lie under the sandbox root, and every directory, is left as it
    was, whatever the filename and the answer. *)
Theorem delete_stays_in_sandbox (w : world) (filename : string) (k : list string) :
  is_relative_to k (sandbox_root w) = false \/ files w !! k = Some Dir ->
  files (snd (tool_file_delete_handler str_exn filename w)) !! k = files w !! k.
Proof.
  intros Hk.
  destruct (check_cases w filename) as [He|[(p & Hp & Hrel)|[e Hp]]].
  - by rewrite (delete_denied str_exn _ _ He).
  - rewrite (delete_run_inside str_exn _ _ _ Hp Hrel). cbv zeta.
    destruct (namei w (joinpath sandbox filename)) as [q [c|]|q|n] eqn:E; try reflexivity.
    assert (Hq : free_or_file (namei w (joinpath sandbox filename)) q)
      by (rewrite E; right; by exists c).
    simpl. apply lookup_delete_ne. intros <-.
    destruct Hk as [Hk|Hk].
    + by rewrite (checked_location _ _ _ _ Hp Hrel Hq) in Hk.
    + by apply free_or_file_not_dir in Hq.
  - by rewrite (delete_run_refused str_exn _ _ _ Hp).
Qed.

(** X5: when tool/file-read succeeds, what it returns is the text of a
    regular file of the store whose canonical path lies under the
    sandbox root: the bytes of that file are UTF-8, and the content is
    their text with every line end read as a line feed. *)
Theorem read_returns_sandbox_file (w : world) (filename : string) (result : json) :
  fst (tool_file_read_handler str_exn filename w) = Ok (Success result) ->
  exists q bytes,
    result = JObject [("content", JString (universal_newlines bytes))] /\
    utf8_valid bytes = true /\
    is_relative_to q (sandbox_root w) = true /\
    files w !! q = Some (File bytes).
Proof.
  destruct (check_cases w filename) as [He|[(p & Hp & Hrel)|[e Hp]]].
  - by rewrite (read_denied str_exn _ _ He).
  - rewrite (read_run_inside str_exn _ _ _ Hp Hrel). cbv zeta.
    destruct (namei w (joinpath sandbox filename)) as [q [c|]|q|n] eqn:E; try done.
    + unfold decode_text. destruct (utf8_valid c) eqn:Hu; [|done].
      intros [= <-]. exists q, c. split; [reflexivity|]. split; [exact Hu|].
      assert (Hq : free_or_file (namei w (joinpath sandbox filename)) q)
        by (rewrite E; right; by exists c).
      split; [by apply (checked_location _ _ _ _ Hp Hrel Hq)|].
      by apply namei_walk, walk_found_file in E.
    + simpl. by destruct (ignored_errno n).
  - by rewrite (read_run_refused str_exn _ _ _ Hp).
Qed.
End FileToolsConfined.

Section FileToolsEdges.
Variable str_exn : exn -> string.

(** X6: for a filename that passes the containment check and names
    nothing in the store (the lookup finds the last name free, or a
    directory on the way missing or a regular file), tool/file-read and
    tool/file-delete answer not-found (-32004) right after the
    existence check: nothing is opened or unlinked.  When the lookup is
    refused because a name or the path is too long (errno 36), the
    existence check raises and both answer the I/O error (-32002). *)
Theorem absent_file_not_found (w : world) (filename : string) :
  inside w filename ->
  let w1 := add_log (EvExists (joinpath sandbox filename)) (after_check filename w) in
  ((exists q, namei w (joinpath sandbox filename) = WMissing q)
   \/ namei w (joinpath sandbox filename) = WError 2
   \/ namei w (joinpath sandbox filename) = WError 20 ->
   tool_file_read_handler str_exn filename w = (Ok (not_found filename), w1) /\
   tool_file_delete_handler str_exn filename w = (Ok (not_found filename), w1)) /\
  (namei w (joinpath sandbox filename) = WError 36 ->
   tool_file_read_handler str_exn filename w
     = (Ok (Error (-32002) ("Error reading file: " +:+ str_exn (OSError 36))), w1) /\
   tool_file_delete_handler str_exn filename w
     = (Ok (Error (-32002) ("Error deleting file: " +:+ str_exn (OSError 36))), w1)).
Proof.
  intros (p & Hp & Hrel) w1.
  rewrite (read_run_inside str_exn _ _ _ Hp Hrel), (delete_run_inside str_exn _ _ _ Hp Hrel).
  cbv zeta. split.
  - by intros [[q ->]|[-> | ->]].
  - by intros ->.
Qed.

(** X7: when the filename names a directory of the sandbox (the empty
    filename names the sandbox itself), read, write and delete all
    answer the I/O error -32002 with the text of errno 21, and the
    store is unchanged. *)
Theorem directory_is_io_error (w : world) (filename content : string) (append : bool) (q : list string) :
  inside w filename ->
  namei w (joinpath sandbox filename) = WFound q Dir ->
  fst (tool_file_read_handler str_exn filename w)
    = Ok (Error (-32002) ("Error reading file: " +:+ str_exn (OSError 21))) /\
  fst (tool_file_write_handler str_exn filename content append w)
    = Ok (Error (-32002) ("Error writing file: " +:+ str_exn (OSError 21))) /\
  fst (tool_file_delete_handler str_exn filename w)
    = Ok (Error (-32002) ("Error deleting file: " +:+ str_exn (OSError 21))) /\
  files (snd (tool_file_write_handler str_exn filename content append w)) = files w /\
  files (snd (tool_file_delete_handler str_exn filename w)) = files w.
Proof.
  intros (p & Hp & Hrel) Hdir.
  rewrite (read_run_inside str_exn _ _ _ Hp Hrel),
    (write_run_inside str_exn _ _ content append _ Hp Hrel),
    (delete_run_inside str_exn _ _ _ Hp Hrel), Hdir. by cbv zeta.
Qed.

(** X8: deleting an existing file of the sandbox succeeds and removes
    exactly that entry from the store; reading or deleting the same
    filename again answers not-found (-32004). *)
Theorem deleted_file_is_gone (w : world) (filename : string) (q : list string) (c : string) :
  inside w filename ->
  namei w (joinpath sandbox filename) = WFound q (File c) ->
  exists w1,
    tool_file_delete_handler str_exn filename w = (Ok (deleted_result filename), w1) /\
    files w1 = delete q (files w) /\
    fst (tool_file_read_handler str_exn filename w1) = Ok (not_found filename) /\
    fst (tool_file_delete_handler str_exn filename w1) = Ok (not_found filename).
Proof.
  intros Hin Hq.
  destruct (delete_inside str_exn w filename q c Hin Hq) as (w1 & Hdel & Hcwd & Hfiles).
  exists w1. split; [exact Hdel|]. split; [exact Hfiles|].
  assert (Hin1 : inside w1 filename) by (by apply (inside_ext w)).
  destruct Hin1 as (p & Hp & Hrel).
  pose proof (namei_after_unlink _ _ _ _ _ Hq Hcwd Hfiles) as Hgone.
  rewrite (read_run_inside str_exn _ _ _ Hp Hrel), (delete_run_inside str_exn _ _ _ Hp Hrel),
    Hgone. by split.
Qed.

(** X9: when the sandbox directory exists, tool/file-list succeeds after
    the one directory scan, and a name is in its list exactly when it is
    the decoded name of a regular file the sandbox directory holds; so a
    name that is UTF-8 text is listed exactly when the sandbox directory
    holds a regular file of that name.  Entries of sub-directories and
    sub-directories themselves are not listed. *)
Theorem list_names_regular_files (w : world) :
  files w !! sandbox_root w = Some Dir ->
  exists names,
    tool_file_list_handler str_exn w
      = (Ok (files_result names), add_log (EvIterdir sandbox) w) /\
    (forall name,
       JString name ∈ names
       <-> exists b c, fsdecode b = name /\
                       files w !! (sandbox_root w ++ [b]) = Some (File c)) /\
    (forall name,
       utf8_valid name = true ->
       JString name ∈ names
       <-> exists c, files w !! (sandbox_root w ++ [name]) = Some (File c)).
Proof.
  intros Hdir. rewrite (list_sandbox str_exn w Hdir). eexists. split; [reflexivity|].
  split.
  - intros name. apply elem_of_listed.
  - intros name Hu. by apply elem_of_listed_plain.
Qed.

(** X10: when the sandbox directory does not exist (removed after
    start-up, or a regular file in its place), tool/file-list answers
    the I/O error -32002, with errno 2 or errno 20. *)
Theorem list_without_sandbox (w : world) :
  files w !! sandbox_root w <> Some Dir ->
  exists n, fst (tool_file_list_handler str_exn w)
            = Ok (Error (-32002) ("Error listing files: " +:+ str_exn (OSError n))) /\
            (n = 2 \/ n = 20)%Z.
Proof.
  intros Hdir. rewrite list_run. cbv zeta.
  unfold namei.
  change (Nat.leb PATH_MAX (path_length sandbox)) with false.
  change (is_absolute sandbox) with false.
  change (path_parts sandbox) with ["sandbox"]. cbv iota.
  rewrite walk_cons by done. rewrite fs_bytes_sandbox.
  change (Nat.ltb NAME_MAX (String.length "sandbox")) with false. cbv iota.
  unfold sandbox_root in Hdir.
  destruct (files w !! (cwd w ++ ["sandbox"])) as [[c|]|]; [| done |].
  - exists 20%Z. split; [reflexivity|by right].
  - exists 2%Z. split; [reflexivity|by left].
Qed.

(** X11: once a write of a plain file name (one path component) has
    been answered with success, the listing contains that name, as the
    test test_file_operations expects. *)
Theorem written_file_is_listed
    (w w1 : world) (filename content : string) (append : bool) :
  plain_name filename = true ->
  tool_file_write_handler str_exn filename content append w
    = (Ok (written_result filename append), w1) ->
  exists w2 names,
    tool_file_list_handler str_exn w1 = (Ok (files_result names), w2) /\
    JString filename ∈ names.
Proof.
  intros Hplain Hwrite.
  pose proof (plain_name_parts _ Hplain) as (_ & _ & _ & _ & _ & Hvalid).
  assert (Hdone : exists c,
            cwd w1 = cwd w /\
            files w !! (cwd w ++ ["sandbox"]) = Some Dir /\
            files w1 = <[(cwd w ++ ["sandbox"]) ++ [filename] := File c]> (files w)).
  { destruct (check_cases w filename) as [He|[(p & Hp & Hrel)|[e Hp]]].
    - by rewrite (write_denied str_exn _ _ content append He) in Hwrite.
    - rewrite (write_run_inside str_exn _ _ content append _ Hp Hrel) in Hwrite.
      cbv zeta in Hwrite.
      destruct (namei w (joinpath sandbox filename)) as [q [c|]|q|n] eqn:E; try done.
      + assert (Hq : free_or_file (namei w (joinpath sandbox filename)) q)
          by (rewrite E; right; by exists c).
        destruct (plain_free_or_file _ _ _ Hplain Hq) as [Hdir ->].
        destruct (utf8_valid content); [|done]. injection Hwrite as <-.
        eexists. split; [reflexivity|]. split; [exact Hdir|reflexivity].
      + assert (Hq : free_or_file (namei w (joinpath sandbox filename)) q)
          by (rewrite E; by left).
        destruct (plain_free_or_file _ _ _ Hplain Hq) as [Hdir ->].
        destruct (utf8_valid content); [|done]. injection Hwrite as <-.
        eexists. split; [reflexivity|]. split; [exact Hdir|reflexivity].
    - by rewrite (write_run_refused str_exn _ _ content append _ Hp) in Hwrite. }
  destruct Hdone as (c & Hcwd1 & Hdir & Hfiles1).
  assert (Hdir1 : files w1 !! (cwd w1 ++ ["sandbox"]) = Some Dir).
  { rewrite Hfiles1, Hcwd1. rewrite lookup_insert_ne; [exact Hdir|].
    intros H. apply (f_equal length) in H. rewrite !length_app in H. simpl in H. lia. }
  eexists. eexists. split; [by apply list_sandbox|].
  apply (elem_of_listed_plain _ _ _ Hvalid).
  rewrite Hfiles1, Hcwd1, lookup_insert_eq. by eexists.
Qed.

(** X12: a write to one plain file name does not change what a read of
    a different plain file name answers, whether the write succeeds or
    not. *)
Theorem write_leaves_other_files (w : world) (f1 f2 content : string) (append : bool) :
  plain_name f1 = true -> plain_name f2 = true -> f1 <> f2 ->
  fst (tool_file_read_handler str_exn f2
         (snd (tool_file_write_handler str_exn f1 content append w)))
    = fst (tool_file_read_handler str_exn f2 w).
Proof.
  intros H1 H2 Hne.
  set (w1 := snd (tool_file_write_handler str_exn f1 content append w)).
  assert (Hcwd : cwd w1 = cwd w).
  { unfold w1. destruct (check_cases w f1) as [He|[(p & Hp & Hrel)|[e Hp]]].
    - by rewrite (write_denied str_exn _ _ content append He).
    - rewrite (write_run_inside str_exn _ _ content append _ Hp Hrel). cbv zeta.
      destruct (namei w (joinpath sandbox f1)) as [q [c|]|q|n]; try done;
        by destruct (utf8_valid content).
    - by rewrite (write_run_refused str_exn _ _ content append _ Hp). }
  assert (Hfiles : forall k, k <> (cwd w ++ ["sandbox"]) ++ [f1] -> files w1 !! k = files w !! k).
  { intros k Hk. unfold w1.
    destruct (check_cases w f1) as [He|[(p & Hp & Hrel)|[e Hp]]].
    - by rewrite (write_denied str_exn _ _ content append He).
    - rewrite (write_run_inside str_exn _ _ content append _ Hp Hrel). cbv zeta.
      destruct (namei w (joinpath sandbox f1)) as [q [c|]|q|n] eqn:E; try reflexivity.
      + assert (Hq : free_or_file (namei w (joinpath sandbox f1)) q)
          by (rewrite E; right; by exists c).
        destruct (plain_free_or_file _ _ _ H1 Hq) as [_ ->].
        destruct (utf8_valid content); simpl; by rewrite lookup_insert_ne.
      + assert (Hq : free_or_file (namei w (joinpath sandbox f1)) q)
          by (rewrite E; by left).
        destruct (plain_free_or_file _ _ _ H1 Hq) as [_ ->].
        destruct (utf8_valid content); simpl; by rewrite lookup_insert_ne.
    - by rewrite (write_run_refused str_exn _ _ content append _ Hp). }
  assert (Hnamei : namei w1 (joinpath sandbox f2) = namei w (joinpath sandbox f2)).
  { apply (plain_namei_ext _ _ _ H2 Hcwd).
    - apply Hfiles. intros H. apply (f_equal length) in H.
      rewrite !length_app in H. simpl in H. lia.
    - apply Hfiles. intros H. apply app_inj_tail in H as [_ H]. by apply Hne. }
  assert (Hgetcwd : getcwd w1 = getcwd w) by (unfold getcwd; by rewrite Hcwd).
  destruct (check_cases w f2) as [He|[(p & Hp & Hrel)|[e Hp]]].
  - assert (He1 : escapes w1 f2 = true) by (unfold escapes; rewrite Hgetcwd; exact He).
    by rewrite (read_denied str_exn _ _ He), (read_denied str_exn _ _ He1).
  - assert (Hp1 : realpath (getcwd w1) (joinpath sandbox f2) = Ok p) by (by rewrite Hgetcwd).
    assert (Hrel1 : is_relative_to p (getcwd w1 ++ ["sandbox"]) = true) by (by rewrite Hgetcwd).
    rewrite (read_run_inside str_exn _ _ _ Hp Hrel), (read_run_inside str_exn _ _ _ Hp1 Hrel1),
      Hnamei. cbv zeta.
    by destruct (namei w (joinpath sandbox f2)) as [q [c|]|q|n].
  - assert (Hp1 : realpath (getcwd w1) (joinpath sandbox f2) = Raised e) by (by rewrite Hgetcwd).
    by rewrite (read_run_refused str_exn _ _ _ Hp), (read_run_refused str_exn _ _ _ Hp1).
Qed.
End FileToolsEdges.

(** *** The file tools at work on the sample stores *)

Lemma write_stays_in_sandbox_witness :
  is_relative_to ["srv"; "app"] (sandbox_root sandbox_with_a) = false /\
  files (snd (tool_file_write_handler sample_str_exn "b.txt" "x" false sandbox_with_a))
    !! ["srv"; "app"] = files sandbox_with_a !! ["srv"; "app"] /\
  files (snd (tool_file_write_handler sample_str_exn "" "x" false sandbox_with_a))
    !! ["srv"; "app"; "sandbox"] = files sandbox_with_a !! ["srv"; "app"; "sandbox"].
Proof.
  assert (H : is_relative_to ["srv"; "app"] (sandbox_root sandbox_with_a) = false)
    by (vm_compute; reflexivity).
  split; [exact H|]. split.
  - apply (write_stays_in_sandbox sample_str_exn sandbox_with_a "b.txt" "x" false).
    left. exact H.
  - apply (write_stays_in_sandbox sample_str_exn sandbox_with_a "" "x" false).
    right. vm_compute. reflexivity.
Defined.

Lemma delete_stays_in_sandbox_witness :
  is_relative_to ["srv"; "app"] (sandbox_root sandbox_with_a) = false /\
  files (snd (tool_file_delete_handler sample_str_exn "a.txt" sandbox_with_a))
    !! ["srv"; "app"] = files sandbox_with_a !! ["srv"; "app"] /\
  files (snd (tool_file_delete_handler sample_str_exn "" sandbox_with_a))
    !! ["srv"; "app"; "sandbox"] = files sandbox_with_a !! ["srv"; "app"; "sandbox"].
Proof.
  assert (H : is_relative_to ["srv"; "app"] (sandbox_root sandbox_with_a) = false)
    by (vm_compute; reflexivity).
  split; [exact H|]. split.
  - apply (delete_stays_in_sandbox sample_str_exn sandbox_with_a "a.txt").
    left. exact H.
  - apply (delete_stays_in_sandbox sample_str_exn sandbox_with_a "").
    right. vm_compute. reflexivity.
Defined.

Lemma read_returns_sandbox_file_witness :
  fst (tool_file_read_handler sample_str_exn "a.txt" sandbox_with_a)
    = Ok (Success (JObject [("content", JString "hi")])) /\
  exists q bytes,
    JObject [("content", JString "hi")]
      = JObject [("content", JString (universal_newlines bytes))] /\
    utf8_valid bytes = true /\
    is_relative_to q (sandbox_root sandbox_with_a) = true /\
    files sandbox_with_a !! q = Some (File bytes).
Proof.
  assert (H : fst (tool_file_read_handler sample_str_exn "a.txt" sandbox_with_a)
              = Ok (Success (JObject [("content", JString "hi")])))
    by (vm_compute; reflexivity).
  split; [exact H|].
  exact (read_returns_sandbox_file sample_str_exn sandbox_with_a "a.txt" _ H).
Defined.

(** A file with a carriage return and a line feed is read with one line
    feed, and one that is no UTF-8 text is not read at all. *)
Example read_decodes_text :
  (let w := set_files (<[ ["srv"; "app"; "sandbox"; "a.txt"]
                            := File ("a" +:+ carriage_return +:+ line_feed +:+ "b") ]>
                         (files empty_sandbox)) empty_sandbox in
   fst (tool_file_read_handler sample_str_exn "a.txt" w)
     = Ok (content_result ("a" +:+ line_feed +:+ "b"))) /\
  (let w := set_files (<[ ["srv"; "app"; "sandbox"; "a.txt"]
                            := File (String (Decoder.chr 255) "") ]>
                         (files empty_sandbox)) empty_sandbox in
   fst (tool_file_read_handler sample_str_exn "a.txt" w)
     = Ok (Error (-32002) ("Error reading file: " +:+ sample_str_exn UnicodeDecodeError))).
Proof. split; vm_compute; reflexivity. Qed.

Lemma absent_file_not_found_witness :
  inside empty_sandbox "a.txt" /\
  inside empty_sandbox long_name /\
  tool_file_read_handler sample_str_exn "a.txt" empty_sandbox
    = (Ok (not_found "a.txt"),
       add_log (EvExists (joinpath sandbox "a.txt")) (after_check "a.txt" empty_sandbox)) /\
  tool_file_delete_handler sample_str_exn "sub/a.txt" empty_sandbox
    = (Ok (not_found "sub/a.txt"),
       add_log (EvExists (joinpath sandbox "sub/a.txt"))
         (after_check "sub/a.txt" empty_sandbox)) /\
  fst (tool_file_read_handler sample_str_exn long_name empty_sandbox)
    = Ok (Error (-32002) "Error reading file: [Errno 36]").
Proof.
  assert (H1 : inside empty_sandbox "a.txt")
    by (exists ["srv"; "app"; "sandbox"; "a.txt"]; split; vm_compute; reflexivity).
  assert (H2 : inside empty_sandbox "sub/a.txt")
    by (exists ["srv"; "app"; "sandbox"; "sub"; "a.txt"]; split; vm_compute; reflexivity).
  assert (H3 : inside empty_sandbox long_name)
    by (exists ["srv"; "app"; "sandbox"; long_name]; split; vm_compute; reflexivity).
  split; [exact H1|]. split; [exact H3|]. split; [|split].
  - apply (proj1 (absent_file_not_found sample_str_exn empty_sandbox "a.txt" H1)).
    left. eexists. vm_compute. reflexivity.
  - apply (proj1 (absent_file_not_found sample_str_exn empty_sandbox "sub/a.txt" H2)).
    right. left. vm_compute. reflexivity.
  - pose proof (proj1 (proj2 (absent_file_not_found sample_str_exn empty_sandbox long_name H3)
                         ltac:(vm_compute; reflexivity))) as H.
    apply (f_equal fst) in H. exact H.
Defined.

Lemma directory_is_io_error_witness :
  fst (tool_file_read_handler sample_str_exn "" empty_sandbox)
    = Ok (Error (-32002) "Error reading file: [Errno 21]") /\
  fst (tool_file_write_handler sample_str_exn "" "x" true empty_sandbox)
    = Ok (Error (-32002) "Error writing file: [Errno 21]") /\
  fst (tool_file_delete_handler sample_str_exn "" empty_sandbox)
    = Ok (Error (-32002) "Error deleting file: [Errno 21]").
Proof.
  destruct (directory_is_io_error sample_str_exn empty_sandbox "" "x" true
              ["srv"; "app"; "sandbox"]) as (H1 & H2 & H3 & _).
  - exists ["srv"; "app"; "sandbox"]. split; vm_compute; reflexivity.
  - vm_compute. reflexivity.
  - split; [exact H1|]. split; [exact H2|exact H3].
Defined.

Lemma deleted_file_is_gone_witness :
  exists w1,
    tool_file_delete_handler sample_str_exn "a.txt" sandbox_with_a
      = (Ok (deleted_result "a.txt"), w1) /\
    files w1 = delete ["srv"; "app"; "sandbox"; "a.txt"] (files sandbox_with_a) /\
    fst (tool_file_read_handler sample_str_exn "a.txt" w1) = Ok (not_found "a.txt") /\
    fst (tool_file_delete_handler sample_str_exn "a.txt" w1) = Ok (not_found "a.txt").
Proof.
  apply (deleted_file_is_gone sample_str_exn sandbox_with_a "a.txt"
           ["srv"; "app"; "sandbox"; "a.txt"] "hi").
  - exists ["srv"; "app"; "sandbox"; "a.txt"]. split; vm_compute; reflexivity.
  - vm_compute. reflexivity.
Defined.

Lemma list_names_regular_files_witness :
  exists names,
    tool_file_list_handler sample_str_exn sandbox_with_a
      = (Ok (files_result names), add_log (EvIterdir sandbox) sandbox_with_a) /\
    (forall name,
       JString name ∈ names
       <-> exists b c, fsdecode b = name /\
                       files sandbox_with_a !! (sandbox_root sandbox_with_a ++ [b])
                         = Some (File c)) /\
    (forall name,
       utf8_valid name = true ->
       JString name ∈ names
       <-> exists c, files sandbox_with_a !! (sandbox_root sandbox_with_a ++ [name])
                     = Some (File c)).
Proof.
  apply (list_names_regular_files sample_str_exn sandbox_with_a).
  vm_compute. reflexivity.
Defined.

(** A file whose name is no UTF-8 text is listed under its decoded
    name, the byte 255 as an escape. *)
Example list_decodes_names :
  (let w := set_files (<[ ["srv"; "app"; "sandbox"; String (Decoder.chr 255) ""]
                            := File "" ]> (files empty_sandbox)) empty_sandbox in
   fst (tool_file_list_handler sample_str_exn w)
     = Ok (files_result
             [JString (String (Decoder.chr 237)
                         (String (Decoder.chr 179) (String (Decoder.chr 191) "")))])).
Proof. vm_compute. reflexivity. Qed.

Lemma list_without_sandbox_witness :
  exists n,
    fst (tool_file_list_handler sample_str_exn fresh_directory)
      = Ok (Error (-32002) ("Error listing files: " +:+ sample_str_exn (OSError n))) /\
    (n = 2 \/ n = 20)%Z.
Proof.
  apply (list_without_sandbox sample_str_exn fresh_directory).
  intros H. vm_compute in H. discriminate H.
Defined.

Lemma written_file_is_listed_witness :
  plain_name "test_file.txt" = true /\
  exists w2 names,
    tool_file_list_handler sample_str_exn
      (snd (tool_file_write_handler sample_str_exn "test_file.txt" "Hello, world!" false
              empty_sandbox))
      = (Ok (files_result names), w2) /\
    JString "test_file.txt" ∈ names.
Proof.
  assert (H : plain_name "test_file.txt" = true) by (vm_compute; reflexivity).
  split; [exact H|].
  apply (written_file_is_listed sample_str_exn empty_sandbox _ "test_file.txt"
           "Hello, world!" false H).
  vm_compute. reflexivity.
Defined.

Lemma write_leaves_other_files_witness :
  fst (tool_file_read_handler sample_str_exn "a.txt"
         (snd (tool_file_write_handler sample_str_exn "b.txt" "x" false sandbox_with_a)))
    = fst (tool_file_read_handler sample_str_exn "a.txt" sandbox_with_a).
Proof.
  apply (write_leaves_other_files sample_str_exn sandbox_with_a "b.txt" "a.txt" "x" false).
  - vm_compute. reflexivity.
  - vm_compute. reflexivity.
  - discriminate.
Defined.

(** ** The search adapters *)

Lemma getenv_run name w : getenv name w = (Ok (environ w !! name), w).
Proof. reflexivity. Qed.

Lemma env_unset_falsy w name :
  env_unset w name -> truthy (of_optional_str (environ w !! name)) = false.
Proof. by intros [-> | ->]. Qed.

Lemma env_set_truthy w name value :
  env_set w name value -> truthy (of_optional_str (environ w !! name)) = true.
Proof.
  intros [-> Hne]. simpl. by rewrite bool_decide_eq_false_2.
Qed.

(** X13: the Bing adapter without a BING_API_KEY (unset or empty), and
    the Google adapter without GOOGLE_API_KEY or without GOOGLE_CX,
    answer the configuration error -32001 and leave the world as it
    was: no HTTP request is made. *)
Theorem missing_credentials_no_request (query : string) (w : world) :
  (env_unset w "BING_API_KEY" ->
     bing_search_handler query w
       = (Ok (Error (-32001) "Bing API key not configured."), w)) /\
  (env_unset w "GOOGLE_API_KEY" \/ env_unset w "GOOGLE_CX" ->
     google_search_handler query w
       = (Ok (Error (-32001) "Google API key or CX not configured."), w)).
Proof.
  split.
  - intros H. unfold bing_search_handler, bind. rewrite getenv_run.
    by rewrite (env_unset_falsy _ _ H).
  - intros H. unfold google_search_handler, bind. rewrite !getenv_run.
    destruct H as [H|H]; rewrite (env_unset_falsy _ _ H); simpl; [reflexivity|].
    by rewrite orb_true_r.
Qed.

Lemma requests_get_run r w :
  requests_get r w =
    (match http w r with
     | HttpFails detail => Raised (RequestException detail)
     | HttpJson body => Ok body
     end, add_log (EvHttpGet r) w).
Proof.
  unfold requests_get, bind, emit, gets. simpl. by destruct (http w r).
Qed.

Lemma res_map_objects (f : json -> res json) (g : dict -> json) (entries : list dict) :
  (forall m, f (JObject m) = Ok (g m)) ->
  res_map f (map JObject entries) = Ok (map g entries).
Proof.
  intros Hf. induction entries as [|m entries IH]; simpl; [reflexivity|].
  by rewrite Hf, IH.
Qed.

Lemma bing_run query key w :
  env_set w "BING_API_KEY" key ->
  bing_search_handler query w =
    try_catch
      (let* search_results := requests_get (bing_request key query) in
       let* has_pages := lift (py_contains "webPages" search_results) in
       let* has_value :=
         if has_pages
         then let* pages := lift (py_getitem search_results "webPages") in
              lift (py_contains "value" pages)
         else ret false in
       let* processed_results :=
         if has_value
         then
           let* pages := lift (py_getitem search_results "webPages") in
           let* value := lift (py_getitem pages "value") in
           let* results := lift (py_iter value) in
           lift (res_map
                   (fun result =>
                      res_bind (py_get result (JString "name") (JString "")) (fun title =>
                      res_bind (py_get result (JString "url") (JString "")) (fun url =>
                      res_bind (py_get result (JString "snippet") (JString "")) (fun snippet =>
                      Ok (JObject [("title", title); ("url", url); ("snippet", snippet)])))))
                   results)
         else ret [] in
       ret (Success (JObject [("results", JArray processed_results)])))
      (on_request_exception "Error making Bing search request: ") w.
Proof.
  intros H. unfold bing_search_handler at 1. unfold bind at 1. rewrite getenv_run.
  rewrite (env_set_truthy _ _ _ H). simpl negb. cbv iota.
  destruct H as [-> _]. reflexivity.
Qed.

Lemma google_run query key cx w :
  env_set w "GOOGLE_API_KEY" key -> env_set w "GOOGLE_CX" cx ->
  google_search_handler query w =
    try_catch
      (let* search_results := requests_get (google_request key cx query) in
       let* has_items := lift (py_contains "items" search_results) in
       let* processed_results :=
         if has_items
         then
           let* items := lift (py_getitem search_results "items") in
           let* results := lift (py_iter items) in
           lift (res_map
                   (fun result =>
                      res_bind (py_get result (JString "title") (JString "")) (fun title =>
                      res_bind (py_get result (JString "link") (JString "")) (fun url =>
                      res_bind (py_get result (JString "snippet") (JString "")) (fun snippet =>
                      Ok (JObject [("title", title); ("url", url); ("snippet", snippet)])))))
                   results)
         else ret [] in
       ret (Success (JObject [("results", JArray processed_results)])))
      (on_request_exception "Error making Google search request: ") w.
Proof.
  intros H1 H2. unfold google_search_handler at 1. unfold bind at 1 2. rewrite !getenv_run.
  rewrite (env_set_truthy _ _ _ H1), (env_set_truthy _ _ _ H2). simpl negb. cbv iota.
  destruct H1 as [-> _], H2 as [-> _]. reflexivity.
Qed.

(** X14: with credentials set, a request that fails (a
    [RequestException], be it from the connection, the status or the
    body) makes either adapter answer -32002 with the provider's
    message prefix followed by the exception text, after exactly one
    request. *)
Theorem upstream_failure_is_request_error (query key cx detail : string) (w : world) :
  (env_set w "BING_API_KEY" key ->
   http w (bing_request key query) = HttpFails detail ->
   bing_search_handler query w
     = (Ok (Error (-32002) ("Error making Bing search request: " +:+ detail)),
        add_log (EvHttpGet (bing_request key query)) w)) /\
  (env_set w "GOOGLE_API_KEY" key -> env_set w "GOOGLE_CX" cx ->
   http w (google_request key cx query) = HttpFails detail ->
   google_search_handler query w
     = (Ok (Error (-32002) ("Error making Google search request: " +:+ detail)),
        add_log (EvHttpGet (google_request key cx query)) w)).
Proof.
  split.
  - intros Hk Hr. rewrite (bing_run _ _ _ Hk).
    unfold try_catch, bind. by rewrite requests_get_run, Hr.
  - intros Hk Hc Hr. rewrite (google_run _ _ _ _ Hk Hc).
    unfold try_catch, bind. by rewrite requests_get_run, Hr.
Qed.

(** X15: the Google adapter sends one request with key, cx and q; on a
    JSON object without [items] it answers an empty result list, and
    on a list of item objects it answers, in order, one
    title/url/snippet record per item, read from [title], [link] and
    [snippet], a missing field standing as the empty string. *)
Theorem google_results_normalized (query key cx : string) (w : world) (body : dict) :
  env_set w "GOOGLE_API_KEY" key -> env_set w "GOOGLE_CX" cx ->
  http w (google_request key cx query) = HttpJson (JObject body) ->
  (dict_lookup body "items" = None ->
     google_search_handler query w
       = (Ok (results_of "title" "link" []),
          add_log (EvHttpGet (google_request key cx query)) w)) /\
  (forall entries,
     dict_lookup body "items" = Some (JArray (map JObject entries)) ->
     google_search_handler query w
       = (Ok (results_of "title" "link" entries),
          add_log (EvHttpGet (google_request key cx query)) w)).
Proof.
  intros Hk Hc Hr. rewrite (google_run _ _ _ _ Hk Hc).
  unfold try_catch, bind. rewrite requests_get_run, Hr. unfold lift, py_contains, py_getitem.
  split.
  - intros ->. reflexivity.
  - intros entries ->. simpl.
    rewrite (res_map_objects _ (normalized "title" "link")); [reflexivity|].
    intros m. reflexivity.
Qed.

(** X16: the Bing adapter sends one request with the key in its header;
    on a JSON object without [webPages], or whose [webPages] object has
    no [value], it answers an empty result list; on a list of value
    objects it answers, in order, one title/url/snippet record per
    entry, read from [name], [url] and [snippet], a missing field
    standing as the empty string. *)
Theorem bing_results_normalized (query key : string) (w : world) (body : dict) :
  env_set w "BING_API_KEY" key ->
  http w (bing_request key query) = HttpJson (JObject body) ->
  (dict_lookup body "webPages" = None ->
     bing_search_handler query w
       = (Ok (results_of "name" "url" []), add_log (EvHttpGet (bing_request key query)) w)) /\
  (forall pages,
     dict_lookup body "webPages" = Some (JObject pages) ->
     (dict_lookup pages "value" = None ->
        bing_search_handler query w
          = (Ok (results_of "name" "url" []),
             add_log (EvHttpGet (bing_request key query)) w)) /\
     (forall entries,
        dict_lookup pages "value" = Some (JArray (map JObject entries)) ->
        bing_search_handler query w
          = (Ok (results_of "name" "url" entries),
             add_log (EvHttpGet (bing_request key query)) w))).
Proof.
  intros Hk Hr. rewrite (bing_run _ _ _ Hk).
  unfold try_catch, bind. rewrite requests_get_run, Hr. unfold lift, py_contains, py_getitem.
  split.
  - intros ->. reflexivity.
  - intros pages ->. simpl. split.
    + intros ->. reflexivity.
    + intros entries ->. simpl.
      rewrite (res_map_objects _ (normalized "name" "url")); [reflexivity|].
      intros m. reflexivity.
Qed.

(** X17: when the provider's body is JSON but a scalar (null, a boolean
    or a number), either adapter raises [TypeError] after its request:
    the membership test fails and the handler's [except] clause names
    [RequestException] only, so no result object is returned. *)
Theorem scalar_body_escapes (query key cx : string) (w : world) (body : json) :
  is_scalar body = true ->
  (env_set w "BING_API_KEY" key ->
   http w (bing_request key query) = HttpJson body ->
   bing_search_handler query w
     = (Raised TypeError, add_log (EvHttpGet (bing_request key query)) w)) /\
  (env_set w "GOOGLE_API_KEY" key -> env_set w "GOOGLE_CX" cx ->
   http w (google_request key cx query) = HttpJson body ->
   google_search_handler query w
     = (Raised TypeError, add_log (EvHttpGet (google_request key cx query)) w)).
Proof.
  intros Hs. split.
  - intros Hk Hr. rewrite (bing_run _ _ _ Hk).
    unfold try_catch, bind. rewrite requests_get_run, Hr.
    by destruct body.
  - intros Hk Hc Hr. rewrite (google_run _ _ _ _ Hk Hc).
    unfold try_catch, bind. rewrite requests_get_run, Hr.
    by destruct body.
Qed.

(** *** The adapters on the sample servers *)

Lemma missing_credentials_no_request_witness :
  bing_search_handler "rocq" empty_sandbox
    = (Ok (Error (-32001) "Bing API key not configured."), empty_sandbox) /\
  google_search_handler "rocq" (server_with bing_env (HttpJson JNull))
    = (Ok (Error (-32001) "Google API key or CX not configured."),
       server_with bing_env (HttpJson JNull)).
Proof.
  split.
  - apply (proj1 (missing_credentials_no_request "rocq" empty_sandbox)).
    left. vm_compute. reflexivity.
  - apply (proj2 (missing_credentials_no_request "rocq"
                    (server_with bing_env (HttpJson JNull)))).
    right. left. vm_compute. reflexivity.
Defined.

Lemma upstream_failure_is_request_error_witness :
  bing_search_handler "rocq" bing_down
    = (Ok (Error (-32002) "Error making Bing search request: timed out"),
       add_log (EvHttpGet (bing_request "key" "rocq")) bing_down) /\
  google_search_handler "rocq" (server_with google_env (HttpFails "timed out"))
    = (Ok (Error (-32002) "Error making Google search request: timed out"),
       add_log (EvHttpGet (google_request "key" "cx" "rocq"))
               (server_with google_env (HttpFails "timed out"))).
Proof.
  split.
  - apply (proj1 (upstream_failure_is_request_error "rocq" "key" "cx" "timed out" bing_down)).
    + split; [vm_compute; reflexivity|discriminate].
    + reflexivity.
  - apply (proj2 (upstream_failure_is_request_error "rocq" "key" "cx" "timed out"
                    (server_with google_env (HttpFails "timed out")))).
    + split; [vm_compute; reflexivity|discriminate].
    + split; [vm_compute; reflexivity|discriminate].
    + reflexivity.
Defined.

Lemma google_results_normalized_witness :
  google_search_handler "rocq" with_google
    = (Ok (results_of "title" "link"
             [[("title", JString "T"); ("link", JString "U"); ("snippet", JString "S")];
              [("link", JString "V")]]),
       add_log (EvHttpGet (google_request "key" "cx" "rocq")) with_google) /\
  google_search_handler "rocq" (server_with google_env (HttpJson (JObject [])))
    = (Ok (results_of "title" "link" []),
       add_log (EvHttpGet (google_request "key" "cx" "rocq"))
               (server_with google_env (HttpJson (JObject [])))).
Proof.
  assert (Hk : forall w, environ w = google_env -> env_set w "GOOGLE_API_KEY" "key")
    by (intros w H; unfold env_set; rewrite H; split; [vm_compute; reflexivity|discriminate]).
  assert (Hc : forall w, environ w = google_env -> env_set w "GOOGLE_CX" "cx")
    by (intros w H; unfold env_set; rewrite H; split; [vm_compute; reflexivity|discriminate]).
  split.
  - exact (proj2 (google_results_normalized "rocq" "key" "cx" with_google
                    [("items", JArray [JObject [("title", JString "T"); ("link", JString "U");
                                                ("snippet", JString "S")];
                                       JObject [("link", JString "V")]])]
                    (Hk with_google eq_refl) (Hc with_google eq_refl) eq_refl)
                 [[("title", JString "T"); ("link", JString "U"); ("snippet", JString "S")];
                  [("link", JString "V")]] eq_refl).
  - exact (proj1 (google_results_normalized "rocq" "key" "cx"
                    (server_with google_env (HttpJson (JObject []))) []
                    (Hk (server_with google_env (HttpJson (JObject []))) eq_refl)
                    (Hc (server_with google_env (HttpJson (JObject []))) eq_refl)
                    eq_refl) eq_refl).
Defined.

Lemma bing_results_normalized_witness :
  bing_search_handler "rocq"
    (server_with bing_env
       (HttpJson (JObject [("webPages",
          JObject [("value", JArray [JObject [("name", JString "T"); ("url", JString "U")]])])])))
    = (Ok (results_of "name" "url" [[("name", JString "T"); ("url", JString "U")]]),
       add_log (EvHttpGet (bing_request "key" "rocq"))
         (server_with bing_env
            (HttpJson (JObject [("webPages",
               JObject [("value",
                  JArray [JObject [("name", JString "T"); ("url", JString "U")]])])])))) /\
  bing_search_handler "rocq" (server_with bing_env (HttpJson (JObject [])))
    = (Ok (results_of "name" "url" []),
       add_log (EvHttpGet (bing_request "key" "rocq"))
               (server_with bing_env (HttpJson (JObject [])))).
Proof.
  assert (Hk : forall w, environ w = bing_env -> env_set w "BING_API_KEY" "key")
    by (intros w H; unfold env_set; rewrite H; split; [vm_compute; reflexivity|discriminate]).
  split.
  - exact (proj2 (proj2 (bing_results_normalized "rocq" "key"
                           (server_with bing_env
                              (HttpJson (JObject [("webPages",
                                 JObject [("value",
                                    JArray [JObject [("name", JString "T");
                                                     ("url", JString "U")]])])])))
                           [("webPages",
                             JObject [("value",
                                JArray [JObject [("name", JString "T"); ("url", JString "U")]])])]
                           (Hk (server_with bing_env _) eq_refl) eq_refl)
                    [("value", JArray [JObject [("name", JString "T"); ("url", JString "U")]])]
                    eq_refl)
                 [[("name", JString "T"); ("url", JString "U")]] eq_refl).
  - exact (proj1 (bing_results_normalized "rocq" "key"
                    (server_with bing_env (HttpJson (JObject []))) []
                    (Hk (server_with bing_env _) eq_refl) eq_refl) eq_refl).
Defined.

Lemma scalar_body_escapes_witness :
  bing_search_handler "rocq" number_body
    = (Raised TypeError, add_log (EvHttpGet (bing_request "key" "rocq")) number_body) /\
  google_search_handler "rocq" number_body
    = (Raised TypeError, add_log (EvHttpGet (google_request "key" "cx" "rocq")) number_body).
Proof.
  split.
  - apply (proj1 (scalar_body_escapes "rocq" "key" "cx" number_body (JInt 5) eq_refl)).
    + split; [vm_compute; reflexivity|discriminate].
    + reflexivity.
  - apply (proj2 (scalar_body_escapes "rocq" "key" "cx" number_body (JInt 5) eq_refl)).
    + split; [vm_compute; reflexivity|discriminate].
    + split; [vm_compute; reflexivity|discriminate].
    + reflexivity.
Defined.

(** ** tool/web-search *)

Section WebSearchRoutes.
Variable repr : json -> string.

(** X18: when the provider a request ends up with is enabled in the
    configuration, tool/web-search answers exactly what the adapter of
    that name answers: [bing_search_handler] for bing and
    [google_search_handler] for google, on the same query and world. *)
Theorem web_search_routes_to_adapter
    (search_config : dict) (query : string) (api : option string) (w : world)
    (name : string) (apis api_config : dict) :
  effective_provider search_config api = JString name ->
  apis_table search_config = Some apis ->
  dict_lookup apis name = Some (JObject api_config) ->
  is_enabled api_config = true ->
  (name = "bing" ->
     tool_web_search_handler repr search_config query api w = bing_search_handler query w) /\
  (name = "google" ->
     tool_web_search_handler repr search_config query api w = google_search_handler query w).
Proof.
  intros Hname Hapis Hcfg Hen. unfold effective_provider in Hname.
  assert (Hrun : tool_web_search_handler repr search_config query api w =
            (if py_eq_str (JString name) "bing" then bing_search_handler query
             else if py_eq_str (JString name) "google" then google_search_handler query
             else ret (Error (-32001) ("Unsupported search API: " +:+ name))) w).
  { unfold tool_web_search_handler, bind, lift.
    rewrite Hname, (apis_table_get _ _ Hapis). simpl. rewrite Hcfg. simpl.
    unfold is_enabled in Hen. by rewrite Hen. }
  rewrite Hrun. split; intros ->; reflexivity.
Qed.
End WebSearchRoutes.

(** ** initialize *)

(** X19: initialize compares the given secret with SECRET_KEY only when
    that variable is set and not empty: without it every call is
    answered initialized, whatever secret is passed; with it, the
    answer is initialized exactly when the given secret equals it, and
    the error -32001 otherwise (also when no secret is given).  The
    world is unchanged. *)
Theorem initialize_checks_secret (secret_key : option string) (w : world) :
  (env_unset w "SECRET_KEY" -> initialize_handler secret_key w = (Ok initialized, w)) /\
  (forall expected_key,
     env_set w "SECRET_KEY" expected_key ->
     initialize_handler secret_key w
       = (Ok (if decide (secret_key = Some expected_key) then initialized
              else Error (-32001) "Unauthorized: Invalid secret key"), w)).
Proof.
  split.
  - intros H. unfold initialize_handler, bind, getenv, gets.
    by destruct H as [-> | ->].
  - intros expected_key [H Hne]. unfold initialize_handler, bind, getenv, gets.
    rewrite H. simpl. rewrite (bool_decide_eq_false_2 _ Hne). simpl.
    destruct (decide (secret_key = Some expected_key)) as [->|Hd].
    + by rewrite bool_decide_eq_true_2.
    + by rewrite bool_decide_eq_false_2.
Qed.

(** ** prompt/list and prompt/{name} *)

Lemma dict_lookup_None (d : dict) (k : string) :
  dict_lookup d k = None <-> ~ In k (dict_keys d).
Proof.
  induction d as [|[k' v] d IH]; simpl; [tauto|].
  destruct (decide (k' = k)) as [->|Hne].
  - split; [discriminate|]. intros H. destruct H. by left.
  - rewrite IH. split; [intros H [?|?]; tauto|tauto].
Qed.

(** X20: prompt/{name} answers its not-found error (-32004) exactly
    when the name is not configured or its configured value is falsy;
    in no other case. *)
Theorem prompt_not_found_iff (prompts_config : dict) (prompt_name : string) :
  prompt_handler prompts_config prompt_name
    = Ok (Error (-32004) ("Prompt '" +:+ prompt_name +:+ "' not found."))
  <-> (~ In prompt_name (dict_keys prompts_config) \/
       exists v, dict_lookup prompts_config prompt_name = Some v /\ truthy v = false).
Proof.
  unfold prompt_handler. split.
  - destruct (dict_lookup prompts_config prompt_name) as [v|] eqn:E.
    + simpl. destruct (truthy v) eqn:Ht; simpl.
      * intros H. exfalso. destruct v; simpl in H; discriminate H.
      * intros _. right. by exists v.
    + intros _. left. by apply dict_lookup_None.
  - intros [H|(v & -> & Hf)].
    + apply dict_lookup_None in H. by rewrite H.
    + simpl. by rewrite Hf.
Qed.

(** X21: prompt/list answers the configured names in configuration
    order, and every name that prompt/{name} serves with a template and
    a description is among them. *)
Theorem listed_prompt_names (prompts_config : dict) (prompt_name : string) :
  prompt_list_handler prompts_config
    = Success (JObject [("prompts", JArray (map JString (dict_keys prompts_config)))]) /\
  (forall template description,
     prompt_handler prompts_config prompt_name
       = Ok (Success (JObject [("template", template); ("description", description)])) ->
     In prompt_name (dict_keys prompts_config)).
Proof.
  split; [reflexivity|].
  intros template description H.
  destruct (dict_lookup prompts_config prompt_name) as [v|] eqn:E.
  - apply Decidable.not_not.
    + destruct (in_dec string_dec prompt_name (dict_keys prompts_config)); [by left|by right].
    + intros Hn. apply dict_lookup_None in Hn. congruence.
  - unfold prompt_handler in H. rewrite E in H. discriminate H.
Qed.

(** ** resource/model-context *)

(** X22: whatever exception decoding raises on the parameters of the
    first record with the requested model id, or on its non-empty
    metrics once the parameters decoded, leaves
    resource/model-context as that exception: the handler has no
    [except] clause, and the records after the first match are not
    looked at. *)
Theorem model_context_undecodable_raises
    (pre post : list ModelContextDB.t) (row : ModelContextDB.t) (model_id : string) (e : exn) :
  Forall (fun r => ModelContextDB.model_id r <> model_id) pre ->
  ModelContextDB.model_id row = model_id ->
  (json_loads (ModelContextDB.parameters row) = Raised e ->
     resource_model_context_handler (pre ++ row :: post) model_id = Raised e) /\
  (forall parameters text,
     json_loads (ModelContextDB.parameters row) = Ok parameters ->
     ModelContextDB.metrics row = Some text -> text <> "" ->
     json_loads text = Raised e ->
     resource_model_context_handler (pre ++ row :: post) model_id = Raised e).
Proof.
  intros Hpre Hrow. unfold resource_model_context_handler.
  rewrite (first_by_model_id_first _ _ _ _ Hpre Hrow). split.
  - by intros ->.
  - intros parameters text -> -> Hne Ht. simpl.
    rewrite (bool_decide_eq_false_2 _ Hne). simpl. by rewrite Ht.
Qed.

(** *** The handlers on the sample configurations *)

Lemma web_search_routes_to_adapter_witness :
  tool_web_search_handler sample_repr sample_search_config "rocq" (Some "google") with_google
    = google_search_handler "rocq" with_google /\
  tool_web_search_handler sample_repr
      [("apis", JObject [("bing", JObject [("enabled", JBool true)])])] "rocq" None bing_down
    = bing_search_handler "rocq" bing_down.
Proof.
  split.
  - apply (proj2 (web_search_routes_to_adapter sample_repr sample_search_config "rocq"
                    (Some "google") with_google "google"
                    [("bing", JObject [("enabled", JBool false)]);
                     ("brave", JObject [("enabled", JBool true)]);
                     ("google", JObject [("enabled", JBool true)])]
                    [("enabled", JBool true)] eq_refl eq_refl eq_refl eq_refl)).
    reflexivity.
  - apply (proj1 (web_search_routes_to_adapter sample_repr
                    [("apis", JObject [("bing", JObject [("enabled", JBool true)])])] "rocq"
                    None bing_down "bing"
                    [("bing", JObject [("enabled", JBool true)])]
                    [("enabled", JBool true)] eq_refl eq_refl eq_refl eq_refl)).
    reflexivity.
Defined.

Lemma initialize_checks_secret_witness :
  initialize_handler (Some "anything") empty_sandbox = (Ok initialized, empty_sandbox) /\
  initialize_handler (Some "s3cret") (server_with (<[ "SECRET_KEY" := "s3cret" ]> ∅) (HttpJson JNull))
    = (Ok initialized, server_with (<[ "SECRET_KEY" := "s3cret" ]> ∅) (HttpJson JNull)) /\
  initialize_handler None (server_with (<[ "SECRET_KEY" := "s3cret" ]> ∅) (HttpJson JNull))
    = (Ok (Error (-32001) "Unauthorized: Invalid secret key"),
       server_with (<[ "SECRET_KEY" := "s3cret" ]> ∅) (HttpJson JNull)).
Proof.
  assert (Hset : env_set (server_with (<[ "SECRET_KEY" := "s3cret" ]> ∅) (HttpJson JNull))
                         "SECRET_KEY" "s3cret")
    by (split; [vm_compute; reflexivity|discriminate]).
  split; [|split].
  - apply (proj1 (initialize_checks_secret (Some "anything") empty_sandbox)).
    left. vm_compute. reflexivity.
  - exact (proj2 (initialize_checks_secret (Some "s3cret") _) "s3cret" Hset).
  - exact (proj2 (initialize_checks_secret None _) "s3cret" Hset).
Defined.

Lemma prompt_not_found_iff_witness :
  prompt_handler sample_prompts_config "missing"
    = Ok (Error (-32004) "Prompt 'missing' not found.") /\
  (~ In "empty" (dict_keys sample_prompts_config) \/
   exists v, dict_lookup sample_prompts_config "empty" = Some v /\ truthy v = false).
Proof.
  split.
  - apply (proj2 (prompt_not_found_iff sample_prompts_config "missing")).
    left. intros H. simpl in H. destruct H as [H|[H|[H|[]]]]; discriminate H.
  - apply (proj1 (prompt_not_found_iff sample_prompts_config "empty")).
    reflexivity.
Defined.

Lemma listed_prompt_names_witness :
  In "partial" (dict_keys sample_prompts_config).
Proof.
  apply (proj2 (listed_prompt_names sample_prompts_config "partial")
           (JString "Hello") (JString "")).
  reflexivity.
Defined.

Lemma model_context_undecodable_raises_witness :
  resource_model_context_handler [ready_row; broken_row] "m1"
    = Ok (model_context_result ready_row (JObject []) JNull) /\
  resource_model_context_handler [broken_row; ready_row] "m1" = Raised JSONDecodeError /\
  resource_model_context_handler
      [ModelContextDB.mk (Some 2%Z) "m2" "1" "ready" "{}" (Some "{")] "m2"
    = Raised JSONDecodeError.
Proof.
  split; [vm_compute; reflexivity|]. split.
  - apply (proj1 (model_context_undecodable_raises [] [ready_row] broken_row "m1"
                    JSONDecodeError (List.Forall_nil _) eq_refl)).
    vm_compute. reflexivity.
  - apply (proj2 (model_context_undecodable_raises [] []
                    (ModelContextDB.mk (Some 2%Z) "m2" "1" "ready" "{}" (Some "{")) "m2"
                    JSONDecodeError (List.Forall_nil _) eq_refl) (JObject []) "{").
    + vm_compute. reflexivity.
    + reflexivity.
    + discriminate.
    + vm_compute. reflexivity.
Defined.

(** ** The stdio loop, line by line *)

Lemma printed_print line w : printed (add_log (EvPrint line) w) = printed w ++ [line].
Proof. unfold printed. simpl. by rewrite omap_app. Qed.

Section StdioLoop.
Variable async_dispatch : json -> M json.

Lemma main_stdio_cons request rest w :
  request <> "" ->
  main_stdio async_dispatch (request :: rest) w =
    match serve_line async_dispatch request w with
    | (Ok _, w') => main_stdio async_dispatch rest w'
    | (Raised e, w') => (Raised e, w')
    end.
Proof.
  intros Hne. simpl. destruct (decide (request = "")) as [?|_]; [done|].
  unfold bind. by destruct (serve_line async_dispatch request w) as [[[]|e] w'].
Qed.

(** X23: the [try] of the stdio loop covers the dispatcher too: when
    the dispatcher raises on a line that decoded, a [JSONDecodeError]
    is answered with the Parse-error line and the loop goes on, while
    any other exception ends the loop, the remaining lines unread and
    nothing printed for this one. *)
Theorem stdio_dispatcher_exception
    (request : string) (rest : list string) (w w1 : world) (request_json : json) (e : exn) :
  request <> "" ->
  json_loads request = Ok request_json ->
  async_dispatch request_json w = (Raised e, w1) ->
  main_stdio async_dispatch (request :: rest) w
    = if is_decode_error e
      then main_stdio async_dispatch rest (add_log (EvPrint parse_error_response) w1)
      else (Raised e, w1).
Proof.
  intros Hne Hj Hd. rewrite (main_stdio_cons _ _ _ Hne).
  unfold serve_line, try_catch, bind, lift. rewrite Hj, Hd.
  by destruct e.
Qed.

(** X24: with a dispatcher that answers every request and prints
    nothing itself, and lines that are not empty and on which decoding
    raises nothing but [JSONDecodeError], the loop ends normally and has
    printed exactly one line per line read; an empty read ends it, so
    what follows the end of the input changes nothing. *)
Theorem stdio_one_line_per_request (lines rest : list string) (w : world) :
  quiet_dispatcher async_dispatch ->
  Forall (fun l => l <> "" /\ forall e, json_loads l = Raised e -> e = JSONDecodeError) lines ->
  exists out w',
    main_stdio async_dispatch lines w = (Ok tt, w') /\
    main_stdio async_dispatch (lines ++ "" :: rest) w = (Ok tt, w') /\
    printed w' = printed w ++ out /\
    length out = length lines.
Proof.
  intros Hq Hall. revert w.
  induction Hall as [|l lines [Hne Hl] _ IH]; intros w.
  - exists [], w. split; [reflexivity|]. split; [reflexivity|]. by rewrite app_nil_r.
  - rewrite <- app_comm_cons, !(main_stdio_cons _ _ _ Hne).
    unfold serve_line, try_catch, bind, lift.
    destruct (json_loads l) as [j|e] eqn:Ej.
    + destruct (Hq j w) as (response & w1 & Hd & Hp). rewrite Hd. unfold print, emit.
      destruct (IH (add_log (EvPrint response) w1)) as (out & w' & Hrun & Hend & Hout & Hlen).
      exists (response :: out), w'. split; [exact Hrun|]. split; [exact Hend|]. split.
      * rewrite Hout, printed_print, Hp. by rewrite <- app_assoc.
      * simpl. by rewrite Hlen.
    + rewrite (Hl e eq_refl). unfold print, emit.
      destruct (IH (add_log (EvPrint parse_error_response) w))
        as (out & w' & Hrun & Hend & Hout & Hlen).
      exists (parse_error_response :: out), w'. split; [exact Hrun|]. split; [exact Hend|]. split.
      * rewrite Hout, printed_print. by rewrite <- app_assoc.
      * simpl. by rewrite Hlen.
Qed.
End StdioLoop.

(** ** Start-up *)

Lemma split_sep_plain fn : has_char 47 fn = false -> split_sep fn = [fn].
Proof.
  intros H. unfold split_sep. rewrite (split_go_nosep _ _ H). simpl.
  by rewrite string_of_list_ascii_of_string.
Qed.

Lemma plain_not_dir_required fn : plain_name fn = true -> dir_required fn = false.
Proof.
  intros (Hne & Hdot & _ & Hsep & _)%plain_name_parts.
  unfold dir_required. rewrite (split_sep_plain _ Hsep). simpl.
  by rewrite !bool_decide_eq_false_2.
Qed.

Lemma read_text_str_plain fn w :
  plain_name fn = true ->
  String.length fn <= NAME_MAX ->
  read_text_str fn w =
    (match files w !! (cwd w ++ [fn]) with
     | Some (File bytes) => decode_text bytes
     | Some Dir => Raised (OSError 21)
     | None => Raised (OSError 2)
     end, add_log (EvOpen (Path fn) "r") w).
Proof.
  intros Hplain Hlen.
  pose proof (plain_name_parts _ Hplain) as (Hne & Hdot & Hdd & Hsep & Hnul & Hu).
  unfold read_text_str, bind, emit, gets, raise, lift.
  rewrite (utf8_valid_encodable _ Hu), Hnul, (utf8_valid_fs_bytes _ Hu),
    (plain_not_dir_required _ Hplain), (plain_path _ Hplain).
  cbn [negb]. cbv iota.
  destruct (decide (fn = "")) as [?|_]; [done|].
  assert (Nat.leb PATH_MAX (String.length fn) = false) as ->
    by (apply Nat.leb_gt; unfold NAME_MAX, PATH_MAX in *; lia).
  change (is_absolute (mkPath "" [fn])) with false. cbn [path_parts]. cbv iota.
  cbn [fst snd add_log files cwd]. rewrite (walk_cons _ _ _ _ Hdd), (utf8_valid_fs_bytes _ Hu).
  assert (Nat.ltb NAME_MAX (String.length fn) = false) as -> by (by apply Nat.ltb_ge).
  by destruct (files w !! (cwd w ++ [fn])) as [[c|]|].
Qed.

(** X25: load_config of a plain file name (one component of the working
    directory, within the length a name may have): a missing file gives
    the empty mapping; a regular file that is UTF-8 text gives the
    document it holds when its text decodes, and the empty mapping when
    the decoder raises [JSONDecodeError]; a regular file that is no
    UTF-8 text makes it raise [UnicodeDecodeError], a text nested too
    deep to decode [RecursionError], and a directory errno 21: the
    [except] clause names [FileNotFoundError] and [JSONDecodeError]
    only.  The text is that of the file's bytes with every line end
    read as a line feed. *)
Theorem load_config_degrades (filename : string) (w : world) :
  plain_name filename = true ->
  String.length filename <= NAME_MAX ->
  let w' := add_log (EvOpen (Path filename) "r") w in
  (files w !! (cwd w ++ [filename]) = None ->
     load_config filename w = (Ok (JObject []), w')) /\
  (forall bytes,
     files w !! (cwd w ++ [filename]) = Some (File bytes) ->
     (utf8_valid bytes = false ->
        load_config filename w = (Raised UnicodeDecodeError, w')) /\
     (utf8_valid bytes = true ->
        (forall document, json_loads (universal_newlines bytes) = Ok document ->
           load_config filename w = (Ok document, w')) /\
        (json_loads (universal_newlines bytes) = Raised JSONDecodeError ->
           load_config filename w = (Ok (JObject []), w')) /\
        (json_loads (universal_newlines bytes) = Raised RecursionError ->
           load_config filename w = (Raised RecursionError, w')))) /\
  (files w !! (cwd w ++ [filename]) = Some Dir ->
     load_config filename w = (Raised (OSError 21), w')).
Proof.
  intros Hplain Hlen w'. unfold load_config, try_catch, bind.
  rewrite (read_text_str_plain _ _ Hplain Hlen). fold w'.
  split; [|split].
  - by intros ->.
  - intros bytes ->. unfold decode_text. split.
    + by intros ->.
    + intros ->. unfold lift. split; [|split].
      * by intros document ->.
      * by intros ->.
      * by intros ->.
  - by intros ->.
Qed.

Lemma read_text_str_frame fn w :
  files (snd (read_text_str fn w)) = files w /\ cwd (snd (read_text_str fn w)) = cwd w.
Proof.
  unfold read_text_str, bind, emit, gets, raise, lift.
  destruct (negb (encodable fn)); [done|].
  destruct (has_char 0 fn); [done|].
  destruct (decide (fn = "")); [done|].
  destruct (Nat.leb _ _); [done|]. cbn [fst snd].
  destruct (walk _ _ _) as [q [c|]|q|m]; try done.
  by destruct (dir_required fn).
Qed.

Lemma load_config_frame fn w :
  files (snd (load_config fn w)) = files w /\ cwd (snd (load_config fn w)) = cwd w.
Proof.
  pose proof (read_text_str_frame fn w) as H.
  assert (Hh : forall (e : exn) (w1 : world),
            snd (match
                   match e with
                   | JSONDecodeError | OSError 2%Z => Some (ret (JObject []))
                   | _ => None
                   end
                 with
                 | Some h => h w1
                 | None => (Raised e, w1)
                 end) = w1).
  { intros e w1. destruct e as [| | | | | |n| | |]; try reflexivity.
    destruct n as [|[p|[p|p|]|]|]; reflexivity. }
  unfold load_config, try_catch, bind.
  destruct (read_text_str fn w) as [[text|e] w1]; simpl in H.
  - unfold lift. destruct (json_loads text) as [v|e]; [exact H|].
    by rewrite Hh.
  - by rewrite Hh.
Qed.

Lemma mkdir_sandbox_run w :
  mkdir_exist_ok sandbox w =
    match files w !! sandbox_root w with
    | None => (Ok tt, set_files (<[sandbox_root w := Dir]> (files w)) w)
    | Some Dir => (Ok tt, w)
    | Some (File _) => (Raised (OSError 17), w)
    end.
Proof.
  unfold mkdir_exist_ok, bind, gets, namei, sandbox_root.
  rewrite syscall_sandbox.
  change (Nat.leb PATH_MAX (path_length sandbox)) with false.
  change (is_absolute sandbox) with false.
  change (path_parts sandbox) with ["sandbox"]. cbv iota.
  rewrite walk_cons by done. rewrite fs_bytes_sandbox.
  change (Nat.ltb NAME_MAX (String.length "sandbox")) with false. cbv iota.
  by destruct (files w !! (cwd w ++ ["sandbox"])) as [[c|]|].
Qed.

(** The three configuration reads keep the sandbox directory that
    [mkdir] found or made. *)
Lemma load_configs_keep_sandbox w1 configs w' :
  files w1 !! sandbox_root w1 = Some Dir ->
  (let* search_config := load_config "search_config.json" in
   let* resources_config := load_config "resources.json" in
   let* prompts_config := load_config "prompts.json" in
   ret (search_config, resources_config, prompts_config)) w1 = (Ok configs, w') ->
  files w' !! sandbox_root w' = Some Dir.
Proof.
  intros Hdir. unfold bind.
  pose proof (load_config_frame "search_config.json" w1) as [Hf1 Hc1].
  destruct (load_config "search_config.json" w1) as [[a|e] w2]; [|discriminate].
  pose proof (load_config_frame "resources.json" w2) as [Hf2 Hc2].
  destruct (load_config "resources.json" w2) as [[a0|e] w3]; [|discriminate].
  pose proof (load_config_frame "prompts.json" w3) as [Hf3 Hc3].
  destruct (load_config "prompts.json" w3) as [[a1|e] w4]; [|discriminate].
  simpl in *. intros [= _ <-].
  unfold sandbox_root in *. by rewrite Hf3, Hf2, Hf1, Hc3, Hc2, Hc1.
Qed.

Section StartUp.
Variable str_exn : exn -> string.

(** X26: start-up fails with errno 17 when a regular file stands where
    the sandbox directory should be, before any configuration is read;
    whenever its sandbox and configuration steps succeed, the sandbox
    directory exists afterwards, so that a tool/file-list right after
    start-up succeeds. *)
Theorem startup_makes_sandbox (w : world) :
  (forall content, files w !! sandbox_root w = Some (File content) ->
     startup w = (Raised (OSError 17), w)) /\
  (forall configs w',
     startup w = (Ok configs, w') ->
     files w' !! sandbox_root w' = Some Dir /\
     exists names,
       tool_file_list_handler str_exn w'
         = (Ok (files_result names), add_log (EvIterdir sandbox) w')).
Proof.
  split.
  - intros content H. unfold startup, bind. by rewrite mkdir_sandbox_run, H.
  - intros configs w' Hrun.
    assert (Hdir : files w' !! sandbox_root w' = Some Dir).
    { revert Hrun. unfold startup. unfold bind at 1. rewrite mkdir_sandbox_run.
      destruct (files w !! sandbox_root w) as [[c|]|] eqn:E.
      - discriminate.
      - by apply load_configs_keep_sandbox.
      - apply load_configs_keep_sandbox. unfold sandbox_root. simpl.
        apply lookup_insert_eq. }
    split; [exact Hdir|]. eexists. by apply list_sandbox.
Qed.
End StartUp.

(** *** The loop and the start-up on the sample worlds *)

Lemma stdio_dispatcher_exception_witness :
  main_stdio (fun _ => raise KeyError) ["{}"; "{}"] empty_sandbox
    = (Raised KeyError, empty_sandbox) /\
  main_stdio (fun _ => raise JSONDecodeError) ["{}"; "{}"] empty_sandbox
    = main_stdio (fun _ => raise JSONDecodeError) ["{}"]
        (add_log (EvPrint parse_error_response) empty_sandbox).
Proof.
  split.
  - apply (stdio_dispatcher_exception (fun _ => raise KeyError) "{}" ["{}"]
             empty_sandbox empty_sandbox (JObject []) KeyError).
    + discriminate.
    + vm_compute. reflexivity.
    + reflexivity.
  - apply (stdio_dispatcher_exception (fun _ => raise JSONDecodeError) "{}" ["{}"]
             empty_sandbox empty_sandbox (JObject []) JSONDecodeError).
    + discriminate.
    + vm_compute. reflexivity.
    + reflexivity.
Defined.

Lemma stdio_one_line_per_request_witness :
  exists out w',
    main_stdio sample_dispatch ["{bad"; "{}"] empty_sandbox = (Ok tt, w') /\
    main_stdio sample_dispatch (["{bad"; "{}"] ++ "" :: ["never read"]) empty_sandbox
      = (Ok tt, w') /\
    printed w' = printed empty_sandbox ++ out /\
    length out = length ["{bad"; "{}"].
Proof.
  apply (stdio_one_line_per_request sample_dispatch ["{bad"; "{}"] ["never read"]
           empty_sandbox).
  - intros request w. exists (JObject [("jsonrpc", JString "2.0"); ("result", JNull);
                                       ("id", JNull)]), w.
    split; reflexivity.
  - repeat constructor; try discriminate;
      intros e H; vm_compute in H; by inversion H.
Defined.

Lemma load_config_degrades_witness :
  load_config "missing.json" with_configs
    = (Ok (JObject []), add_log (EvOpen (Path "missing.json") "r") with_configs) /\
  load_config "resources.json" with_configs
    = (Ok (JArray [JInt 1]), add_log (EvOpen (Path "resources.json") "r") with_configs) /\
  load_config "prompts.json" with_configs
    = (Ok (JObject []), add_log (EvOpen (Path "prompts.json") "r") with_configs) /\
  load_config "search_config.json" with_configs
    = (Raised (OSError 21), add_log (EvOpen (Path "search_config.json") "r") with_configs) /\
  load_config "resources.json" undecodable_resources
    = (Raised UnicodeDecodeError,
       add_log (EvOpen (Path "resources.json") "r") undecodable_resources).
Proof.
  split; [|split; [|split; [|split]]].
  - pose proof (load_config_degrades "missing.json" with_configs ltac:(vm_compute; reflexivity)
                  ltac:(apply Nat.leb_le; vm_compute; reflexivity)) as H.
    cbv zeta in H. apply H; vm_compute; reflexivity.
  - pose proof (load_config_degrades "resources.json" with_configs ltac:(vm_compute; reflexivity)
                  ltac:(apply Nat.leb_le; vm_compute; reflexivity))
      as H.
    cbv zeta in H. destruct H as (_ & H & _).
    destruct (H "[1]" ltac:(vm_compute; reflexivity)) as [_ H'].
    apply (proj1 (H' eq_refl)). vm_compute. reflexivity.
  - pose proof (load_config_degrades "prompts.json" with_configs ltac:(vm_compute; reflexivity)
                  ltac:(apply Nat.leb_le; vm_compute; reflexivity)) as H.
    cbv zeta in H. destruct H as (_ & H & _).
    destruct (H "{" ltac:(vm_compute; reflexivity)) as [_ H'].
    apply (proj1 (proj2 (H' eq_refl))). vm_compute. reflexivity.
  - pose proof (load_config_degrades "search_config.json" with_configs ltac:(vm_compute; reflexivity)
                  ltac:(apply Nat.leb_le; vm_compute; reflexivity)) as H.
    cbv zeta in H. apply H; vm_compute; reflexivity.
  - pose proof (load_config_degrades "resources.json" undecodable_resources ltac:(vm_compute; reflexivity)
                  ltac:(apply Nat.leb_le; vm_compute; reflexivity)) as H.
    cbv zeta in H. destruct H as (_ & H & _).
    destruct (H (String (Decoder.chr 255) "") ltac:(vm_compute; reflexivity)) as [H' _].
    apply H'. vm_compute. reflexivity.
Defined.

(** A configuration file of unclosed brackets is no JSON and gives the
    empty mapping; one nested deeper than the decoder can follow stops
    the start-up. *)
Example load_config_on_brackets :
  (let w := set_files (<[ ["srv"; "app"; "prompts.json"] := File "[[[" ]>
                         (files empty_sandbox)) empty_sandbox in
   fst (load_config "prompts.json" w) = Ok (JObject [])) /\
  (let w := set_files (<[ ["srv"; "app"; "prompts.json"] := File deep_line ]>
                         (files empty_sandbox)) empty_sandbox in
   fst (load_config "prompts.json" w) = Raised RecursionError).
Proof. split; vm_compute; reflexivity. Qed.

Lemma startup_makes_sandbox_witness :
  startup (set_files (<[ ["srv"; "app"; "sandbox"] := File "" ]> (files fresh_directory))
                     fresh_directory)
    = (Raised (OSError 17),
       set_files (<[ ["srv"; "app"; "sandbox"] := File "" ]> (files fresh_directory))
                 fresh_directory) /\
  fst (startup fresh_directory) = Ok (JObject [], JObject [], JObject []) /\
  files (snd (startup fresh_directory)) !! sandbox_root (snd (startup fresh_directory))
    = Some Dir.
Proof.
  split; [|split].
  - apply (proj1 (startup_makes_sandbox sample_str_exn _) "").
    vm_compute. reflexivity.
  - vm_compute. reflexivity.
  - apply (proj2 (startup_makes_sandbox sample_str_exn fresh_directory)
             (JObject [], JObject [], JObject []) (snd (startup fresh_directory))).
    vm_compute. reflexivity.
Defined.
